(** * Bay Wheels client: a shallow embedding of [bay_wheels/client.py]

    The client talks to an undocumented HTTP API.  The embedding keeps the
    Python data as Python has it (strings are sequences of code points, JSON
    values are the objects [json.loads] builds, exceptions are values with a
    class and a message) and threads the requests a call sends through a small
    logging monad, so that "no request was sent" is a statement about the
    log. *)

From Stdlib Require Import List String Ascii Bool ZArith NArith Lia.
From Stdlib.Strings Require Import Byte.
From Stdlib Require Import SpecFloat DecimalString.
From Stdlib Require Import Permutation Sorted.
Import ListNotations.

Set Implicit Arguments.
Set Warnings "-register-all".

(** ** Python strings *)

(** A Python [str] is a sequence of Unicode code points. *)
Definition codepoint := N.
Definition pystr := list codepoint.

(** A string literal of the source, as a [str]. *)
Definition lit (s : string) : pystr :=
  List.map N_of_ascii (list_ascii_of_string s).
Arguments lit : simpl never.

Fixpoint str_eqb (a b : pystr) : bool :=
  match a, b with
  | [], [] => true
  | x :: a', y :: b' => N.eqb x y && str_eqb a' b'
  | _, _ => false
  end.

(** [s[:len(p)] == p] *)
Fixpoint str_prefix (p s : pystr) : bool :=
  match p, s with
  | [], _ => true
  | x :: p', y :: s' => N.eqb x y && str_prefix p' s'
  | _ :: _, [] => false
  end.

(** [p in s] for two strings: substring test. *)
Fixpoint str_contains (s p : pystr) : bool :=
  str_prefix p s ||
  match s with
  | [] => false
  | _ :: s' => str_contains s' p
  end.

(** [str(n)] for an [int]: decimal digits, with a sign when negative. *)
Definition int_str (z : Z) : pystr :=
  lit (NilZero.string_of_int (Z.to_int z)).

(** [sep.join(parts)] *)
Fixpoint str_join (sep : pystr) (parts : list pystr) : pystr :=
  match parts with
  | [] => []
  | [p] => p
  | p :: rest => p ++ sep ++ str_join sep rest
  end.

(** ** Python values *)

(** The objects [json.loads] produces.  A [dict] keeps its insertion order;
    keys are unique in a dict built by the decoder, and lookup takes the
    first binding. *)
Inductive pyvalue : Type :=
| PyNone
| PyBool (b : bool)
| PyInt (z : Z)
| PyFloat (f : spec_float)
| PyStr (s : pystr)
| PyList (l : list pyvalue)
| PyDict (d : list (pystr * pyvalue)).

(** [type(v).__name__] *)
Definition type_name (v : pyvalue) : pystr :=
  match v with
  | PyNone => lit "NoneType"
  | PyBool _ => lit "bool"
  | PyInt _ => lit "int"
  | PyFloat _ => lit "float"
  | PyStr _ => lit "str"
  | PyList _ => lit "list"
  | PyDict _ => lit "dict"
  end.

Fixpoint dict_get (d : list (pystr * pyvalue)) (k : pystr) : option pyvalue :=
  match d with
  | [] => None
  | (k', v) :: d' => if str_eqb k' k then Some v else dict_get d' k
  end.

(** [v == s] for a string literal [s]: only a [str] equals a [str]. *)
Definition py_eq_str (v : pyvalue) (s : pystr) : bool :=
  match v with
  | PyStr t => str_eqb t s
  | _ => false
  end.

(** The exact value of a float against an integer, as Python compares them. *)
Definition float_eq_int (f : spec_float) (z : Z) : bool :=
  match f with
  | S754_zero _ => Z.eqb z 0
  | S754_infinity _ => false
  | S754_nan => false
  | S754_finite s m e =>
      let n := if s then Z.neg m else Z.pos m in
      if Z.leb 0 e
      then Z.eqb (n * 2 ^ e) z
      else Z.eqb n (z * 2 ^ (- e))
  end.

(** [v == n] for an integer literal [n].  Python compares numbers by value
    across [bool], [int] and [float]: [True == 1] and [1.0 == 1] hold. *)
Definition py_eq_int (v : pyvalue) (n : Z) : bool :=
  match v with
  | PyBool b => Z.eqb (if b then 1 else 0) n
  | PyInt z => Z.eqb z n
  | PyFloat f => float_eq_int f n
  | _ => false
  end.

(** ** Exceptions *)

Inductive exn_class : Type :=
| AuthenticationError
| BayWheelsError
| ReservationError
| JSONDecodeError
| UnicodeDecodeError
| ValueError
| TypeError
| AttributeError
| KeyError
| OtherException.

(** An exception object: its class and [str(e)]. *)
Record exn : Type := Exn { exn_class_of : exn_class; exn_message : pystr }.

(** [isinstance(e, json.JSONDecodeError)] *)
Definition is_json_decode_error (e : exn) : bool :=
  match exn_class_of e with
  | JSONDecodeError => true
  | _ => false
  end.

(** [isinstance(e, ValueError)]: [JSONDecodeError] and [UnicodeDecodeError]
    derive from [ValueError]. *)
Definition is_value_error (e : exn) : bool :=
  match exn_class_of e with
  | JSONDecodeError | UnicodeDecodeError | ValueError => true
  | _ => false
  end.

(** The outcome of evaluating a Python expression. *)
Inductive pyresult (A : Type) : Type :=
| Ok (a : A)
| Raise (e : exn).
Arguments Ok {A} a.
Arguments Raise {A} e.

Definition bind_result {A B} (r : pyresult A) (k : A -> pyresult B) : pyresult B :=
  match r with
  | Ok a => k a
  | Raise e => Raise e
  end.

Declare Scope py_scope.
Delimit Scope py_scope with py.
Notation "x <- r ;; k" := (bind_result r (fun x => k))
  (at level 61, r at next level, right associativity) : py_scope.

Definition raise {A} (c : exn_class) (msg : pystr) : pyresult A :=
  Raise (Exn c msg).

(** [try: body  except <handled>: handler(e)] *)
Definition try_except {A} (body : pyresult A) (handled : exn -> bool)
    (handler : exn -> pyresult A) : pyresult A :=
  match body with
  | Ok a => Ok a
  | Raise e => if handled e then handler e else Raise e
  end.

Definition is_ok {A} (r : pyresult A) : bool :=
  match r with
  | Ok _ => true
  | Raise _ => false
  end.

(** ** Operations on values, with the exceptions Python raises *)

Open Scope py_scope.

(** [v.get(k, default)] *)
Definition py_get (v : pyvalue) (k : pystr) (default : pyvalue) : pyresult pyvalue :=
  match v with
  | PyDict d =>
      Ok (match dict_get d k with Some x => x | None => default end)
  | _ =>
      raise AttributeError
        (lit "'" ++ type_name v ++ lit "' object has no attribute 'get'")
  end.

(** [k in v] for a string [k] *)
Definition py_contains (v : pyvalue) (k : pystr) : pyresult bool :=
  match v with
  | PyDict d => Ok (match dict_get d k with Some _ => true | None => false end)
  | PyList l => Ok (existsb (fun x => py_eq_str x k) l)
  | PyStr s => Ok (str_contains s k)
  | _ =>
      raise TypeError
        (lit "argument of type '" ++ type_name v ++ lit "' is not iterable")
  end.

(** [for x in v]: the items the loop visits. *)
Definition py_iter (v : pyvalue) : pyresult (list pyvalue) :=
  match v with
  | PyList l => Ok l
  | PyDict d => Ok (List.map (fun kv => PyStr (fst kv)) d)
  | PyStr s => Ok (List.map (fun c => PyStr [c]) s)
  | _ =>
      raise TypeError
        (lit "'" ++ type_name v ++ lit "' object is not iterable")
  end.

(** ** Bytes *)

(** [(b & 0xC0) == 0x80] *)
Definition is_continuation (b : N) : bool :=
  (N.leb 0x80 b && N.leb b 0xBF)%N.

(** [bytes.decode("utf-8", errors="ignore")], on the byte values.  This is
    CPython's decoder: a well-formed sequence gives its code point; an
    ill-formed one is an error that covers the bytes read so far (the lead
    byte alone, or the lead byte with the continuation bytes that were
    accepted), and with [errors="ignore"] those bytes are skipped and decoding
    resumes right after them; a sequence cut short by the end of the data is
    skipped as a whole.  Overlong forms, surrogates and code points above
    U+10FFFF are ill-formed at their second byte. *)
Fixpoint utf8_decode_ignore (bs : list N) : pystr :=
  match bs with
  | [] => []
  | ch :: s1 =>
      if N.ltb ch 0x80 then ch :: utf8_decode_ignore s1
      else if N.ltb ch 0xC2 then utf8_decode_ignore s1
      else if N.ltb ch 0xE0 then
        match s1 with
        | [] => []
        | ch2 :: s2 =>
            if is_continuation ch2
            then (N.shiftl ch 6 + ch2 - (N.shiftl 0xC0 6 + 0x80))%N
                   :: utf8_decode_ignore s2
            else utf8_decode_ignore s1
        end
      else if N.ltb ch 0xF0 then
        match s1 with
        | [] => []
        | ch2 :: s2 =>
            if negb (is_continuation ch2)
               || (if N.ltb ch2 0xA0 then N.eqb ch 0xE0 else N.eqb ch 0xED)
            then utf8_decode_ignore s1
            else
              match s2 with
              | [] => []
              | ch3 :: s3 =>
                  if is_continuation ch3
                  then (N.shiftl ch 12 + N.shiftl ch2 6 + ch3
                        - (N.shiftl 0xE0 12 + N.shiftl 0x80 6 + 0x80))%N
                         :: utf8_decode_ignore s3
                  else utf8_decode_ignore s2
              end
        end
      else if N.ltb ch 0xF5 then
        match s1 with
        | [] => []
        | ch2 :: s2 =>
            if negb (is_continuation ch2)
               || (if N.ltb ch2 0x90 then N.eqb ch 0xF0 else N.eqb ch 0xF4)
            then utf8_decode_ignore s1
            else
              match s2 with
              | [] => []
              | ch3 :: s3 =>
                  if negb (is_continuation ch3) then utf8_decode_ignore s2
                  else
                    match s3 with
                    | [] => []
                    | ch4 :: s4 =>
                        if is_continuation ch4
                        then (N.shiftl ch 18 + N.shiftl ch2 12 + N.shiftl ch3 6 + ch4
                              - (N.shiftl 0xF0 18 + N.shiftl 0x80 12
                                 + N.shiftl 0x80 6 + 0x80))%N
                               :: utf8_decode_ignore s4
                        else utf8_decode_ignore s3
                    end
              end
        end
      else utf8_decode_ignore s1
  end.

Definition bytes_decode_ignore (content : list byte) : pystr :=
  utf8_decode_ignore (List.map Byte.to_N content).

(** ** Records of [models.py] *)

Module TokenInfo.
(** Modelled from the spec: [TokenInfo] is declared in [models.py], which is
    not among the sources; the data model gives it an access token and an
    optional time stamp. *)
Record t : Type := Make { access_token : pystr; obtained_at : option Z }.
End TokenInfo.

Module Station.
(** Modelled from the spec: [Station] is declared in [models.py]; the data
    model lists an id, an optional name, three availability counts and the
    coordinates. *)
Record t : Type := Make {
  id : pystr;
  name : option pystr;
  ebikes_available : Z;
  bikes_available : Z;
  docks_available : Z;
  lat : spec_float;
  lon : spec_float
}.
End Station.

Module Reservation.
(** Modelled from the spec: [Reservation] is declared in [models.py]; the
    data model gives it three strings. *)
Record t : Type := Make {
  ride_id : pystr;
  status : pystr;
  station_id : pystr
}.
End Reservation.

(** ** The HTTP session *)

Definition headers := list (pystr * pystr).

(** [session.post(url, json=..., headers=...)] *)
Record request : Type := Request {
  req_url : pystr;
  req_json : pyvalue;
  req_headers : headers
}.

(** What the client reads from a response: the status code, the raw body and
    the outcome of [response.json()]. *)
Record response : Type := Response {
  status_code : Z;
  content : list byte;
  json : pyresult pyvalue
}.

(** How the authentication service answers a login attempt. *)
Inductive login_reply : Type :=
| LoginGranted (token : pystr)
| LoginEmailRequired (cause : pystr)
| LoginRejected (cause : pystr).

(** ** What lies outside [client.py] *)

(** The Python runtime, [models.py], [auth.py] and the remote service.  Every
    definition and theorem below is stated for arbitrary collaborators. *)
Class Collaborators : Type := {
  (** [json.loads] on a [str] *)
  json_loads : pystr -> pyresult pyvalue;
  (** [repr] of a [float] and of a [str] *)
  float_repr : spec_float -> pystr;
  str_repr : pystr -> pystr;
  (** the Unicode database beyond ASCII: decimal digits, and the other
      alphanumeric characters *)
  unicode_decimal : codepoint -> bool;
  unicode_alnum : codepoint -> bool;
  (** [Station.from_geojson_feature] *)
  from_geojson_feature : pyvalue -> pyresult Station.t;
  (** the exception with which [Reservation(...)] turns down a [status]
      that is no string *)
  invalid_status : pyvalue -> exn;
  (** [AuthManager._get_common_headers()] *)
  get_common_headers : headers;
  (** the answer of the service to a login with a phone number, a code and
      an optional email address; the text around the marker in the message
      of the email escalation; the clock *)
  login_service : pystr -> pystr -> option pystr -> login_reply;
  email_message_before : pystr;
  email_message_after : pystr;
  now : option Z;
  (** the transport: the response to a request *)
  post : request -> response
}.

Section Client.
Context {W : Collaborators}.

(** ** [str()] and [repr()] *)

Fixpoint py_repr (v : pyvalue) : pystr :=
  match v with
  | PyNone => lit "None"
  | PyBool true => lit "True"
  | PyBool false => lit "False"
  | PyInt z => int_str z
  | PyFloat f => float_repr f
  | PyStr s => str_repr s
  | PyList l => lit "[" ++ str_join (lit ", ") (List.map py_repr l) ++ lit "]"
  | PyDict d =>
      lit "{"
      ++ str_join (lit ", ")
           (List.map (fun kv : pystr * pyvalue => let (k, x) := kv in
                                str_repr k ++ lit ": " ++ py_repr x) d)
      ++ lit "}"
  end.

(** [str(v)], also what an f-string writes for [{v}] *)
Definition py_str (v : pyvalue) : pystr :=
  match v with
  | PyStr s => s
  | _ => py_repr v
  end.

(** [v[k]] for a string [k]; the text of a [KeyError] is the [repr] of the
    key. *)
Definition py_getitem (v : pyvalue) (k : pystr) : pyresult pyvalue :=
  match v with
  | PyDict d =>
      match dict_get d k with
      | Some x => Ok x
      | None => raise KeyError (str_repr k)
      end
  | PyList _ => raise TypeError (lit "list indices must be integers or slices, not str")
  | PyStr _ => raise TypeError (lit "string indices must be integers, not 'str'")
  | _ =>
      raise TypeError
        (lit "'" ++ type_name v ++ lit "' object is not subscriptable")
  end.

(** [json.loads(v)]: the argument has to be text. *)
Definition py_json_loads (v : pyvalue) : pyresult pyvalue :=
  match v with
  | PyStr s => json_loads s
  | _ =>
      raise TypeError
        (lit "the JSON object must be str, bytes or bytearray, not "
         ++ type_name v)
  end.

(** ** The pattern [\b(\d{15,20})\b] *)

Definition is_ascii_digit (c : codepoint) : bool :=
  (N.leb 48 c && N.leb c 57)%N.

Definition is_ascii_word (c : codepoint) : bool :=
  is_ascii_digit c
  || (N.leb 65 c && N.leb c 90)%N
  || (N.leb 97 c && N.leb c 122)%N
  || N.eqb c 95.

(** [\d] on a [str] pattern *)
Definition is_digit (c : codepoint) : bool :=
  if N.ltb c 128 then is_ascii_digit c else unicode_decimal c.

(** [\w] on a [str] pattern: alphanumeric or underscore *)
Definition is_word (c : codepoint) : bool :=
  if N.ltb c 128 then is_ascii_word c
  else unicode_decimal c || unicode_alnum c.

(** [\b] at a position, given the character before it (if any) and the text
    from it on: exactly one side is a word character. *)
Definition word_boundary (prev : option codepoint) (rest : pystr) : bool :=
  xorb (match prev with Some c => is_word c | None => false end)
       (match rest with c :: _ => is_word c | [] => false end).

(** The greedy [\d{15,20}]: how many digits it takes at first, at most [max]. *)
Fixpoint leading_digits (max : nat) (s : pystr) : nat :=
  match max, s with
  | S m, c :: s' => if is_digit c then S (leading_digits m s') else 0
  | _, _ => 0
  end.

(** After [n] digits were taken: try the closing [\b]; on failure give one
    digit back and try again, as long as 15 remain. *)
Fixpoint match_tail (n : nat) (s : pystr) {struct n} : option pystr :=
  if Nat.ltb n 15 then None
  else if word_boundary (nth_error s (n - 1)) (skipn n s) then Some (firstn n s)
  else match n with
       | O => None
       | S n' => match_tail n' s
       end.

(** The pattern anchored at one position. *)
Definition match_here (prev : option codepoint) (s : pystr) : option pystr :=
  if word_boundary prev s then match_tail (leading_digits 20 s) s else None.

(** [re.search]: the leftmost position where the pattern matches. *)
Fixpoint search_from (prev : option codepoint) (s : pystr) : option pystr :=
  match match_here prev s with
  | Some m => Some m
  | None =>
      match s with
      | [] => None
      | c :: s' => search_from (Some c) s'
      end
  end.

(** [re.search(r"\b(\d{15,20})\b", text)], giving [match.group(1)] *)
Definition re_search_ride_id (text : pystr) : option pystr :=
  search_from None text.

(** ** The client *)

(** The part of [AuthManager] the client reads and [login] writes: the token
    in memory, where the token is kept on disk (if anywhere), and the record
    saved there. *)
Record AuthManager : Type := MakeAuth {
  token : option TokenInfo.t;
  token_path : option pystr;
  saved_token : option TokenInfo.t
}.

Record BayWheelsClient : Type := MakeClient { auth : AuthManager }.

Definition BASE_URL : pystr := lit "https://api.lyft.com".

(** Modelled from the spec: [AuthManager.access_token] is declared in
    [auth.py]; it gives the token string in memory, or nothing, and performs
    no input or output. *)
Definition auth_access_token (a : AuthManager) : option pystr :=
  option_map TokenInfo.access_token (token a).

(** The property [access_token]. *)
Definition access_token (self : BayWheelsClient) : option pystr :=
  auth_access_token (auth self).

(** The property [is_authenticated]: [access_token is not None]. *)
Definition is_authenticated (self : BayWheelsClient) : bool :=
  match auth_access_token (auth self) with
  | Some _ => true
  | None => false
  end.

(** [headers[k] = v] and [headers.update({k: v})] *)
Fixpoint headers_set (h : headers) (k v : pystr) : headers :=
  match h with
  | [] => [(k, v)]
  | (k', v') :: h' =>
      if str_eqb k' k then (k', v) :: h' else (k', v') :: headers_set h' k v
  end.

(** [_get_headers]: the [authorization] header is added when a token is
    present and not empty. *)
Definition get_headers (self : BayWheelsClient) (authenticated : bool) : headers :=
  let headers := get_common_headers in
  let headers := headers_set headers (lit "content-type") (lit "application/json") in
  match auth_access_token (auth self) with
  | Some (c :: tok) =>
      if authenticated
      then headers_set headers (lit "authorization") (lit "Bearer " ++ c :: tok)
      else headers
  | _ => headers
  end.

(** *** Calls that may send requests *)

(** A computation that may send requests: it extends the log of the requests
    sent so far and ends with a value or an exception. *)
Definition net (A : Type) : Type := list request -> pyresult A * list request.

Definition net_lift {A} (r : pyresult A) : net A := fun log => (r, log).

Definition net_raise {A} (c : exn_class) (msg : pystr) : net A :=
  net_lift (raise c msg).

Definition net_bind {A B} (m : net A) (k : A -> net B) : net B :=
  fun log =>
    match m log with
    | (Ok a, log') => k a log'
    | (Raise e, log') => (Raise e, log')
    end.

Notation "x <~ m ;; k" := (net_bind m (fun x => k))
  (at level 61, m at next level, right associativity).

(** [await self._session.post(url, json=body, headers=h)] *)
Definition session_post (url : pystr) (body : pyvalue) (h : headers) : net response :=
  fun log =>
    let r := Request url body h in
    (Ok (post r), log ++ [r]).

(** The outcome of a call and the requests it sent, from an empty log. *)
Definition outcome {A} (m : net A) : pyresult A := fst (m []).
Definition requests_sent {A} (m : net A) : list request := snd (m []).

(** *** Stations *)

(** Lines 164-174: the body of the response, or the collection nested in its
    [map_inventory_json] field. *)
Definition decode_inventory (response : response) : pyresult pyvalue :=
  try_except
    (outer_data <- json response ;;
     nested <- py_contains outer_data (lit "map_inventory_json") ;;
     if nested : bool
     then inner <- py_getitem outer_data (lit "map_inventory_json") ;;
          py_json_loads inner
     else Ok outer_data)
    (fun e => is_json_decode_error e || is_value_error e)
    (fun e => raise BayWheelsError (lit "Failed to parse station data: " ++ exn_message e)).

(** Lines 176-177. *)
Definition check_collection (data : pyvalue) : pyresult unit :=
  t <- py_get data (lit "type") PyNone ;;
  if negb (py_eq_str t (lit "FeatureCollection"))
  then raise BayWheelsError (lit "Unexpected response format: " ++ py_str t)
  else Ok tt.

(** Lines 180-184: the loop over the features; [stations] is the list built
    so far. *)
Fixpoint collect_stations (features : list pyvalue) (stations : list Station.t)
    : pyresult (list Station.t) :=
  match features with
  | [] => Ok stations
  | feature :: rest =>
      props <- py_get feature (lit "properties") (PyDict []) ;;
      t <- py_get props (lit "map_item_type") PyNone ;;
      if py_eq_int t 1
      then st <- from_geojson_feature feature ;;
           collect_stations rest (stations ++ [st])
      else collect_stations rest stations
  end.

(** Lines 163-186: from a response with status 200 to the stations. *)
Definition parse_stations (response : response) : pyresult (list Station.t) :=
  data <- decode_inventory response ;;
  _ <- check_collection data ;;
  features_value <- py_get data (lit "features") (PyList []) ;;
  features <- py_iter features_value ;;
  collect_stations features [].

Definition list_stations (self : BayWheelsClient) : net (list Station.t) :=
  if negb (is_authenticated self)
  then net_raise AuthenticationError (lit "Must be authenticated to list stations")
  else
    response <~ session_post (BASE_URL ++ lit "/v1/lbsbff/map/inventory")
                  (PyDict []) (get_headers self true) ;;
    if Z.eqb (status_code response) 403
    then net_raise AuthenticationError (lit "Access denied - token may be expired")
    else if negb (Z.eqb (status_code response) 200)
    then net_raise BayWheelsError
           (lit "Failed to get stations: " ++ int_str (status_code response))
    else net_lift (parse_stations response).

(** *** Reservations *)

(** Lines 255-269: the inner [try]; it ends with the values of [ride_id] and
    [status]. *)
Definition extract_ride_id (response : response) : pyresult (option pystr * pyvalue) :=
  try_except
    (data <- json response ;;
     ride_id <- py_get data (lit "ride_id") (PyStr []) ;;
     status <- py_get data (lit "status") (PyStr (lit "reserved")) ;;
     Ok (Some (py_str ride_id), status))
    is_json_decode_error
    (fun _ =>
       let text := bytes_decode_ignore (content response) in
       Ok (re_search_ride_id text, PyStr (lit "reserved"))).

(** Modelled from the spec: [Reservation(ride_id=..., status=...,
    station_id=...)], the constructor of [models.py].  The data model makes
    the three fields strings.  The client always passes strings for
    [ride_id] and [station_id]; the [status] is whatever the payload holds,
    and the constructor turns down one that is no string, with an exception
    of its own. *)
Definition new_reservation (ride_id : pystr) (status : pyvalue) (station_id : pystr)
    : pyresult Reservation.t :=
  match status with
  | PyStr s => Ok (Reservation.Make ride_id s station_id)
  | _ => Raise (invalid_status status)
  end.

(** Lines 247-281: from a response with status 200 to the reservation. *)
Definition parse_reservation (response : response) (station_id : pystr)
    : pyresult Reservation.t :=
  try_except
    (found <- extract_ride_id response ;;
     match fst found with
     | None | Some [] =>
         (* [not ride_id] *)
         raise ReservationError (lit "Could not parse reservation response")
     | Some ride_id => new_reservation ride_id (snd found) station_id
     end)
    (fun _ => true)
    (fun e => raise ReservationError
                (lit "Failed to parse reservation response: " ++ exn_message e)).

Definition create_reservation (self : BayWheelsClient) (station_id bike_type : pystr)
    : net Reservation.t :=
  if negb (is_authenticated self)
  then net_raise AuthenticationError (lit "Must be authenticated to create reservations")
  else
    response <~ session_post (BASE_URL ++ lit "/v1/last-mile/stations/reserve/v2")
                  (PyDict [ (lit "station_id", PyStr station_id);
                            (lit "reservation_item_key", PyStr bike_type);
                            (lit "is_apple_pay_authorization_needed", PyBool false) ])
                  (get_headers self true) ;;
    if Z.eqb (status_code response) 403
    then net_raise AuthenticationError (lit "Access denied - token may be expired")
    else if negb (Z.eqb (status_code response) 200)
    then net_raise ReservationError
           (lit "Failed to create reservation: " ++ int_str (status_code response))
    else net_lift (parse_reservation response station_id).

Definition cancel_reservation (self : BayWheelsClient) (ride_id : pystr) : net unit :=
  if negb (is_authenticated self)
  then net_raise AuthenticationError (lit "Must be authenticated to cancel reservations")
  else
    response <~ session_post (BASE_URL ++ lit "/v1/last-mile/rides/cancel")
                  (PyDict [ (lit "ride_id", PyStr ride_id) ])
                  (get_headers self true) ;;
    if Z.eqb (status_code response) 403
    then net_raise AuthenticationError (lit "Access denied - token may be expired")
    else if negb (Z.eqb (status_code response) 200)
    then net_raise ReservationError
           (lit "Failed to cancel reservation: " ++ int_str (status_code response))
    else net_lift (Ok tt).

(** *** The requests of the three calls *)

Definition stations_request (self : BayWheelsClient) : request :=
  Request (BASE_URL ++ lit "/v1/lbsbff/map/inventory") (PyDict [])
    (get_headers self true).

Definition reserve_request (self : BayWheelsClient) (station_id bike_type : pystr)
    : request :=
  Request (BASE_URL ++ lit "/v1/last-mile/stations/reserve/v2")
    (PyDict [ (lit "station_id", PyStr station_id);
              (lit "reservation_item_key", PyStr bike_type);
              (lit "is_apple_pay_authorization_needed", PyBool false) ])
    (get_headers self true).

Definition cancel_request (self : BayWheelsClient) (ride_id : pystr) : request :=
  Request (BASE_URL ++ lit "/v1/last-mile/rides/cancel")
    (PyDict [ (lit "ride_id", PyStr ride_id) ])
    (get_headers self true).

(** *** Login *)

(** The marker the caller of [login] looks for in the message. *)
Definition EMAIL_MARKER : pystr := lit "Email verification required".

(** Modelled from the spec: [AuthManager.login] is declared in [auth.py],
    which is not among the sources.  It exchanges the code for a token; on
    success the token is kept in memory and saved; when the service asks for
    an email address and none was given, it raises [AuthenticationError] with
    a message that contains the marker; every other refusal raises
    [AuthenticationError] with its cause. *)
Definition auth_login (a : AuthManager) (phone_number code : pystr)
    (email : option pystr) : pyresult TokenInfo.t * AuthManager :=
  match login_service phone_number code email with
  | LoginGranted tok =>
      let token_info := TokenInfo.Make tok now in
      (Ok token_info,
       MakeAuth (Some token_info) (token_path a)
                (match token_path a with
                 | Some _ => Some token_info
                 | None => saved_token a
                 end))
  | LoginEmailRequired cause =>
      match email with
      | None =>
          (raise AuthenticationError
             (email_message_before ++ EMAIL_MARKER ++ email_message_after), a)
      | Some _ => (raise AuthenticationError cause, a)
      end
  | LoginRejected cause => (raise AuthenticationError cause, a)
  end.

(** Lines 133-134. *)
Definition login (self : BayWheelsClient) (phone_number code : pystr)
    (email : option pystr) : pyresult pystr * BayWheelsClient :=
  let (r, a) := auth_login (auth self) phone_number code email in
  (token_info <- r ;; Ok (TokenInfo.access_token token_info), MakeClient a).

(** *** One station *)

(** Lines 202-205: the loop that returns the first station with the given
    id, or [None]. *)
Fixpoint first_with_id (stations : list Station.t) (station_id : pystr)
    : option Station.t :=
  match stations with
  | [] => None
  | station :: rest =>
      if str_eqb (Station.id station) station_id
      then Some station
      else first_with_id rest station_id
  end.

Definition get_station (self : BayWheelsClient) (station_id : pystr)
    : net (option Station.t) :=
  stations <~ list_stations self ;;
  net_lift (Ok (first_with_id stations station_id)).

(** ** Notions used to state the properties *)

(** *** Features *)

(** The properties of a feature: those of its [properties] member, none when
    the member is absent; a value that is not an object, or whose
    [properties] is not an object, is not a feature. *)
Definition feature_properties (feature : pyvalue) : option (list (pystr * pyvalue)) :=
  match feature with
  | PyDict f =>
      match dict_get f (lit "properties") with
      | None => Some []
      | Some (PyDict p) => Some p
      | Some _ => None
      end
  | _ => None
  end.

Definition is_feature (feature : pyvalue) : bool :=
  match feature_properties feature with
  | Some _ => true
  | None => false
  end.

(** The discriminator of the feature equals [n]: [map_item_type == n]. *)
Definition discriminator_is (n : Z) (feature : pyvalue) : bool :=
  match feature_properties feature with
  | Some p =>
      match dict_get p (lit "map_item_type") with
      | Some v => py_eq_int v n
      | None => false
      end
  | None => false
  end.

(** A station entry: discriminator 1. *)
Definition is_station (feature : pyvalue) : bool := discriminator_is 1 feature.

(** The field mapping over a list of features, in order; the first exception
    ends it. *)
Fixpoint convert_all (features : list pyvalue) : pyresult (list Station.t) :=
  match features with
  | [] => Ok []
  | feature :: rest =>
      st <- from_geojson_feature feature ;;
      sts <- convert_all rest ;;
      Ok (st :: sts)
  end.

(** *** Runs of digits *)

(** Follows the spec's words: a run of 15 to 20 consecutive digits, the
    first one met from the left, whatever stands next to it. *)
Fixpoint spec_first_digit_run (s : pystr) : option pystr :=
  let n := leading_digits 20 s in
  if Nat.leb 15 n then Some (firstn n s)
  else match s with
       | [] => None
       | _ :: s' => spec_first_digit_run s'
       end.

(** The longest prefix made of word characters. *)
Fixpoint word_prefix (s : pystr) : pystr :=
  match s with
  | c :: s' => if is_word c then c :: word_prefix s' else []
  | [] => []
  end.

(** The words of a text: its maximal runs of word characters, in order.
    [inside] tells whether the character before [s] is a word character. *)
Fixpoint words_from (inside : bool) (s : pystr) : list pystr :=
  match s with
  | [] => []
  | c :: s' =>
      if negb inside && is_word c
      then word_prefix s :: words_from true s'
      else words_from (is_word c) s'
  end.

Definition words (text : pystr) : list pystr := words_from false text.

(** The text ends here, or goes on with a character that is not a word
    character. *)
Definition is_delimiter (rest : pystr) : bool :=
  match rest with
  | [] => true
  | r :: _ => negb (is_word r)
  end.

(** A word that is 15 to 20 digits and nothing else. *)
Definition is_ride_id (w : pystr) : bool :=
  forallb is_digit w && Nat.leb 15 (List.length w) && Nat.leb (List.length w) 20.

(** The first run of 15 to 20 digits that is a word of its own: no letter,
    digit or underscore stands right before or right after it. *)
Definition first_delimited_run (text : pystr) : option pystr :=
  find is_ride_id (words text).

(** *** Headers and code points *)

(** [headers.get(k)] *)
Fixpoint headers_get (h : headers) (k : pystr) : option pystr :=
  match h with
  | [] => None
  | (k', v) :: h' => if str_eqb k' k then Some v else headers_get h' k
  end.

(** A Unicode scalar value: a code point up to U+10FFFF that is no
    surrogate. *)
Definition is_scalar_value (c : codepoint) : bool :=
  N.ltb c 0xD800 || (N.ltb 0xDFFF c && N.ltb c 0x110000).

(** A byte, or a code point, below 128. *)
Definition is_ascii (c : N) : bool := N.ltb c 0x80.

(** The text ends with a character that is not a word character, or is
    empty. *)
Definition ends_with_delimiter (pre : pystr) : bool := is_delimiter (rev pre).

(** *** The identifier in a JSON body *)

(** What the JSON path obtains: the text of the [ride_id] member of the
    decoded object, when there is one and it is not empty. *)
Definition json_identifier (response : response) : option pystr :=
  match json response with
  | Ok (PyDict d) =>
      match dict_get d (lit "ride_id") with
      | Some v =>
          match py_str v with
          | [] => None
          | c :: rest => Some (c :: rest)
          end
      | None => None
      end
  | _ => None
  end.

End Client.

(** ** Concrete collaborators *)

(** The theorems below hold for all collaborators.  To run the client on
    concrete bodies, this part supplies one family of them: a JSON decoder
    for the texts whose numbers are integers and whose strings have no [\u]
    escapes, a converter for features, and a transport that answers every
    request alike. *)
Module Sample.

Definition is_space (c : codepoint) : bool :=
  N.eqb c 32 || N.eqb c 9 || N.eqb c 10 || N.eqb c 13.

Fixpoint skip_spaces (s : pystr) : pystr :=
  match s with
  | c :: s' => if is_space c then skip_spaces s' else s
  | [] => []
  end.

(** How a scan of the text ends: with what was read and the text after it;
    with [JSONDecodeError(msg, doc, pos)], kept as [msg] and the text from
    [pos] on; with the [StopIteration(pos)] of [scan_once], which [decode]
    reports as "Expecting value"; or at a text this decoder does not
    cover. *)
Inductive scan (A : Type) : Type :=
| Scanned (a : A) (rest : pystr)
| Failed (msg : pystr) (rest : pystr)
| Stopped (rest : pystr)
| NotCovered.
Arguments Scanned {A} a rest.
Arguments Failed {A} msg rest.
Arguments Stopped {A} rest.
Arguments NotCovered {A}.

Definition scan_bind {A B} (r : scan A) (k : A -> pystr -> scan B) : scan B :=
  match r with
  | Scanned a rest => k a rest
  | Failed msg rest => Failed msg rest
  | Stopped rest => Stopped rest
  | NotCovered => NotCovered
  end.

Definition is_digit_char (c : codepoint) : bool := (N.leb 48 c && N.leb c 57)%N.

(** [BACKSLASH]: the character an escape stands for. *)
Definition unescape (e : codepoint) : option codepoint :=
  match e with
  | 34%N => Some 34%N | 92%N => Some 92%N | 47%N => Some 47%N
  | 98%N => Some 8%N | 102%N => Some 12%N | 110%N => Some 10%N
  | 114%N => Some 13%N | 116%N => Some 9%N
  | _ => None
  end.

(** [scanstring]: the characters of a string literal after its opening
    quote; [opening] is the text from that quote on. *)
Fixpoint scan_string (opening : pystr) (s : pystr) : scan pystr :=
  match s with
  | [] => Failed (lit "Unterminated string starting at") opening
  | 34%N :: rest => Scanned [] rest
  | 92%N :: [] => Failed (lit "Unterminated string starting at") opening
  | 92%N :: e :: rest =>
      if N.eqb e 117 then NotCovered
      else
        match unescape e with
        | Some c =>
            scan_bind (scan_string opening rest)
              (fun str rest' => Scanned (c :: str) rest')
        | None => Failed (lit "Invalid \escape") s
        end
  | c :: rest =>
      if N.ltb c 32 then Failed (lit "Invalid control character at") s
      else scan_bind (scan_string opening rest)
             (fun str rest' => Scanned (c :: str) rest')
  end.

(** The value of a run of decimal digits, most significant first. *)
Fixpoint scan_digits (acc : Z) (s : pystr) : Z * pystr :=
  match s with
  | c :: s' =>
      if is_digit_char c
      then scan_digits (10 * acc + Z.of_N (c - 48)) s'
      else (acc, s)
  | [] => (acc, [])
  end.

(** After the integer part: a fraction or an exponent makes the number a
    [float], which this decoder does not build. *)
Definition goes_on_as_float (s : pystr) : bool :=
  match s with
  | 46%N :: d :: _ => is_digit_char d
  | e :: d :: rest =>
      (N.eqb e 101 || N.eqb e 69)
      && (is_digit_char d
          || ((N.eqb d 43 || N.eqb d 45)
              && match rest with
                 | d' :: _ => is_digit_char d'
                 | [] => false
                 end))
  | _ => false
  end.

(** [_match_number]: an optional sign, then 0 or a run of digits that does
    not begin with 0. *)
Definition scan_number (s : pystr) : scan pyvalue :=
  let negative := match s with 45%N :: _ => true | _ => false end in
  let digits := if negative then tl s else s in
  match digits with
  | c :: after =>
      if is_digit_char c
      then
        let (n, rest) := if N.eqb c 48 then (0%Z, after) else scan_digits 0 digits in
        if goes_on_as_float rest then NotCovered
        else Scanned (PyInt (if negative then - n else n)) rest
      else Stopped s
  | [] => Stopped s
  end.

(** [d[k] = v]: a repeated key keeps its place and takes the last value. *)
Fixpoint dict_set (d : list (pystr * pyvalue)) (k : pystr) (v : pyvalue)
    : list (pystr * pyvalue) :=
  match d with
  | [] => [(k, v)]
  | (k', v') :: d' =>
      if str_eqb k' k then (k', v) :: d' else (k', v') :: dict_set d' k v
  end.

(** [scan_once]: one value at the head of [s]. *)
Fixpoint scan_value (fuel : nat) (s : pystr) : scan pyvalue :=
  match fuel with
  | O => NotCovered
  | S fuel' =>
      match s with
      | [] => Stopped []
      | 34%N :: rest =>
          scan_bind (scan_string s rest) (fun str rest' => Scanned (PyStr str) rest')
      | 91%N :: rest =>
          match skip_spaces rest with
          | 93%N :: rest' => Scanned (PyList []) rest'
          | items =>
              scan_bind (scan_items fuel' items)
                (fun l rest' => Scanned (PyList l) rest')
          end
      | 123%N :: rest =>
          match skip_spaces rest with
          | 125%N :: rest' => Scanned (PyDict []) rest'
          | members =>
              scan_bind (scan_members fuel' [] members)
                (fun d rest' => Scanned (PyDict d) rest')
          end
      | 116%N :: 114%N :: 117%N :: 101%N :: rest => Scanned (PyBool true) rest
      | 102%N :: 97%N :: 108%N :: 115%N :: 101%N :: rest => Scanned (PyBool false) rest
      | 110%N :: 117%N :: 108%N :: 108%N :: rest => Scanned PyNone rest
      | 78%N :: 97%N :: 78%N :: _ => NotCovered
      | 73%N :: 110%N :: 102%N :: 105%N :: 110%N :: 105%N :: 116%N :: 121%N :: _ =>
          NotCovered
      | 45%N :: 73%N :: 110%N :: 102%N :: 105%N :: 110%N :: 105%N :: 116%N :: 121%N :: _ =>
          NotCovered
      | _ => scan_number s
      end
  end

(** The items of an array, from the first one up to the closing bracket. *)
with scan_items (fuel : nat) (s : pystr) : scan (list pyvalue) :=
  match fuel with
  | O => NotCovered
  | S fuel' =>
      scan_bind (scan_value fuel' s)
        (fun v rest =>
           match skip_spaces rest with
           | 93%N :: rest' => Scanned [v] rest'
           | 44%N :: rest' =>
               match skip_spaces rest' with
               | 93%N :: _ => NotCovered
               | more =>
                   scan_bind (scan_items fuel' more)
                     (fun items rest'' => Scanned (v :: items) rest'')
               end
           | other => Failed (lit "Expecting ',' delimiter") other
           end)
  end

(** The members of an object, from the first key up to the closing brace,
    added to [d]. *)
with scan_members (fuel : nat) (d : list (pystr * pyvalue)) (s : pystr)
    : scan (list (pystr * pyvalue)) :=
  match fuel with
  | O => NotCovered
  | S fuel' =>
      match s with
      | 34%N :: rest =>
          scan_bind (scan_string s rest)
            (fun k rest1 =>
               match skip_spaces rest1 with
               | 58%N :: rest2 =>
                   scan_bind (scan_value fuel' (skip_spaces rest2))
                     (fun v rest3 =>
                        match skip_spaces rest3 with
                        | 125%N :: rest4 => Scanned (dict_set d k v) rest4
                        | 44%N :: rest4 =>
                            match skip_spaces rest4 with
                            | 125%N :: _ => NotCovered
                            | more => scan_members fuel' (dict_set d k v) more
                            end
                        | other => Failed (lit "Expecting ',' delimiter") other
                        end)
               | other => Failed (lit "Expecting ':' delimiter") other
               end)
      | _ => Failed (lit "Expecting property name enclosed in double quotes") s
      end
  end.

(** [str(e)] for [JSONDecodeError(msg, doc, pos)], where [rest] is the text
    from [pos] on: the message, the line, the column and the position. *)
Definition decode_error_text (msg doc rest : pystr) : pystr :=
  let pos := (List.length doc - List.length rest)%nat in
  let before := firstn pos doc in
  let line := S (List.length (filter (N.eqb 10) before)) in
  let column := S (fold_left (fun n c => if N.eqb c 10 then O else S n) before O) in
  msg ++ lit ": line " ++ int_str (Z.of_nat line)
  ++ lit " column " ++ int_str (Z.of_nat column)
  ++ lit " (char " ++ int_str (Z.of_nat pos) ++ lit ")".

(** The decoder, [json.loads] on a [str]: one value with white space around
    it, and its errors worded as CPython words them (up to version 3.12).
    It covers the texts without fractions, exponents, [NaN], [Infinity],
    [\u] escapes and trailing commas; on the others it ends with an
    exception of no class of its own. *)
Definition loads (s : pystr) : pyresult pyvalue :=
  match s with
  | 0xFEFF%N :: _ =>
      raise JSONDecodeError
        (decode_error_text (lit "Unexpected UTF-8 BOM (decode using utf-8-sig)") s s)
  | _ =>
      match scan_value (2 * List.length s + 2) (skip_spaces s) with
      | Scanned v rest =>
          match skip_spaces rest with
          | [] => Ok v
          | extra => raise JSONDecodeError (decode_error_text (lit "Extra data") s extra)
          end
      | Failed msg rest => raise JSONDecodeError (decode_error_text msg s rest)
      | Stopped rest =>
          raise JSONDecodeError (decode_error_text (lit "Expecting value") s rest)
      | NotCovered => raise OtherException (lit "not covered by the sample decoder")
      end
  end.

(** Bodies are written with ['] where the text has a double quote. *)
Definition quoted (body : string) : pystr :=
  List.map (fun c => if N.eqb c 39 then 34%N else c) (lit body).

Definition ascii_bytes (s : pystr) : list byte :=
  List.map (fun c => match Byte.of_N c with Some b => b | None => x00 end) s.

(** A response with the given status and an ASCII body; [response.json()]
    is what the decoder makes of the body. *)
Definition text_response (status : Z) (body : string) : response :=
  Response status (ascii_bytes (quoted body)) (loads (quoted body)).

Definition as_str (v : pyvalue) (what : pystr) : pyresult pystr :=
  match v with
  | PyStr s => Ok s
  | _ => raise TypeError (what ++ lit " must be a string")
  end.

Definition as_int (v : pyvalue) (what : pystr) : pyresult Z :=
  match v with
  | PyInt z => Ok z
  | _ => raise TypeError (what ++ lit " must be an integer")
  end.

Definition float_of_int (z : Z) : spec_float :=
  binary_normalize 53 1024 z 0 false.

(** Modelled from the spec: [Station.from_geojson_feature] is declared in
    [models.py]; the spec fixes the fields it fills (id, name, three counts,
    coordinates) and leaves the names of the properties open.  This converter
    reads them from properties of the same names and takes the coordinates as
    whole degrees. *)
Definition station_of_feature (feature : pyvalue) : pyresult Station.t :=
  props <- py_get feature (lit "properties") (PyDict []) ;;
  id_value <- py_get props (lit "id") PyNone ;;
  id <- as_str id_value (lit "id") ;;
  name_value <- py_get props (lit "name") PyNone ;;
  ebikes_value <- py_get props (lit "ebikes_available") (PyInt 0) ;;
  ebikes <- as_int ebikes_value (lit "ebikes_available") ;;
  bikes_value <- py_get props (lit "bikes_available") (PyInt 0) ;;
  bikes <- as_int bikes_value (lit "bikes_available") ;;
  docks_value <- py_get props (lit "docks_available") (PyInt 0) ;;
  docks <- as_int docks_value (lit "docks_available") ;;
  lat_value <- py_get props (lit "lat") (PyInt 0) ;;
  lat <- as_int lat_value (lit "lat") ;;
  lon_value <- py_get props (lit "lon") (PyInt 0) ;;
  lon <- as_int lon_value (lit "lon") ;;
  Ok (Station.Make id
        (match name_value with PyStr s => Some s | _ => None end)
        ebikes bikes docks (float_of_int lat) (float_of_int lon)).

(** Modelled from the spec: the exception of the constructor of
    [Reservation] for a [status] that is no string.  Its class and text are
    those of [models.py] and not in the sources; a [ValueError] naming the
    field stands for it. *)
Definition status_error (status : pyvalue) : exn :=
  Exn ValueError (lit "status: a string is required, not " ++ type_name status).

(** A service that grants the login once an email address comes with it. *)
Definition service_wants_email (phone_number code : pystr) (email : option pystr)
    : login_reply :=
  match email with
  | Some _ => LoginGranted (lit "token-" ++ code)
  | None => LoginEmailRequired (lit "email_required")
  end.

(** A service that keeps asking for the email address. *)
Definition service_never_satisfied (phone_number code : pystr) (email : option pystr)
    : login_reply :=
  LoginEmailRequired (lit "email_required").

(** The collaborators: the answers of the login service and the response to
    every request are given.  The decoder builds no float, so [float_repr] is
    never consulted; [str_repr] puts single quotes around the text, which is
    [repr] for a text without quotes, backslashes and control characters. *)
Definition world (service : pystr -> pystr -> option pystr -> login_reply)
    (r : response) : Collaborators :=
  {| json_loads := loads;
     float_repr := fun _ => lit "0.0";
     str_repr := fun s => lit "'" ++ s ++ lit "'";
     unicode_decimal := fun _ => false;
     unicode_alnum := fun _ => false;
     from_geojson_feature := station_of_feature;
     invalid_status := status_error;
     get_common_headers := [(lit "user-agent", lit "bay-wheels")];
     login_service := service;
     email_message_before := [];
     email_message_after := lit ". Call login() again with an email address.";
     now := None;
     post := fun _ => r |}.

(** A client that holds a token, and one that holds none. *)
Definition client_with_token : BayWheelsClient :=
  MakeClient (MakeAuth (Some (TokenInfo.Make (lit "secret") None)) None None).

Definition client_without_token : BayWheelsClient :=
  MakeClient (MakeAuth None None None).

End Sample.

(** ** The script [scripts/test_client.py] *)

(** The script drives the client from the terminal.  Its model threads a
    console (the lines still to be typed, what was written so far, and the
    calls made on the client) and takes the outcomes of the client's methods
    as given: the script sees nothing else of the client. *)
Module Script.

(** What the script calls on the client, and how each call ends:
    [load_token()], [clear_token()], [request_code(phone)],
    [login(phone, code, email=...)], [list_stations()] and the [close()] of
    [__aexit__].  The script makes no call twice with the same arguments, so
    an outcome for each argument list says all that a run can see. *)
Record client_api : Type := Api {
  api_load_token : pyresult (option TokenInfo.t);
  api_clear_token : pyresult unit;
  api_request_code : pystr -> pyresult unit;
  api_login : pystr -> pystr -> option pystr -> pyresult pystr;
  api_list_stations : pyresult (list Station.t);
  api_close : pyresult unit
}.

Inductive call : Type :=
| LoadToken
| ClearToken
| RequestCode (phone : pystr)
| Login (phone code : pystr) (email : option pystr)
| ListStations
| Close.

Record console : Type := Console {
  pending : list pystr;
  printed : list pystr;
  calls : list call
}.

Definition script (A : Type) : Type := console -> pyresult A * console.

Definition ret {A} (a : A) : script A := fun c => (Ok a, c).

Definition bind {A B} (m : script A) (k : A -> script B) : script B :=
  fun c =>
    match m c with
    | (Ok a, c') => k a c'
    | (Raise e, c') => (Raise e, c')
    end.

Notation "x <-- m ;; k" := (bind m (fun x => k))
  (at level 61, m at next level, right associativity).

Definition reraise {A} (e : exn) : script A := fun c => (Raise e, c).

(** [print(text)] *)
Definition print (text : pystr) : script unit :=
  fun c => (Ok tt, Console (pending c) (printed c ++ [text]) (calls c)).

(** [input(prompt)]: the prompt is written, and the next line typed is
    returned; at the end of the input it raises [EOFError]. *)
Definition input (prompt : pystr) : script pystr :=
  fun c =>
    let c' := Console (pending c) (printed c ++ [prompt]) (calls c) in
    match pending c with
    | line :: rest => (Ok line, Console rest (printed c') (calls c'))
    | [] => (raise OtherException (lit "EOF when reading a line"), c')
    end.

(** A call on the client: it is noted, and it ends as the client says. *)
Definition called {A} (what : call) (r : pyresult A) : script A :=
  fun c => (r, Console (pending c) (printed c) (calls c ++ [what])).

(** [try: body  except AuthenticationError as e: handler(e)] *)
Definition except_authentication {A} (body : script A) (handler : exn -> script A)
    : script A :=
  fun c =>
    match body c with
    | (Ok a, c') => (Ok a, c')
    | (Raise e, c') =>
        match exn_class_of e with
        | AuthenticationError => handler e c'
        | _ => (Raise e, c')
        end
    end.

(** [try: body  except Exception as e: handler(e)]: every class of
    [exn_class] derives from [Exception]. *)
Definition except_exception {A} (body : script A) (handler : exn -> script A)
    : script A :=
  fun c =>
    match body c with
    | (Ok a, c') => (Ok a, c')
    | (Raise e, c') => handler e c'
    end.

(** [for x in items: body(x)] *)
Fixpoint for_each {A} (items : list A) (body : A -> script unit) : script unit :=
  match items with
  | [] => ret tt
  | x :: rest => _ <-- body x ;; for_each rest body
  end.

(** The characters [str.strip()] removes: Python's white space. *)
Definition is_space (c : codepoint) : bool :=
  (N.leb 0x09 c && N.leb c 0x0D)
  || (N.leb 0x1C c && N.leb c 0x20)
  || N.eqb c 0x85 || N.eqb c 0xA0 || N.eqb c 0x1680
  || (N.leb 0x2000 c && N.leb c 0x200A)
  || N.eqb c 0x2028 || N.eqb c 0x2029 || N.eqb c 0x202F
  || N.eqb c 0x205F || N.eqb c 0x3000.

Fixpoint lstrip (s : pystr) : pystr :=
  match s with
  | c :: s' => if is_space c then lstrip s' else s
  | [] => []
  end.

(** [s.strip()] *)
Definition strip (s : pystr) : pystr := rev (lstrip (rev (lstrip s))).

(** [s.startswith("+")] *)
Definition starts_with_plus (s : pystr) : bool := str_prefix (lit "+") s.

(** [authenticate], lines 13-57. *)
Definition authenticate (client : client_api) : script bool :=
  token_info <-- called LoadToken (api_load_token client) ;;
  match token_info with
  | Some token_info =>
      _ <-- print (lit "Loaded saved token: "
                   ++ firstn 20 (TokenInfo.access_token token_info) ++ lit "...") ;;
      ret true
  | None =>
      _ <-- print (10%N :: lit "No saved token found. Starting authentication flow...") ;;
      line <-- input (lit "Enter phone number (E.164 format, e.g., +14155551234): ") ;;
      let phone := strip line in
      if negb (starts_with_plus phone)
      then
        _ <-- print (lit "Phone number must start with + and include country code") ;;
        ret false
      else
        except_authentication
          (_ <-- print (lit "Requesting verification code for " ++ phone ++ lit "...") ;;
           _ <-- called (RequestCode phone) (api_request_code client phone) ;;
           _ <-- print (lit "Verification code sent!") ;;
           line <-- input (lit "Enter verification code: ") ;;
           let code := strip line in
           except_authentication
             (access_token <-- called (Login phone code None)
                                 (api_login client phone code None) ;;
              _ <-- print (lit "Logged in successfully! Token: "
                           ++ firstn 20 access_token ++ lit "...") ;;
              ret true)
             (fun e =>
                if str_contains (exn_message e) (lit "Email verification required")
                then
                  _ <-- print (10%N :: exn_message e) ;;
                  line <-- input (lit "Enter your email address: ") ;;
                  let email := strip line in
                  access_token <-- called (Login phone code (Some email))
                                     (api_login client phone code (Some email)) ;;
                  _ <-- print (lit "Logged in successfully! Token: "
                               ++ firstn 20 access_token ++ lit "...") ;;
                  ret true
                else reraise e))
          (fun e =>
             _ <-- print (lit "Authentication failed: " ++ exn_message e) ;;
             ret false)
  end.

(** [key=lambda s: s.ebikes_available + s.bikes_available] *)
Definition total_bikes (s : Station.t) : Z :=
  (Station.ebikes_available s + Station.bikes_available s)%Z.

(** [items.sort(key=key, reverse=True)]: the items in descending order of
    their keys, items of equal keys in the order they had.  An item is put
    before the first item of the sorted rest whose key is not larger. *)
Fixpoint insert_desc {A} (key : A -> Z) (x : A) (sorted : list A) : list A :=
  match sorted with
  | [] => [x]
  | y :: rest =>
      if Z.ltb (key x) (key y) then y :: insert_desc key x rest else x :: sorted
  end.

Fixpoint sort_desc {A} (key : A -> Z) (items : list A) : list A :=
  match items with
  | [] => []
  | x :: rest => insert_desc key x (sort_desc key rest)
  end.

(** [format(s, "<width")] and [format(s, ">width")] for a text [s] *)
Definition ljust (width : nat) (s : pystr) : pystr :=
  s ++ repeat 32%N (width - List.length s).

Definition rjust (width : nat) (s : pystr) : pystr :=
  repeat 32%N (width - List.length s) ++ s.

(** [s[-n:]] for a positive [n] *)
Definition last_chars (n : nat) (s : pystr) : pystr :=
  skipn (List.length s - n) s.

(** [station.name or station.id[-30:]] *)
Definition display_name (station : Station.t) : pystr :=
  match Station.name station with
  | Some (c :: name) => c :: name
  | _ => last_chars 30 (Station.id station)
  end.

(** The line written for a station, lines 80-83. *)
Definition row (station : Station.t) : pystr :=
  ljust 50 (display_name station) ++ lit " "
  ++ rjust 8 (int_str (Station.ebikes_available station)) ++ lit " "
  ++ rjust 8 (int_str (Station.bikes_available station)) ++ lit " "
  ++ rjust 8 (int_str (Station.docks_available station)).

(** [list_stations], lines 60-86. *)
Definition list_stations (client : client_api) : script unit :=
  _ <-- print (10%N :: lit "Fetching stations...") ;;
  except_exception
    (stations <-- called ListStations (api_list_stations client) ;;
     _ <-- print (lit "Found " ++ int_str (Z.of_nat (List.length stations))
                  ++ lit " stations" ++ [10%N]) ;;
     let stations := sort_desc total_bikes stations in
     _ <-- print (lit "Top 20 stations with bikes available:") ;;
     _ <-- print (repeat 45%N 80) ;;
     _ <-- print (ljust 50 (lit "Station ID") ++ lit " " ++ rjust 8 (lit "E-Bikes")
                  ++ lit " " ++ rjust 8 (lit "Bikes") ++ lit " "
                  ++ rjust 8 (lit "Docks")) ;;
     _ <-- print (repeat 45%N 80) ;;
     for_each (firstn 20 stations) (fun station => print (row station)))
    (fun e => print (lit "Failed to list stations: " ++ exn_message e)).

(** [async with BayWheelsClient() as client: body]: [__aexit__] closes the
    session however the body ends, and hides no exception. *)
Definition with_client {A} (client : client_api) (body : script A) : script A :=
  fun c =>
    let (r, c') := body c in
    match called Close (api_close client) c' with
    | (Ok _, c'') => (r, c'')
    | (Raise e, c'') => (Raise e, c'')
    end.

(** [main], lines 89-109, for the parsed [--clear-token]. *)
Definition main (clear_token : bool) (client : client_api) : script Z :=
  with_client client
    (_ <-- (if clear_token
            then
              _ <-- print (lit "Clearing saved token...") ;;
              called ClearToken (api_clear_token client)
            else ret tt) ;;
     authenticated <-- authenticate client ;;
     if negb authenticated
     then ret 1%Z
     else
       _ <-- list_stations client ;;
       ret 0%Z).

(** A run from a fresh console with the given lines to type. *)
Definition run {A} (m : script A) (typed : list pystr) : pyresult A * console :=
  m (Console typed [] []).

(** *** Sample clients *)

(** Three ways a login can end: the service grants it, it asks for the
    e-mail address first, or it refuses the code. *)
Definition login_granted (email : option pystr) : pyresult pystr :=
  Ok (lit "0123456789abcdefghijklmnop").

Definition login_wants_email (email : option pystr) : pyresult pystr :=
  match email with
  | None =>
      raise AuthenticationError
        (lit "Email verification required. Please provide your email.")
  | Some _ => Ok (lit "0123456789abcdefghijklmnop")
  end.

Definition login_refused (email : option pystr) : pyresult pystr :=
  raise AuthenticationError (lit "Invalid verification code").

(** A client with the given saved token, login and station listing; its
    other calls succeed. *)
Definition sample_client (saved : option TokenInfo.t)
    (login : option pystr -> pyresult pystr)
    (stations : pyresult (list Station.t)) : client_api :=
  Api (Ok saved) (Ok tt) (fun _ => Ok tt) (fun _ _ email => login email)
    stations (Ok tt).

Definition sample_stations : list Station.t :=
  [ Station.Make (lit "motivate_SFO_1") (Some (lit "Market St at 10th St"))
      1 2 9 (S754_zero false) (S754_zero false);
    Station.Make (lit "motivate_SFO_2") None
      5 0 3 (S754_zero false) (S754_zero false);
    Station.Make (lit "motivate_SFO_3") (Some [])
      0 3 7 (S754_zero false) (S754_zero false) ].

End Script.

(** * Properties *)

(** ** The guard and the status codes *)

Lemma not_authenticated `{Collaborators} (self : BayWheelsClient) :
  access_token self = None -> is_authenticated self = false.
Proof.
  unfold access_token, is_authenticated. intros ->. reflexivity.
Qed.

(** What an authenticated call does: it sends its one request and decides on
    the status code of the response. *)
Lemma list_stations_authenticated `{Collaborators} (self : BayWheelsClient)
    (log : list request) :
  is_authenticated self = true ->
  let response := post (stations_request self) in
  list_stations self log
  = (if Z.eqb (status_code response) 403
     then raise AuthenticationError (lit "Access denied - token may be expired")
     else if negb (Z.eqb (status_code response) 200)
     then raise BayWheelsError
            (lit "Failed to get stations: " ++ int_str (status_code response))
     else parse_stations response,
     log ++ [stations_request self]).
Proof.
  intros Hauth response.
  unfold list_stations, net_bind, session_post, net_raise, net_lift.
  rewrite Hauth. cbv beta iota delta [negb].
  fold (stations_request self). fold response.
  destruct (Z.eqb (status_code response) 403); [reflexivity|].
  destruct (Z.eqb (status_code response) 200); reflexivity.
Qed.

Lemma create_reservation_authenticated `{Collaborators} (self : BayWheelsClient)
    (station_id bike_type : pystr) (log : list request) :
  is_authenticated self = true ->
  let response := post (reserve_request self station_id bike_type) in
  create_reservation self station_id bike_type log
  = (if Z.eqb (status_code response) 403
     then raise AuthenticationError (lit "Access denied - token may be expired")
     else if negb (Z.eqb (status_code response) 200)
     then raise ReservationError
            (lit "Failed to create reservation: " ++ int_str (status_code response))
     else parse_reservation response station_id,
     log ++ [reserve_request self station_id bike_type]).
Proof.
  intros Hauth response.
  unfold create_reservation, net_bind, session_post, net_raise, net_lift.
  rewrite Hauth. cbv beta iota delta [negb].
  fold (reserve_request self station_id bike_type). fold response.
  destruct (Z.eqb (status_code response) 403); [reflexivity|].
  destruct (Z.eqb (status_code response) 200); reflexivity.
Qed.

Lemma cancel_reservation_authenticated `{Collaborators} (self : BayWheelsClient)
    (ride_id : pystr) (log : list request) :
  is_authenticated self = true ->
  let response := post (cancel_request self ride_id) in
  cancel_reservation self ride_id log
  = (if Z.eqb (status_code response) 403
     then raise AuthenticationError (lit "Access denied - token may be expired")
     else if negb (Z.eqb (status_code response) 200)
     then raise ReservationError
            (lit "Failed to cancel reservation: " ++ int_str (status_code response))
     else Ok tt,
     log ++ [cancel_request self ride_id]).
Proof.
  intros Hauth response.
  unfold cancel_reservation, net_bind, session_post, net_raise, net_lift.
  rewrite Hauth. cbv beta iota delta [negb].
  fold (cancel_request self ride_id). fold response.
  destruct (Z.eqb (status_code response) 403); [reflexivity|].
  destruct (Z.eqb (status_code response) 200); reflexivity.
Qed.

(** A response with status 200 is handed to the parser. *)
Lemma list_stations_answered `{Collaborators} (self : BayWheelsClient) :
  is_authenticated self = true ->
  status_code (post (stations_request self)) = 200%Z ->
  outcome (list_stations self) = parse_stations (post (stations_request self)).
Proof.
  intros Hauth Hstatus. unfold outcome.
  rewrite (list_stations_authenticated self [] Hauth). cbv zeta.
  rewrite Hstatus. reflexivity.
Qed.

Lemma create_reservation_answered `{Collaborators} (self : BayWheelsClient)
    (station_id bike_type : pystr) :
  is_authenticated self = true ->
  status_code (post (reserve_request self station_id bike_type)) = 200%Z ->
  outcome (create_reservation self station_id bike_type)
  = parse_reservation (post (reserve_request self station_id bike_type)) station_id.
Proof.
  intros Hauth Hstatus. unfold outcome.
  rewrite (create_reservation_authenticated self station_id bike_type [] Hauth).
  cbv zeta. rewrite Hstatus. reflexivity.
Qed.

(** C1.  A client that holds no access token: each of [list_stations],
    [create_reservation] and [cancel_reservation] raises
    [AuthenticationError], and the log of requests is left as it was, so no
    request is sent. *)
Theorem guard_without_token `{Collaborators} (self : BayWheelsClient)
    (station_id bike_type ride_id : pystr) (log : list request) :
  access_token self = None ->
  list_stations self log
  = (raise AuthenticationError (lit "Must be authenticated to list stations"), log)
  /\ create_reservation self station_id bike_type log
     = (raise AuthenticationError (lit "Must be authenticated to create reservations"), log)
  /\ cancel_reservation self ride_id log
     = (raise AuthenticationError (lit "Must be authenticated to cancel reservations"), log).
Proof.
  intros Hnone. apply not_authenticated in Hnone.
  unfold list_stations, create_reservation, cancel_reservation.
  rewrite Hnone. cbn. repeat split.
Qed.

Lemma guard_without_token_witness :
  let W := Sample.world Sample.service_wants_email (Sample.text_response 200 "[]") in
  access_token Sample.client_without_token = None
  /\ outcome (list_stations Sample.client_without_token)
     = raise AuthenticationError (lit "Must be authenticated to list stations")
  /\ requests_sent (list_stations Sample.client_without_token) = [].
Proof.
  intro W.
  pose proof (@guard_without_token W Sample.client_without_token [] [] [] []
                eq_refl) as [Hlist _].
  split; [reflexivity|].
  unfold outcome, requests_sent. rewrite Hlist. split; reflexivity.
Defined.

(** C2.  A client that holds a token: when the response has status 403 the
    call raises [AuthenticationError]; with any other status than 200 it
    raises its own error ([BayWheelsError] for the stations,
    [ReservationError] for creating and cancelling a reservation), and the
    message ends with the status code. *)
Theorem status_translation `{Collaborators} (self : BayWheelsClient)
    (station_id bike_type ride_id : pystr) :
  is_authenticated self = true ->
  let denied := Exn AuthenticationError (lit "Access denied - token may be expired") in
  let stations := status_code (post (stations_request self)) in
  let reserve := status_code (post (reserve_request self station_id bike_type)) in
  let cancel := status_code (post (cancel_request self ride_id)) in
  (stations = 403%Z -> outcome (list_stations self) = Raise denied)
  /\ (stations <> 403%Z -> stations <> 200%Z ->
      outcome (list_stations self)
      = raise BayWheelsError (lit "Failed to get stations: " ++ int_str stations))
  /\ (reserve = 403%Z ->
      outcome (create_reservation self station_id bike_type) = Raise denied)
  /\ (reserve <> 403%Z -> reserve <> 200%Z ->
      outcome (create_reservation self station_id bike_type)
      = raise ReservationError (lit "Failed to create reservation: " ++ int_str reserve))
  /\ (cancel = 403%Z -> outcome (cancel_reservation self ride_id) = Raise denied)
  /\ (cancel <> 403%Z -> cancel <> 200%Z ->
      outcome (cancel_reservation self ride_id)
      = raise ReservationError (lit "Failed to cancel reservation: " ++ int_str cancel)).
Proof.
  intros Hauth denied stations reserve cancel. unfold outcome.
  rewrite (list_stations_authenticated self [] Hauth).
  rewrite (create_reservation_authenticated self station_id bike_type [] Hauth).
  rewrite (cancel_reservation_authenticated self ride_id [] Hauth).
  cbv zeta. fold stations reserve cancel. cbn [fst].
  repeat split.
  - intros ->. reflexivity.
  - intros H403 H200.
    apply Z.eqb_neq in H403, H200. rewrite H403, H200. reflexivity.
  - intros ->. reflexivity.
  - intros H403 H200.
    apply Z.eqb_neq in H403, H200. rewrite H403, H200. reflexivity.
  - intros ->. reflexivity.
  - intros H403 H200.
    apply Z.eqb_neq in H403, H200. rewrite H403, H200. reflexivity.
Qed.

Lemma status_translation_witness :
  is_authenticated Sample.client_with_token = true
  /\ (let W := Sample.world Sample.service_wants_email (Sample.text_response 403 "{}") in
      outcome (cancel_reservation Sample.client_with_token (lit "77"))
      = raise AuthenticationError (lit "Access denied - token may be expired"))
  /\ (let W := Sample.world Sample.service_wants_email (Sample.text_response 503 "{}") in
      outcome (list_stations Sample.client_with_token)
      = raise BayWheelsError (lit "Failed to get stations: 503")).
Proof.
  split; [reflexivity|]. split.
  - intro W.
    exact (proj1 (proj2 (proj2 (proj2 (proj2
             (@status_translation W Sample.client_with_token [] [] (lit "77")
                eq_refl))))) eq_refl).
  - intro W.
    refine (proj1 (proj2
             (@status_translation W Sample.client_with_token [] [] []
                eq_refl)) _ _); cbn; discriminate.
Defined.

(** ** Stations *)

(** One round of the loop, for a feature. *)
Lemma collect_stations_step `{Collaborators} (feature : pyvalue)
    (rest : list pyvalue) (stations : list Station.t) :
  is_feature feature = true ->
  collect_stations (feature :: rest) stations
  = if is_station feature
    then st <- from_geojson_feature feature ;;
         collect_stations rest (stations ++ [st])
    else collect_stations rest stations.
Proof.
  unfold is_feature, is_station, discriminator_is, feature_properties.
  destruct feature as [| | | | | |f]; try discriminate.
  cbn [collect_stations py_get bind_result].
  destruct (dict_get f (lit "properties")) as [[| | | | | |p]|];
    try discriminate; intros _; cbn [py_get bind_result dict_get].
  - destruct (dict_get p (lit "map_item_type")) as [v|]; reflexivity.
  - reflexivity.
Qed.

(** The loop keeps the station entries, converted in order, after what was
    collected before. *)
Lemma collect_stations_filter `{Collaborators} (features : list pyvalue) :
  forall stations : list Station.t,
    forallb is_feature features = true ->
    collect_stations features stations
    = sts <- convert_all (filter is_station features) ;; Ok (stations ++ sts).
Proof.
  induction features as [|feature rest IH]; intros stations Hwf.
  - cbn. now rewrite app_nil_r.
  - cbn [forallb] in Hwf. apply andb_true_iff in Hwf as [Hfeature Hrest].
    rewrite (collect_stations_step _ _ _ Hfeature). cbn [filter].
    destruct (is_station feature).
    + cbn [convert_all].
      destruct (from_geojson_feature feature) as [st|e]; cbn [bind_result];
        [|reflexivity].
      rewrite (IH _ Hrest).
      destruct (convert_all (filter is_station rest)) as [sts|e];
        cbn [bind_result]; [|reflexivity].
      now rewrite <- app_assoc.
    + apply IH, Hrest.
Qed.

Lemma convert_all_succeeds `{Collaborators} (features : list pyvalue) :
  (forall f, In f features -> is_ok (from_geojson_feature f) = true) ->
  exists stations,
    convert_all features = Ok stations
    /\ List.length stations = List.length features.
Proof.
  induction features as [|feature rest IH]; intros Hok.
  - exists []. split; reflexivity.
  - destruct IH as [sts [Hsts Hlen]].
    { intros f Hin. apply Hok. now right. }
    specialize (Hok feature (or_introl eq_refl)).
    cbn [convert_all]. destruct (from_geojson_feature feature) as [st|e];
      [|discriminate].
    rewrite Hsts. exists (st :: sts). cbn. split; [reflexivity|now rewrite Hlen].
Qed.

(** Parsing a decoded collection. *)
Lemma parse_stations_collection `{Collaborators} (response : response)
    (d : list (pystr * pyvalue)) (features : list pyvalue) :
  decode_inventory response = Ok (PyDict d) ->
  dict_get d (lit "type") = Some (PyStr (lit "FeatureCollection")) ->
  py_get (PyDict d) (lit "features") (PyList []) = Ok (PyList features) ->
  forallb is_feature features = true ->
  parse_stations response = convert_all (filter is_station features).
Proof.
  intros Hdata Htype Hfeatures Hwf.
  unfold parse_stations. rewrite Hdata. cbn [bind_result].
  unfold check_collection. cbn [py_get bind_result]. rewrite Htype.
  cbn [py_eq_str]. change (str_eqb (lit "FeatureCollection") (lit "FeatureCollection"))
    with true. cbn [negb bind_result].
  cbn [py_get] in Hfeatures. injection Hfeatures as Hfeatures.
  rewrite Hfeatures. cbn [bind_result py_iter].
  rewrite (collect_stations_filter _ _ Hwf).
  destruct (convert_all (filter is_station features)); reflexivity.
Qed.

(** C4, as amended.  For a decoded [FeatureCollection] whose features are
    objects (with an object as [properties], when they have that member),
    [list_stations]
    returns the features with [map_item_type == 1], each
    converted by [Station.from_geojson_feature], in order, and no other
    feature; a collection of three features, two with discriminator 1 and one
    with discriminator 2, gives exactly two stations. *)
Theorem stations_are_the_type_1_features `{Collaborators} (self : BayWheelsClient)
    (d : list (pystr * pyvalue)) (features : list pyvalue) :
  is_authenticated self = true ->
  let response := post (stations_request self) in
  status_code response = 200%Z ->
  decode_inventory response = Ok (PyDict d) ->
  dict_get d (lit "type") = Some (PyStr (lit "FeatureCollection")) ->
  py_get (PyDict d) (lit "features") (PyList []) = Ok (PyList features) ->
  forallb is_feature features = true ->
  outcome (list_stations self) = convert_all (filter is_station features)
  /\ (List.length features = 3 ->
      List.length (filter (discriminator_is 1) features) = 2 ->
      List.length (filter (discriminator_is 2) features) = 1 ->
      (forall f, In f features -> is_station f = true ->
                 is_ok (from_geojson_feature f) = true) ->
      exists stations,
        outcome (list_stations self) = Ok stations /\ List.length stations = 2).
Proof.
  intros Hauth response Hstatus Hdata Htype Hfeatures Hwf.
  assert (Hparse : outcome (list_stations self)
                   = convert_all (filter is_station features)).
  { rewrite (list_stations_answered self Hauth Hstatus).
    exact (parse_stations_collection _ Hdata Htype Hfeatures Hwf). }
  split; [exact Hparse|].
  intros _ Hones _ Hconv.
  destruct (convert_all_succeeds (filter is_station features)) as [sts [Hsts Hlen]].
  { intros f Hin. apply filter_In in Hin as [Hin Hst]. now apply Hconv. }
  exists sts. rewrite Hparse. split; [exact Hsts|].
  rewrite Hlen. exact Hones.
Qed.

Lemma stations_are_the_type_1_features_witness :
  let W := Sample.world Sample.service_wants_email
             (Sample.text_response 200
                "{'type': 'FeatureCollection', 'features': [{'properties': {'map_item_type': 1, 'id': 'a'}}, {'properties': {'map_item_type': 2, 'id': 'bike'}}, {'properties': {'map_item_type': 1, 'id': 'b', 'name': 'Market St'}}]}") in
  exists stations,
    outcome (list_stations Sample.client_with_token) = Ok stations
    /\ List.map Station.id stations = [lit "a"; lit "b"].
Proof.
  intro W.
  destruct (decode_inventory (post (stations_request Sample.client_with_token)))
    as [[| | | | | |d]|] eqn:Hdata; try (vm_compute in Hdata; discriminate).
  destruct (py_get (PyDict d) (lit "features") (PyList []))
    as [[| | | | |features|]|] eqn:Hfeatures;
    try (vm_compute in Hdata; injection Hdata as <-;
         vm_compute in Hfeatures; discriminate).
  pose proof (@stations_are_the_type_1_features W Sample.client_with_token
                d features eq_refl eq_refl Hdata) as Hthm.
  vm_compute in Hdata. injection Hdata as <-.
  vm_compute in Hfeatures. injection Hfeatures as <-.
  destruct (Hthm eq_refl eq_refl eq_refl) as [Hall _].
  eexists. split; [exact Hall|]. reflexivity.
Defined.

(** C4, as stated, fails on a collection with a feature whose [properties]
    member is [null], which GeoJSON allows: the collection has one station,
    and the call ends with the [AttributeError] of the loop's read of
    [props.get] instead of returning it. *)
Lemma stations_counterexample :
  let W := Sample.world Sample.service_wants_email
             (Sample.text_response 200
                "{'type': 'FeatureCollection', 'features': [{'properties': {'map_item_type': 1, 'id': 'a'}}, {'properties': null}]}") in
  (exists d features,
     decode_inventory (post (stations_request Sample.client_with_token)) = Ok (PyDict d)
     /\ dict_get d (lit "type") = Some (PyStr (lit "FeatureCollection"))
     /\ dict_get d (lit "features") = Some (PyList features)
     /\ List.length (filter is_station features) = 1)
  /\ outcome (list_stations Sample.client_with_token)
     = raise AttributeError (lit "'NoneType' object has no attribute 'get'").
Proof.
  intro W. split; [|reflexivity].
  do 2 eexists. split; [reflexivity|]. split; [reflexivity|].
  split; reflexivity.
Qed.

(** What [decode_inventory] makes of a body that is an object: the object
    itself when it has no [map_inventory_json] member, and what [json.loads]
    makes of that member otherwise. *)
Lemma decode_inventory_direct `{Collaborators} (response : response)
    (c : list (pystr * pyvalue)) :
  json response = Ok (PyDict c) ->
  dict_get c (lit "map_inventory_json") = None ->
  decode_inventory response = Ok (PyDict c).
Proof.
  intros Hjson Hkey. unfold decode_inventory. rewrite Hjson.
  cbn [bind_result py_contains]. rewrite Hkey. reflexivity.
Qed.

Lemma decode_inventory_nested `{Collaborators} (response : response)
    (w : list (pystr * pyvalue)) (v : pyvalue) :
  json response = Ok (PyDict w) ->
  dict_get w (lit "map_inventory_json") = Some v ->
  decode_inventory response
  = try_except (py_json_loads v)
      (fun e => is_json_decode_error e || is_value_error e)
      (fun e => raise BayWheelsError
                  (lit "Failed to parse station data: " ++ exn_message e)).
Proof.
  intros Hjson Hkey. unfold decode_inventory. rewrite Hjson.
  cbn [bind_result py_contains py_getitem]. rewrite Hkey. reflexivity.
Qed.

Lemma parse_stations_decode_error `{Collaborators} (response : response) (e : exn) :
  decode_inventory response = Raise e ->
  parse_stations response = Raise e.
Proof.
  intros Hdata. unfold parse_stations. now rewrite Hdata.
Qed.

(** C3, as amended.  Let [C] be a [FeatureCollection] that has no member
    named [map_inventory_json] of its own.  A body that is an object whose
    [map_inventory_json] member is a string that [json.loads] decodes to [C]
    is parsed exactly as a body that is [C] itself. *)
Theorem nested_inventory_same `{Collaborators} (wrapper direct : response)
    (w c : list (pystr * pyvalue)) (s : pystr) :
  json wrapper = Ok (PyDict w) ->
  dict_get w (lit "map_inventory_json") = Some (PyStr s) ->
  json_loads s = Ok (PyDict c) ->
  json direct = Ok (PyDict c) ->
  dict_get c (lit "type") = Some (PyStr (lit "FeatureCollection")) ->
  dict_get c (lit "map_inventory_json") = None ->
  parse_stations wrapper = parse_stations direct.
Proof.
  intros Hwrapper Hmember Hloads Hdirect _ Hown.
  unfold parse_stations.
  rewrite (decode_inventory_nested _ Hwrapper Hmember).
  rewrite (decode_inventory_direct _ Hdirect Hown).
  cbn [py_json_loads]. rewrite Hloads. reflexivity.
Qed.

Lemma nested_inventory_same_witness :
  let W := Sample.world Sample.service_wants_email (Sample.text_response 200 "{}") in
  let wrapper :=
    Sample.text_response 200
      "{'map_inventory_json': '{\'type\': \'FeatureCollection\', \'features\': [{\'properties\': {\'map_item_type\': 1, \'id\': \'a\'}}]}'}" in
  let direct :=
    Sample.text_response 200
      "{'type': 'FeatureCollection', 'features': [{'properties': {'map_item_type': 1, 'id': 'a'}}]}" in
  parse_stations wrapper = parse_stations direct
  /\ List.map Station.id
       (match parse_stations direct with Ok l => l | Raise _ => [] end)
     = [lit "a"].
Proof.
  intros W wrapper direct. split; [|reflexivity].
  destruct (json wrapper) as [[| | | | | |w]|] eqn:Hwrapper;
    try (vm_compute in Hwrapper; discriminate).
  destruct (json direct) as [[| | | | | |c]|] eqn:Hdirect;
    try (vm_compute in Hdirect; discriminate).
  refine (@nested_inventory_same W wrapper direct w c
            (Sample.quoted "{'type': 'FeatureCollection', 'features': [{'properties': {'map_item_type': 1, 'id': 'a'}}]}")
            Hwrapper _ _ Hdirect _ _);
    vm_compute in Hwrapper; injection Hwrapper as <-;
    vm_compute in Hdirect; injection Hdirect as <-;
    reflexivity.
Defined.

(** C3, as stated, fails on a collection that carries a member named
    [map_inventory_json] itself (GeoJSON allows such foreign members): taken
    directly, the client decodes that member instead of using the collection,
    here an empty collection; wrapped, it uses the collection. *)
Lemma nested_inventory_counterexample :
  let W := Sample.world Sample.service_wants_email (Sample.text_response 200 "{}") in
  let inner := "{\'type\': \'FeatureCollection\', \'features\': []}"%string in
  let collection :=
    ("{'type': 'FeatureCollection', 'features': [{'properties': {'map_item_type': 1, 'id': 'a'}}], 'map_inventory_json': '"
     ++ inner ++ "'}")%string in
  let escaped :=
    "{\'type\': \'FeatureCollection\', \'features\': [{\'properties\': {\'map_item_type\': 1, \'id\': \'a\'}}], \'map_inventory_json\': \'{\\\'type\\\': \\\'FeatureCollection\\\', \\\'features\\\': []}\'}"%string in
  let direct := Sample.text_response 200 collection in
  let wrapper :=
    Sample.text_response 200 ("{'map_inventory_json': '" ++ escaped ++ "'}")%string in
  exists w c s,
    json wrapper = Ok (PyDict w)
    /\ dict_get w (lit "map_inventory_json") = Some (PyStr s)
    /\ json_loads s = Ok (PyDict c)
    /\ json direct = Ok (PyDict c)
    /\ dict_get c (lit "type") = Some (PyStr (lit "FeatureCollection"))
    /\ List.map Station.id
         (match parse_stations wrapper with Ok l => l | Raise _ => [] end)
       = [lit "a"]
    /\ parse_stations direct = Ok []
    /\ parse_stations wrapper <> parse_stations direct.
Proof.
  intros W inner collection escaped direct wrapper.
  destruct (json wrapper) as [[| | | | | |w]|] eqn:Hwrapper;
    try (vm_compute in Hwrapper; discriminate).
  destruct (json direct) as [[| | | | | |c]|] eqn:Hdirect;
    try (vm_compute in Hdirect; discriminate).
  exists w, c, (Sample.quoted collection).
  vm_compute in Hwrapper. injection Hwrapper as <-.
  vm_compute in Hdirect. injection Hdirect as <-.
  repeat split; try reflexivity.
  vm_compute. discriminate.
Qed.

Lemma parse_stations_unexpected_type `{Collaborators} (response : response)
    (d : list (pystr * pyvalue)) (t : pyvalue) :
  decode_inventory response = Ok (PyDict d) ->
  py_get (PyDict d) (lit "type") PyNone = Ok t ->
  py_eq_str t (lit "FeatureCollection") = false ->
  parse_stations response
  = raise BayWheelsError (lit "Unexpected response format: " ++ py_str t).
Proof.
  intros Hdata Htype Hne. unfold parse_stations, check_collection.
  rewrite Hdata. cbn [bind_result]. rewrite Htype. cbn [bind_result].
  rewrite Hne. reflexivity.
Qed.

(** C5, as amended.  In [list_stations], on a response with status 200: when
    [response.json()] fails with a decode error ([JSONDecodeError], or any
    other [ValueError]), and when the [map_inventory_json] member is a string
    on which [json.loads] fails so, the call raises [BayWheelsError] whose
    message carries the text of the decode error; when the decoded object has
    a [type] other than ["FeatureCollection"] (or none), it raises
    [BayWheelsError] naming that type; and whatever exception a decoding step
    ends with, and whenever the decoded value is no object at all, the call
    ends with an exception and returns no list. *)
Theorem malformed_inventory_is_reported `{Collaborators} (self : BayWheelsClient) :
  is_authenticated self = true ->
  let response := post (stations_request self) in
  status_code response = 200%Z ->
  (forall e, json response = Raise e -> is_value_error e = true ->
     outcome (list_stations self)
     = raise BayWheelsError (lit "Failed to parse station data: " ++ exn_message e))
  /\ (forall outer s e,
        json response = Ok (PyDict outer) ->
        dict_get outer (lit "map_inventory_json") = Some (PyStr s) ->
        json_loads s = Raise e -> is_value_error e = true ->
        outcome (list_stations self)
        = raise BayWheelsError (lit "Failed to parse station data: " ++ exn_message e))
  /\ (forall d t,
        decode_inventory response = Ok (PyDict d) ->
        py_get (PyDict d) (lit "type") PyNone = Ok t ->
        py_eq_str t (lit "FeatureCollection") = false ->
        outcome (list_stations self)
        = raise BayWheelsError (lit "Unexpected response format: " ++ py_str t))
  /\ (forall e, json response = Raise e ->
        is_ok (outcome (list_stations self)) = false)
  /\ (forall outer v e,
        json response = Ok (PyDict outer) ->
        dict_get outer (lit "map_inventory_json") = Some v ->
        py_json_loads v = Raise e ->
        is_ok (outcome (list_stations self)) = false)
  /\ (forall v,
        decode_inventory response = Ok v ->
        (forall d, v <> PyDict d) ->
        is_ok (outcome (list_stations self)) = false).
Proof.
  intros Hauth response Hstatus.
  rewrite (list_stations_answered self Hauth Hstatus). fold response.
  split; [|split; [|split; [|split; [|split]]]].
  - intros e Hjson Hvalue. apply parse_stations_decode_error.
    unfold decode_inventory. rewrite Hjson. cbn [bind_result try_except].
    rewrite Hvalue, orb_true_r. reflexivity.
  - intros outer s e Hjson Hmember Hloads Hvalue.
    apply parse_stations_decode_error.
    rewrite (decode_inventory_nested _ Hjson Hmember).
    cbn [py_json_loads]. rewrite Hloads. cbn [try_except].
    rewrite Hvalue, orb_true_r. reflexivity.
  - intros d t. apply parse_stations_unexpected_type.
  - intros e Hjson. unfold parse_stations, decode_inventory. rewrite Hjson.
    cbn [bind_result try_except].
    destruct (is_json_decode_error e || is_value_error e); reflexivity.
  - intros outer v e Hjson Hmember Hloads. unfold parse_stations.
    rewrite (decode_inventory_nested _ Hjson Hmember), Hloads.
    cbn [try_except].
    destruct (is_json_decode_error e || is_value_error e); reflexivity.
  - intros v Hdata Hnot. unfold parse_stations. rewrite Hdata.
    destruct v; try reflexivity. now destruct (Hnot d).
Qed.

Lemma malformed_inventory_is_reported_witness :
  is_authenticated Sample.client_with_token = true
  /\ (let W := Sample.world Sample.service_wants_email
                 (Sample.text_response 200 "<html>gateway timeout</html>") in
      outcome (list_stations Sample.client_with_token)
      = raise BayWheelsError
          (lit "Failed to parse station data: Expecting value: line 1 column 1 (char 0)"))
  /\ (let W := Sample.world Sample.service_wants_email
                 (Sample.text_response 200 "{'map_inventory_json': '{\'type\': '}") in
      outcome (list_stations Sample.client_with_token)
      = raise BayWheelsError
          (lit "Failed to parse station data: Expecting value: line 1 column 10 (char 9)"))
  /\ (let W := Sample.world Sample.service_wants_email
                 (Sample.text_response 200 "{'type': 'Feature', 'features': []}") in
      outcome (list_stations Sample.client_with_token)
      = raise BayWheelsError (lit "Unexpected response format: Feature")).
Proof.
  split; [reflexivity|]. split; [|split]; intro W.
  - exact (proj1 (@malformed_inventory_is_reported W Sample.client_with_token
                    eq_refl eq_refl)
             (Exn JSONDecodeError (lit "Expecting value: line 1 column 1 (char 0)"))
             eq_refl eq_refl).
  - destruct (json (post (stations_request Sample.client_with_token)))
      as [[| | | | | |outer]|] eqn:Hjson; try (vm_compute in Hjson; discriminate).
    refine (proj1 (proj2 (@malformed_inventory_is_reported W
                            Sample.client_with_token eq_refl eq_refl))
              outer (Sample.quoted "{'type': ")
              (Exn JSONDecodeError (lit "Expecting value: line 1 column 10 (char 9)"))
              Hjson _ eq_refl eq_refl).
    vm_compute in Hjson. injection Hjson as <-. reflexivity.
  - destruct (decode_inventory (post (stations_request Sample.client_with_token)))
      as [[| | | | | |d]|] eqn:Hdata; try (vm_compute in Hdata; discriminate).
    refine (proj1 (proj2 (proj2 (@malformed_inventory_is_reported W
                                   Sample.client_with_token eq_refl eq_refl)))
              d (PyStr (lit "Feature")) Hdata _ eq_refl).
    vm_compute in Hdata. injection Hdata as <-. reflexivity.
Defined.

(** C5, as stated, fails on two bodies.  In the first the
    [map_inventory_json] member is the number 5: its decoding fails, with
    the [TypeError] of [json.loads], which the handler does not catch.  The
    second decodes to an array, which has no [type] that could be
    ["FeatureCollection"]: the call ends with the [AttributeError] of
    [data.get].  Neither is a [BayWheelsError]. *)
Lemma malformed_inventory_counterexample :
  (let W := Sample.world Sample.service_wants_email
              (Sample.text_response 200 "{'map_inventory_json': 5}") in
   (exists outer,
      json (post (stations_request Sample.client_with_token)) = Ok (PyDict outer)
      /\ dict_get outer (lit "map_inventory_json") = Some (PyInt 5)
      /\ is_ok (py_json_loads (PyInt 5)) = false)
   /\ outcome (list_stations Sample.client_with_token)
      = raise TypeError
          (lit "the JSON object must be str, bytes or bytearray, not int"))
  /\ (let W := Sample.world Sample.service_wants_email
                 (Sample.text_response 200 "[]") in
      json (post (stations_request Sample.client_with_token)) = Ok (PyList [])
      /\ outcome (list_stations Sample.client_with_token)
         = raise AttributeError (lit "'list' object has no attribute 'get'")).
Proof.
  split; intro W.
  - split; [|reflexivity].
    eexists. split; [reflexivity|]. split; reflexivity.
  - split; reflexivity.
Qed.

(** ** The pattern and the words of a text *)

Lemma is_digit_is_word `{Collaborators} (c : codepoint) :
  is_digit c = true -> is_word c = true.
Proof.
  unfold is_digit, is_word, is_ascii_word.
  destruct (N.ltb c 128); intros ->; reflexivity.
Qed.

Lemma match_tail_unfold `{Collaborators} (n : nat) (s : pystr) :
  match_tail n s
  = if Nat.ltb n 15 then None
    else if word_boundary (nth_error s (n - 1)) (skipn n s) then Some (firstn n s)
    else match n with
         | O => None
         | S n' => match_tail n' s
         end.
Proof. destruct n; reflexivity. Qed.

(** Every text splits into its leading digits and a rest that does not
    begin with a digit. *)
Lemma leading_digits_split `{Collaborators} (s : pystr) :
  exists ds rest,
    s = ds ++ rest
    /\ forallb is_digit ds = true
    /\ match rest with
       | [] => True
       | r :: _ => is_digit r = false
       end.
Proof.
  induction s as [|c s IH].
  - exists [], []. repeat split.
  - destruct (is_digit c) eqn:Hc.
    + destruct IH as (ds & rest & -> & Hds & Hrest).
      exists (c :: ds), rest. cbn. rewrite Hc, Hds. repeat split. exact Hrest.
    + exists [], (c :: s). repeat split. exact Hc.
Qed.

Section Digits.
Context `{Collaborators}.
Variables (rest : pystr).
Hypothesis rest_starts_without_digit :
  match rest with
  | [] => True
  | r :: _ => is_digit r = false
  end.

Lemma leading_digits_app (ds : pystr) :
  forallb is_digit ds = true ->
  forall max, leading_digits max (ds ++ rest) = Nat.min max (List.length ds).
Proof.
  induction ds as [|d ds IH]; intros Hds max.
  - cbn [app List.length]. rewrite Nat.min_0_r.
    destruct max; [reflexivity|]. cbn.
    destruct rest as [|r rest']; [reflexivity|].
    now rewrite rest_starts_without_digit.
  - cbn [forallb] in Hds. apply andb_true_iff in Hds as [Hd Hds].
    destruct max; [reflexivity|].
    cbn [app leading_digits List.length Nat.min]. rewrite Hd.
    now rewrite (IH Hds).
Qed.

(** Between two digits there is no word boundary. *)
Lemma no_boundary_inside (n : nat) :
  forall ds : pystr,
    forallb is_digit ds = true ->
    1 <= n -> n < List.length ds ->
    word_boundary (nth_error (ds ++ rest) (n - 1)) (skipn n (ds ++ rest)) = false.
Proof.
  induction n as [|n IH]; intros ds Hds Hpos Hlt; [lia|].
  destruct ds as [|a ds]; [cbn in Hlt; lia|].
  cbn [forallb] in Hds. apply andb_true_iff in Hds as [Ha Hds].
  destruct n as [|n].
  - destruct ds as [|b ds]; [cbn in Hlt; lia|].
    cbn [forallb] in Hds. apply andb_true_iff in Hds as [Hb _].
    unfold word_boundary. cbn [app Nat.sub nth_error skipn].
    now rewrite (is_digit_is_word _ Ha), (is_digit_is_word _ Hb).
  - specialize (IH ds Hds ltac:(lia) ltac:(cbn in Hlt; lia)).
    replace (S (S n) - 1) with (S n) by lia.
    replace (S n - 1) with n in IH by lia.
    exact IH.
Qed.

Lemma match_tail_inside (ds : pystr) :
  forallb is_digit ds = true ->
  forall n, n < List.length ds -> match_tail n (ds ++ rest) = None.
Proof.
  intros Hds. induction n as [|n IH]; intros Hlt; [reflexivity|].
  rewrite match_tail_unfold.
  destruct (Nat.ltb (S n) 15) eqn:Hshort; [reflexivity|].
  rewrite (no_boundary_inside ds Hds); [|lia|exact Hlt].
  apply IH. lia.
Qed.

Lemma firstn_all_app (ds : pystr) :
  firstn (List.length ds) (ds ++ rest) = ds.
Proof. induction ds as [|d ds IH]; cbn; [reflexivity|now rewrite IH]. Qed.

Lemma skipn_all_app (ds : pystr) :
  skipn (List.length ds) (ds ++ rest) = rest.
Proof. induction ds as [|d ds IH]; cbn; [reflexivity|exact IH]. Qed.

Lemma last_digit_is_word (ds : pystr) :
  forallb is_digit ds = true ->
  1 <= List.length ds ->
  exists a, nth_error (ds ++ rest) (List.length ds - 1) = Some a
            /\ is_word a = true.
Proof.
  induction ds as [|d ds IH]; intros Hds Hlen; [cbn in Hlen; lia|].
  cbn [forallb] in Hds. apply andb_true_iff in Hds as [Hd Hds].
  destruct ds as [|d' ds].
  - exists d. split; [reflexivity|now apply is_digit_is_word].
  - destruct (IH Hds ltac:(cbn; lia)) as [a [Ha Hword]].
    exists a. split; [|exact Hword].
    cbn [List.length] in *.
    replace (S (S (List.length ds)) - 1) with (S (S (List.length ds) - 1)) by lia.
    exact Ha.
Qed.

Lemma match_tail_all (ds : pystr) :
  forallb is_digit ds = true ->
  match_tail (List.length ds) (ds ++ rest)
  = if Nat.leb 15 (List.length ds) && is_delimiter rest then Some ds else None.
Proof.
  intros Hds. rewrite match_tail_unfold.
  destruct (Nat.ltb (List.length ds) 15) eqn:Hshort.
  - apply Nat.ltb_lt in Hshort.
    replace (Nat.leb 15 (List.length ds)) with false; [reflexivity|].
    symmetry. apply Nat.leb_gt. exact Hshort.
  - apply Nat.ltb_ge in Hshort.
    replace (Nat.leb 15 (List.length ds)) with true
      by (symmetry; now apply Nat.leb_le).
    destruct (last_digit_is_word ds Hds ltac:(lia)) as [a [-> Hword]].
    rewrite skipn_all_app, firstn_all_app.
    unfold word_boundary, is_delimiter. rewrite Hword. cbn [andb].
    destruct rest as [|r rest'] eqn:Hrest; [reflexivity|].
    destruct (is_word r); cbn [xorb negb]; [|reflexivity].
    destruct (List.length ds) as [|n] eqn:Hlen; [reflexivity|].
    rewrite <- Hrest. apply match_tail_inside; [exact Hds|lia].
Qed.

Lemma word_prefix_app (ds : pystr) :
  forallb is_digit ds = true ->
  word_prefix (ds ++ rest) = ds ++ word_prefix rest.
Proof.
  induction ds as [|d ds IH]; intros Hds; [reflexivity|].
  cbn [forallb] in Hds. apply andb_true_iff in Hds as [Hd Hds].
  cbn [app word_prefix]. rewrite (is_digit_is_word _ Hd).
  now rewrite (IH Hds).
Qed.

Lemma is_ride_id_of_word (ds : pystr) :
  forallb is_digit ds = true ->
  is_ride_id (word_prefix (ds ++ rest))
  = Nat.leb 15 (List.length ds) && is_delimiter rest
    && Nat.leb (List.length ds) 20.
Proof.
  intros Hds. rewrite (word_prefix_app ds Hds).
  unfold is_ride_id, is_delimiter.
  destruct rest as [|r rest']; cbn [word_prefix].
  - rewrite app_nil_r, Hds. cbn [andb]. now rewrite andb_true_r.
  - destruct (is_word r) eqn:Hr; cbn [negb].
    + rewrite forallb_app. cbn [forallb].
      rewrite rest_starts_without_digit, Hds. cbn [andb].
      now rewrite andb_false_r.
    + rewrite app_nil_r, Hds. cbn [andb]. now rewrite andb_true_r.
Qed.

Lemma word_prefix_of_ride_id (ds : pystr) :
  forallb is_digit ds = true ->
  is_delimiter rest = true ->
  word_prefix (ds ++ rest) = ds.
Proof.
  intros Hds Hdelim. rewrite (word_prefix_app ds Hds).
  unfold is_delimiter in Hdelim.
  destruct rest as [|r rest']; cbn [word_prefix]; [apply app_nil_r|].
  apply negb_true_iff in Hdelim. rewrite Hdelim. apply app_nil_r.
Qed.

End Digits.

(** At any position, the digits the pattern can take and keep are the whole
    word that begins there, when that word is 15 to 20 digits. *)
Lemma match_tail_word `{Collaborators} (s : pystr) :
  match_tail (leading_digits 20 s) s
  = if is_ride_id (word_prefix s) then Some (word_prefix s) else None.
Proof.
  destruct (leading_digits_split s) as (ds & rest & -> & Hds & Hrest).
  rewrite (leading_digits_app rest Hrest ds Hds).
  rewrite (is_ride_id_of_word rest Hrest ds Hds).
  destruct (Nat.leb (List.length ds) 20) eqn:Hlen.
  - apply Nat.leb_le in Hlen. rewrite Nat.min_r by exact Hlen.
    rewrite (match_tail_all rest Hrest ds Hds), andb_true_r.
    destruct (Nat.leb 15 (List.length ds) && is_delimiter rest) eqn:Hid;
      [|reflexivity].
    apply andb_true_iff in Hid as [_ Hdelim].
    now rewrite (word_prefix_of_ride_id rest Hrest ds Hds Hdelim).
  - apply Nat.leb_gt in Hlen. rewrite Nat.min_l by lia.
    rewrite andb_false_r. apply match_tail_inside; [exact Hds|exact Hlen].
Qed.

(** [re.search] walks through the words of the text and stops at the first
    one that is 15 to 20 digits. *)
Lemma search_from_words `{Collaborators} (s : pystr) :
  forall prev : option codepoint,
    search_from prev s
    = find is_ride_id
        (words_from (match prev with Some c => is_word c | None => false end) s).
Proof.
  induction s as [|c s IH]; intros prev.
  - cbn [search_from words_from find]. unfold match_here.
    destruct (word_boundary prev []); reflexivity.
  - cbn [search_from words_from]. rewrite (IH (Some c)).
    unfold match_here. rewrite match_tail_word. unfold word_boundary.
    destruct (match prev with Some c0 => is_word c0 | None => false end);
      destruct (is_word c) eqn:Hc; cbn [xorb negb andb find].
    + reflexivity.
    + cbn [word_prefix]. rewrite Hc. reflexivity.
    + destruct (is_ride_id (word_prefix (c :: s))); reflexivity.
    + reflexivity.
Qed.

Lemma re_search_first_delimited_run `{Collaborators} (text : pystr) :
  re_search_ride_id text = first_delimited_run text.
Proof. apply (search_from_words text None). Qed.

(** A match is at least 15 characters long. *)
Lemma first_delimited_run_not_empty `{Collaborators} (text : pystr) :
  first_delimited_run text <> Some [].
Proof.
  unfold first_delimited_run. intros Hfind.
  apply find_some in Hfind as [_ Hid]. discriminate.
Qed.

(** A match is a run of at least 15 digits, so the scan of the spec finds
    one too. *)
Lemma spec_scan_finds_what_search_finds `{Collaborators} (s : pystr) :
  forall prev : option codepoint,
    spec_first_digit_run s = None -> search_from prev s = None.
Proof.
  induction s as [|c s IH]; intros prev Hnone.
  - cbn [search_from]. unfold match_here.
    destruct (word_boundary prev []); reflexivity.
  - cbn [spec_first_digit_run] in Hnone. cbn [search_from]. unfold match_here.
    destruct (Nat.leb 15 (leading_digits 20 (c :: s))) eqn:Hlong;
      [discriminate|].
    apply Nat.leb_gt in Hlong.
    rewrite match_tail_unfold.
    replace (Nat.ltb (leading_digits 20 (c :: s)) 15) with true
      by (symmetry; now apply Nat.ltb_lt).
    destruct (word_boundary prev (c :: s)); apply IH, Hnone.
Qed.

(** ** Reservations *)

(** The four ways [parse_reservation] can go, by the outcome of
    [response.json()]. *)
Lemma parse_reservation_object `{Collaborators} (response : response)
    (station_id : pystr) (d : list (pystr * pyvalue)) :
  json response = Ok (PyDict d) ->
  parse_reservation response station_id
  = match py_str (match dict_get d (lit "ride_id") with
                  | Some v => v
                  | None => PyStr []
                  end) with
    | [] =>
        raise ReservationError
          (lit "Failed to parse reservation response: "
           ++ lit "Could not parse reservation response")
    | c :: rest =>
        match (match dict_get d (lit "status") with
               | Some st => st
               | None => PyStr (lit "reserved")
               end) with
        | PyStr status => Ok (Reservation.Make (c :: rest) status station_id)
        | other =>
            raise ReservationError
              (lit "Failed to parse reservation response: "
               ++ exn_message (invalid_status other))
        end
    end.
Proof.
  intros Hjson. unfold parse_reservation, extract_ride_id. rewrite Hjson.
  cbn [bind_result py_get try_except fst snd].
  destruct (py_str _); [reflexivity|].
  unfold new_reservation.
  destruct (match dict_get d (lit "status") with
            | Some st => st
            | None => PyStr (lit "reserved")
            end); reflexivity.
Qed.

Lemma parse_reservation_not_object `{Collaborators} (response : response)
    (station_id : pystr) (v : pyvalue) :
  json response = Ok v ->
  (forall d, v <> PyDict d) ->
  parse_reservation response station_id
  = raise ReservationError
      (lit "Failed to parse reservation response: "
       ++ lit "'" ++ type_name v ++ lit "' object has no attribute 'get'").
Proof.
  intros Hjson Hnot. unfold parse_reservation, extract_ride_id. rewrite Hjson.
  destruct v; try reflexivity. now destruct (Hnot d).
Qed.

Lemma parse_reservation_fallback `{Collaborators} (response : response)
    (station_id : pystr) (e : exn) :
  json response = Raise e ->
  is_json_decode_error e = true ->
  parse_reservation response station_id
  = match first_delimited_run (bytes_decode_ignore (content response)) with
    | Some ride_id =>
        Ok (Reservation.Make ride_id (lit "reserved") station_id)
    | None =>
        raise ReservationError
          (lit "Failed to parse reservation response: "
           ++ lit "Could not parse reservation response")
    end.
Proof.
  intros Hjson Hdecode. unfold parse_reservation, extract_ride_id.
  rewrite Hjson. cbn [bind_result try_except]. rewrite Hdecode.
  cbn [bind_result try_except fst snd].
  rewrite re_search_first_delimited_run.
  pose proof (first_delimited_run_not_empty
                (bytes_decode_ignore (content response))) as Hne.
  destruct (first_delimited_run _) as [[|c rest]|]; try reflexivity.
  now destruct Hne.
Qed.

Lemma parse_reservation_other_error `{Collaborators} (response : response)
    (station_id : pystr) (e : exn) :
  json response = Raise e ->
  is_json_decode_error e = false ->
  parse_reservation response station_id
  = raise ReservationError
      (lit "Failed to parse reservation response: " ++ exn_message e).
Proof.
  intros Hjson Hdecode. unfold parse_reservation, extract_ride_id.
  rewrite Hjson. cbn [bind_result try_except]. rewrite Hdecode. reflexivity.
Qed.

(** Bytes below 128 decode to themselves. *)
Lemma utf8_decode_ignore_ascii (bs : list N) :
  forallb (fun b => N.ltb b 0x80) bs = true ->
  utf8_decode_ignore bs = bs.
Proof.
  induction bs as [|b bs IH]; intros Hall; [reflexivity|].
  cbn [forallb] in Hall. apply andb_true_iff in Hall as [Hb Hbs].
  cbn [utf8_decode_ignore]. rewrite Hb. now rewrite (IH Hbs).
Qed.

(** C6, as amended.  When the body is text that is no JSON, so that
    [response.json()] raises [JSONDecodeError], [create_reservation] decodes
    the body as UTF-8, skipping what does not decode, and takes as [ride_id]
    the first run of 15 to 20 digits that is a word of its own (no letter,
    digit or underscore right before or right after it), with status
    ["reserved"]; when there is none it raises [ReservationError].  The body
    [...ride=98765432109876543...] gives [ride_id] 98765432109876543.
    Nothing is said here of a body that is not valid UTF-8, on which
    [response.json()] fails before it reads any JSON. *)
Theorem fallback_takes_first_delimited_run `{Collaborators} (self : BayWheelsClient)
    (station_id bike_type : pystr) (e : exn) :
  is_authenticated self = true ->
  let response := post (reserve_request self station_id bike_type) in
  status_code response = 200%Z ->
  json response = Raise e ->
  is_json_decode_error e = true ->
  outcome (create_reservation self station_id bike_type)
  = match first_delimited_run (bytes_decode_ignore (content response)) with
    | Some ride_id =>
        Ok (Reservation.Make ride_id (lit "reserved") station_id)
    | None =>
        raise ReservationError
          (lit "Failed to parse reservation response: Could not parse reservation response")
    end
  /\ (content response = list_byte_of_string "...ride=98765432109876543..." ->
      outcome (create_reservation self station_id bike_type)
      = Ok (Reservation.Make (lit "98765432109876543") (lit "reserved")
              station_id)).
Proof.
  intros Hauth response Hstatus Hjson Hdecode.
  rewrite (create_reservation_answered self station_id bike_type Hauth Hstatus).
  fold response. rewrite (parse_reservation_fallback _ station_id Hjson Hdecode).
  split; [reflexivity|].
  intros ->. reflexivity.
Qed.

Lemma fallback_takes_first_delimited_run_witness :
  let W := Sample.world Sample.service_wants_email
             (Sample.text_response 200 "...ride=98765432109876543...") in
  json (post (reserve_request Sample.client_with_token (lit "station-1") (lit "ebike")))
  = raise JSONDecodeError (lit "Expecting value: line 1 column 1 (char 0)")
  /\ outcome (create_reservation Sample.client_with_token (lit "station-1") (lit "ebike"))
     = Ok (Reservation.Make (lit "98765432109876543") (lit "reserved")
             (lit "station-1")).
Proof.
  intros W. split; [reflexivity|].
  exact (proj1 (@fallback_takes_first_delimited_run W Sample.client_with_token
                  (lit "station-1") (lit "ebike")
                  (Exn JSONDecodeError (lit "Expecting value: line 1 column 1 (char 0)"))
                  eq_refl eq_refl eq_refl eq_refl)).
Defined.

(** C6, as stated, fails when the digits stand next to a letter: the body
    [id123456789012345] does not decode as JSON and holds a run of 15 digits,
    yet the pattern, which asks for a word boundary on both sides, does not
    match, and the call raises [ReservationError]. *)
Lemma fallback_counterexample :
  let response := Sample.text_response 200 "id123456789012345" in
  let W := Sample.world Sample.service_wants_email response in
  (exists e, json response = Raise e /\ is_json_decode_error e = true)
  /\ spec_first_digit_run (bytes_decode_ignore (content response))
     = Some (lit "123456789012345")
  /\ outcome (create_reservation Sample.client_with_token (lit "station-1") (lit "ebike"))
     = raise ReservationError
         (lit "Failed to parse reservation response: Could not parse reservation response").
Proof.
  intros response W. split; [|split].
  - exists (Exn JSONDecodeError (lit "Expecting value: line 1 column 1 (char 0)")).
    split; reflexivity.
  - reflexivity.
  - reflexivity.
Qed.

(** C7, as amended.  When the body decodes as a JSON object with a [ride_id]
    member whose text [str(ride_id)] is not empty, and with a [status] member
    that is a string or with none, [create_reservation] returns a
    reservation whose [ride_id] is that text (the value itself when it is a
    string), whose [status] is the [status] member, or ["reserved"] when
    there is none, and whose [station_id] is the argument of the call. *)
Theorem json_reservation `{Collaborators} (self : BayWheelsClient)
    (station_id bike_type : pystr) (d : list (pystr * pyvalue)) (v : pyvalue)
    (status : pystr) :
  is_authenticated self = true ->
  let response := post (reserve_request self station_id bike_type) in
  status_code response = 200%Z ->
  json response = Ok (PyDict d) ->
  dict_get d (lit "ride_id") = Some v ->
  py_str v <> [] ->
  match dict_get d (lit "status") with
  | Some st => st = PyStr status
  | None => status = lit "reserved"
  end ->
  outcome (create_reservation self station_id bike_type)
  = Ok (Reservation.Make (py_str v) status station_id)
  /\ (forall s, v = PyStr s -> py_str v = s).
Proof.
  intros Hauth response Hstatus Hjson Hmember Hne Hfield.
  rewrite (create_reservation_answered self station_id bike_type Hauth Hstatus).
  fold response. rewrite (parse_reservation_object _ station_id Hjson), Hmember.
  split.
  - destruct (py_str v); [now destruct Hne|].
    destruct (dict_get d (lit "status")); subst; reflexivity.
  - intros s ->. reflexivity.
Qed.

Lemma json_reservation_witness :
  let W := Sample.world Sample.service_wants_email
             (Sample.text_response 200
                "{'ride_id': '123456789012345', 'status': 'reserved'}") in
  outcome (create_reservation Sample.client_with_token (lit "station-1") (lit "ebike"))
  = Ok (Reservation.Make (lit "123456789012345") (lit "reserved") (lit "station-1")).
Proof.
  intro W.
  destruct (json (post (reserve_request Sample.client_with_token
                          (lit "station-1") (lit "ebike"))))
    as [[| | | | | |d]|] eqn:Hjson; try (vm_compute in Hjson; discriminate).
  pose proof (@json_reservation W Sample.client_with_token (lit "station-1")
                (lit "ebike") d (PyStr (lit "123456789012345")) (lit "reserved")
                eq_refl eq_refl Hjson) as Hthm.
  vm_compute in Hjson. injection Hjson as <-.
  exact (proj1 (Hthm eq_refl ltac:(discriminate) eq_refl)).
Defined.

(** C7, as stated, fails on two bodies that decode as JSON and contain a
    [ride_id] member.  When the member is the empty string the call raises
    [ReservationError]: the guard [if not ride_id] takes it as missing.  When
    the [status] member is no string, here the number 5, the call raises
    [ReservationError] too: a reservation holds strings, and the error of
    its constructor is reported as a failure to parse. *)
Lemma json_reservation_counterexample :
  (let response := Sample.text_response 200 "{'ride_id': '', 'status': 'reserved'}" in
   let W := Sample.world Sample.service_wants_email response in
   (exists d v, json response = Ok (PyDict d)
                /\ dict_get d (lit "ride_id") = Some v)
   /\ outcome (create_reservation Sample.client_with_token (lit "station-1") (lit "ebike"))
      = raise ReservationError
          (lit "Failed to parse reservation response: Could not parse reservation response"))
  /\ (let response :=
        Sample.text_response 200 "{'ride_id': '123456789012345', 'status': 5}" in
      let W := Sample.world Sample.service_wants_email response in
      (exists d, json response = Ok (PyDict d)
                 /\ dict_get d (lit "ride_id") = Some (PyStr (lit "123456789012345"))
                 /\ dict_get d (lit "status") = Some (PyInt 5))
      /\ exists detail,
           outcome (create_reservation Sample.client_with_token
                      (lit "station-1") (lit "ebike"))
           = raise ReservationError
               (lit "Failed to parse reservation response: " ++ detail)).
Proof.
  split.
  - intros response W. split.
    + exists [(lit "ride_id", PyStr []); (lit "status", PyStr (lit "reserved"))],
             (PyStr []).
      split; reflexivity.
    + reflexivity.
  - intros response W. split.
    + exists [(lit "ride_id", PyStr (lit "123456789012345")); (lit "status", PyInt 5)].
      repeat split; reflexivity.
    + eexists. reflexivity.
Qed.

(** C8.  When neither path obtains an identifier (the body is not a JSON
    object with a [ride_id] member of non-empty text, and the leniently
    decoded body holds no run of 15 to 20 digits), [create_reservation]
    raises [ReservationError] saying that the response could not be
    parsed. *)
Theorem no_identifier_is_an_error `{Collaborators} (self : BayWheelsClient)
    (station_id bike_type : pystr) :
  is_authenticated self = true ->
  let response := post (reserve_request self station_id bike_type) in
  status_code response = 200%Z ->
  json_identifier response = None ->
  spec_first_digit_run (bytes_decode_ignore (content response)) = None ->
  exists detail,
    outcome (create_reservation self station_id bike_type)
    = raise ReservationError
        (lit "Failed to parse reservation response: " ++ detail).
Proof.
  intros Hauth response Hstatus Hjson Hrun.
  rewrite (create_reservation_answered self station_id bike_type Hauth Hstatus).
  fold response. unfold json_identifier in Hjson.
  destruct (json response) as [v|e] eqn:Hbody.
  - destruct v as [| | | | | |d];
      try (eexists; apply (parse_reservation_not_object _ station_id Hbody);
           intros d; discriminate).
    rewrite (parse_reservation_object _ station_id Hbody).
    destruct (dict_get d (lit "ride_id")) as [v|].
    + destruct (py_str v); [|discriminate]. eexists. reflexivity.
    + eexists. reflexivity.
  - destruct (is_json_decode_error e) eqn:Hdecode.
    + rewrite (parse_reservation_fallback _ station_id Hbody Hdecode).
      rewrite <- re_search_first_delimited_run. unfold re_search_ride_id.
      rewrite (spec_scan_finds_what_search_finds _ None Hrun).
      eexists. reflexivity.
    + rewrite (parse_reservation_other_error _ station_id Hbody Hdecode).
      eexists. reflexivity.
Qed.

Lemma no_identifier_is_an_error_witness :
  let W := Sample.world Sample.service_wants_email
             (Sample.text_response 200 "<html>Service Unavailable 12345</html>") in
  exists detail,
    outcome (create_reservation Sample.client_with_token (lit "station-1") (lit "ebike"))
    = raise ReservationError
        (lit "Failed to parse reservation response: " ++ detail).
Proof.
  intro W.
  exact (@no_identifier_is_an_error W Sample.client_with_token
           (lit "station-1") (lit "ebike") eq_refl eq_refl eq_refl eq_refl).
Defined.

(** C10.  When the body decodes as JSON and gives no [ride_id] text (the
    value is not an object, or the object has no [ride_id] member or an empty
    one), [create_reservation] raises [ReservationError], and the bytes of
    the body play no part: every response with the same [response.json()] is
    parsed alike, so the scan for digits is not attempted. *)
Theorem decoded_without_ride_id_is_an_error `{Collaborators} (self : BayWheelsClient)
    (station_id bike_type : pystr) (data : pyvalue) :
  is_authenticated self = true ->
  let response := post (reserve_request self station_id bike_type) in
  status_code response = 200%Z ->
  json response = Ok data ->
  (forall d, data = PyDict d ->
             dict_get d (lit "ride_id") = None
             \/ dict_get d (lit "ride_id") = Some (PyStr [])) ->
  (exists detail,
     outcome (create_reservation self station_id bike_type)
     = raise ReservationError
         (lit "Failed to parse reservation response: " ++ detail))
  /\ (forall other,
        json other = json response ->
        parse_reservation other station_id
        = outcome (create_reservation self station_id bike_type)).
Proof.
  intros Hauth response Hstatus Hjson Hride.
  rewrite (create_reservation_answered self station_id bike_type Hauth Hstatus).
  fold response. split.
  - destruct data as [| | | | | |d];
      try (eexists; apply (parse_reservation_not_object _ station_id Hjson);
           intros d; discriminate).
    rewrite (parse_reservation_object _ station_id Hjson).
    destruct (Hride d eq_refl) as [-> | ->]; eexists; reflexivity.
  - intros other Hsame. rewrite Hjson in Hsame.
    unfold parse_reservation, extract_ride_id. rewrite Hsame, Hjson.
    destruct data; reflexivity.
Qed.

Lemma decoded_without_ride_id_is_an_error_witness :
  let response := Sample.text_response 200 "{'order': 123456789012345678}" in
  let W := Sample.world Sample.service_wants_email response in
  re_search_ride_id (bytes_decode_ignore (content response))
  = Some (lit "123456789012345678")
  /\ exists detail,
       outcome (create_reservation Sample.client_with_token (lit "station-1") (lit "ebike"))
       = raise ReservationError
           (lit "Failed to parse reservation response: " ++ detail).
Proof.
  intros response W. split; [reflexivity|].
  refine (proj1 (@decoded_without_ride_id_is_an_error W Sample.client_with_token
                   (lit "station-1") (lit "ebike")
                   (PyDict [(lit "order", PyInt 123456789012345678)])
                   eq_refl eq_refl eq_refl _)).
  intros d Hd. injection Hd as <-. left. reflexivity.
Defined.

(** ** Login *)

Lemma str_prefix_app (p s : pystr) : str_prefix p (p ++ s) = true.
Proof.
  induction p as [|c p IH]; [reflexivity|].
  cbn [app str_prefix]. now rewrite N.eqb_refl, IH.
Qed.

Lemma str_contains_middle (before p after : pystr) :
  str_contains (before ++ p ++ after) p = true.
Proof.
  induction before as [|c before IH].
  - cbn [app]. destruct (p ++ after) eqn:Htext;
      cbn [str_contains]; rewrite <- Htext, str_prefix_app; reflexivity.
  - cbn [app str_contains]. rewrite IH. apply orb_true_r.
Qed.

(** C9, as amended.  When the service asks for an email address on a login
    without one, [login] raises [AuthenticationError] with a message that
    contains the marker, and the client is left as it was; a following
    [login] with the same phone number and code and with an email address
    returns the access token when the service grants that login. *)
Theorem email_escalation `{Collaborators} (self : BayWheelsClient)
    (phone_number code cause : pystr) :
  login_service phone_number code None = LoginEmailRequired cause ->
  (exists message,
     fst (login self phone_number code None) = raise AuthenticationError message
     /\ str_contains message EMAIL_MARKER = true)
  /\ snd (login self phone_number code None) = self
  /\ (forall email tok,
        login_service phone_number code (Some email) = LoginGranted tok ->
        fst (login (snd (login self phone_number code None))
               phone_number code (Some email))
        = Ok tok).
Proof.
  intros Hasked. unfold login, auth_login. rewrite Hasked. cbn [fst snd bind_result].
  split; [|split].
  - eexists. split; [reflexivity|]. apply str_contains_middle.
  - destruct self. reflexivity.
  - intros email tok Hgranted. cbn [auth]. rewrite Hgranted. reflexivity.
Qed.

Lemma email_escalation_witness :
  let W := Sample.world Sample.service_wants_email (Sample.text_response 200 "{}") in
  fst (login Sample.client_without_token (lit "+14155551234") (lit "123456") None)
  = raise AuthenticationError
      (lit "Email verification required. Call login() again with an email address.")
  /\ fst (login (snd (login Sample.client_without_token (lit "+14155551234")
                        (lit "123456") None))
            (lit "+14155551234") (lit "123456") (Some (lit "rider@example.org")))
     = Ok (lit "token-123456").
Proof.
  intro W. split; [reflexivity|].
  exact (proj2 (proj2 (@email_escalation W Sample.client_without_token
                         (lit "+14155551234") (lit "123456")
                         (lit "email_required") eq_refl))
           (lit "rider@example.org") (lit "token-123456") eq_refl).
Defined.

(** C9, as stated, fails when the service does not accept the second
    attempt: here it keeps asking for the email address, and the login with
    an email address raises [AuthenticationError] too. *)
Lemma email_escalation_counterexample :
  let W := Sample.world Sample.service_never_satisfied (Sample.text_response 200 "{}") in
  login_service (lit "+14155551234") (lit "123456") None
  = LoginEmailRequired (lit "email_required")
  /\ fst (login (snd (login Sample.client_without_token (lit "+14155551234")
                        (lit "123456") None))
            (lit "+14155551234") (lit "123456") (Some (lit "rider@example.org")))
     = raise AuthenticationError (lit "email_required").
Proof.
  intro W. split; reflexivity.
Qed.

(** * Further properties of the client *)

(** ** Requests and headers *)

Lemma str_eqb_refl (a : pystr) : str_eqb a a = true.
Proof.
  induction a as [|c a IH]; [reflexivity|].
  cbn [str_eqb]. now rewrite N.eqb_refl, IH.
Qed.

Lemma str_eqb_eq (a b : pystr) : str_eqb a b = true <-> a = b.
Proof.
  split; [|intros ->; apply str_eqb_refl].
  revert b. induction a as [|x a IH]; intros [|y b] Heq;
    try reflexivity; try discriminate.
  cbn [str_eqb] in Heq. apply andb_true_iff in Heq as [Hxy Hab].
  apply N.eqb_eq in Hxy. subst y. now rewrite (IH b Hab).
Qed.

Lemma headers_get_set_same (h : headers) (k v : pystr) :
  headers_get (headers_set h k v) k = Some v.
Proof.
  induction h as [|[k' v'] h IH]; cbn [headers_set headers_get].
  - now rewrite str_eqb_refl.
  - destruct (str_eqb k' k) eqn:Hk; cbn [headers_get]; rewrite Hk;
      [reflexivity|exact IH].
Qed.

Lemma headers_get_set_other (h : headers) (k v k2 : pystr) :
  k <> k2 ->
  headers_get (headers_set h k v) k2 = headers_get h k2.
Proof.
  intros Hne. induction h as [|[k' v'] h IH]; cbn [headers_set headers_get].
  - destruct (str_eqb k k2) eqn:Hk; [|reflexivity].
    apply str_eqb_eq in Hk. now destruct Hne.
  - destruct (str_eqb k' k) eqn:Hk; cbn [headers_get].
    + apply str_eqb_eq in Hk. subst k'.
      destruct (str_eqb k k2) eqn:Hk2; [|reflexivity].
      apply str_eqb_eq in Hk2. now destruct Hne.
    + now rewrite IH.
Qed.

Lemma not_authenticated_calls `{Collaborators} (self : BayWheelsClient)
    (station_id bike_type ride_id : pystr) :
  is_authenticated self = false ->
  is_ok (outcome (list_stations self)) = false
  /\ is_ok (outcome (create_reservation self station_id bike_type)) = false
  /\ is_ok (outcome (cancel_reservation self ride_id)) = false.
Proof.
  intros Hnone.
  unfold outcome, list_stations, create_reservation, cancel_reservation.
  rewrite Hnone. repeat split.
Qed.

(** X1.  A client that holds a token sends exactly one request in each call,
    whatever the response is: the log grows by the request of the call and by
    nothing else, so no call is tried again. *)
Theorem one_request_per_call `{Collaborators} (self : BayWheelsClient)
    (station_id bike_type ride_id : pystr) (log : list request) :
  is_authenticated self = true ->
  snd (list_stations self log) = log ++ [stations_request self]
  /\ snd (get_station self station_id log) = log ++ [stations_request self]
  /\ snd (create_reservation self station_id bike_type log)
     = log ++ [reserve_request self station_id bike_type]
  /\ snd (cancel_reservation self ride_id log)
     = log ++ [cancel_request self ride_id].
Proof.
  intros Hauth. split; [|split; [|split]].
  - now rewrite (list_stations_authenticated self log Hauth).
  - unfold get_station, net_bind, net_lift.
    rewrite (list_stations_authenticated self log Hauth). cbv zeta.
    destruct (if Z.eqb _ 403 then _ else _); reflexivity.
  - now rewrite (create_reservation_authenticated self station_id bike_type log Hauth).
  - now rewrite (cancel_reservation_authenticated self ride_id log Hauth).
Qed.

Lemma one_request_per_call_witness :
  let W := Sample.world Sample.service_wants_email
             (Sample.text_response 500 "Internal Server Error") in
  requests_sent (get_station Sample.client_with_token (lit "station-1"))
  = [stations_request Sample.client_with_token].
Proof.
  intro W.
  exact (proj1 (proj2 (@one_request_per_call W Sample.client_with_token
                         (lit "station-1") [] [] [] eq_refl))).
Defined.

(** X2.  The headers of a request: [content-type] is [application/json]
    whatever the common headers say; with a non-empty token and
    [authenticated] set, [authorization] is [Bearer] and the token; without
    [authenticated], [authorization] is what the common headers give. *)
Theorem headers_of_a_request `{Collaborators} (self : BayWheelsClient)
    (authenticated : bool) :
  headers_get (get_headers self authenticated) (lit "content-type")
  = Some (lit "application/json")
  /\ (forall c tok,
        access_token self = Some (c :: tok) ->
        headers_get (get_headers self true) (lit "authorization")
        = Some (lit "Bearer " ++ c :: tok))
  /\ headers_get (get_headers self false) (lit "authorization")
     = headers_get get_common_headers (lit "authorization").
Proof.
  assert (Hdiff : lit "authorization" <> lit "content-type") by discriminate.
  assert (Hdiff' : lit "content-type" <> lit "authorization") by discriminate.
  unfold access_token, get_headers. split; [|split].
  - destruct (auth_access_token (auth self)) as [[|c tok]|];
      try apply headers_get_set_same.
    destruct authenticated; [|apply headers_get_set_same].
    rewrite (headers_get_set_other _ _ Hdiff). apply headers_get_set_same.
  - intros c tok ->. apply headers_get_set_same.
  - destruct (auth_access_token (auth self)) as [[|c tok]|];
      apply (headers_get_set_other _ _ Hdiff').
Qed.

(** X3.  A client whose token is the empty string passes the guard
    ([is_authenticated] only asks for a token that is not [None]), sends its
    request, and the request carries no bearer token: its [authorization]
    header is what the common headers give. *)
Theorem empty_token_sends_without_bearer `{Collaborators} (self : BayWheelsClient) :
  access_token self = Some [] ->
  is_authenticated self = true
  /\ requests_sent (list_stations self) = [stations_request self]
  /\ headers_get (req_headers (stations_request self)) (lit "authorization")
     = headers_get get_common_headers (lit "authorization").
Proof.
  intros Hempty.
  assert (Hauth : is_authenticated self = true).
  { unfold is_authenticated. unfold access_token in Hempty. now rewrite Hempty. }
  split; [exact Hauth|]. split.
  - unfold requests_sent. now rewrite (list_stations_authenticated self [] Hauth).
  - unfold stations_request, get_headers. cbn [req_headers].
    unfold access_token in Hempty. rewrite Hempty.
    apply headers_get_set_other. discriminate.
Qed.

Lemma empty_token_sends_without_bearer_witness :
  let W := Sample.world Sample.service_wants_email (Sample.text_response 403 "{}") in
  let self := MakeClient (MakeAuth (Some (TokenInfo.Make [] None)) None None) in
  is_authenticated self = true
  /\ requests_sent (list_stations self) = [stations_request self]
  /\ headers_get (req_headers (stations_request self)) (lit "authorization") = None.
Proof.
  intros W self.
  exact (@empty_token_sends_without_bearer W self eq_refl).
Defined.

(** X4.  [cancel_reservation] succeeds exactly when the client holds a token
    and the response has status 200; the body of the response is not
    read. *)
Theorem cancel_succeeds_iff `{Collaborators} (self : BayWheelsClient)
    (ride_id : pystr) :
  outcome (cancel_reservation self ride_id) = Ok tt
  <-> is_authenticated self = true
      /\ status_code (post (cancel_request self ride_id)) = 200%Z.
Proof.
  unfold outcome. destruct (is_authenticated self) eqn:Hauth.
  - rewrite (cancel_reservation_authenticated self ride_id [] Hauth).
    cbv zeta. cbn [fst].
    destruct (Z.eqb (status_code (post (cancel_request self ride_id))) 403) eqn:H403.
    + apply Z.eqb_eq in H403. split; [discriminate|]. intros [_ H200].
      rewrite H200 in H403. discriminate.
    + destruct (Z.eqb (status_code (post (cancel_request self ride_id))) 200) eqn:H200.
      * apply Z.eqb_eq in H200. cbn [negb]. split; [now split|reflexivity].
      * apply Z.eqb_neq in H200. cbn [negb]. split; [discriminate|].
        intros [_ Hok]. now destruct H200.
  - unfold cancel_reservation. rewrite Hauth. cbn.
    split; [discriminate|]. intros [Hno _]. discriminate.
Qed.

(** X5.  Whatever the response is, [create_reservation] and
    [cancel_reservation] raise nothing but [AuthenticationError] and
    [ReservationError]. *)
Theorem reservation_calls_raise_their_own_errors `{Collaborators}
    (self : BayWheelsClient) (station_id bike_type ride_id : pystr) (e : exn) :
  outcome (create_reservation self station_id bike_type) = Raise e
  \/ outcome (cancel_reservation self ride_id) = Raise e ->
  exn_class_of e = AuthenticationError \/ exn_class_of e = ReservationError.
Proof.
  unfold outcome. destruct (is_authenticated self) eqn:Hauth.
  - rewrite (create_reservation_authenticated self station_id bike_type [] Hauth).
    rewrite (cancel_reservation_authenticated self ride_id [] Hauth).
    cbv zeta. cbn [fst]. intros [Hraise | Hraise].
    + destruct (Z.eqb _ 403);
        [injection Hraise as <-; now left|].
      destruct (negb (Z.eqb _ 200));
        [injection Hraise as <-; now right|].
      unfold parse_reservation, try_except in Hraise.
      destruct (bind_result _ _); [discriminate|].
      injection Hraise as <-. now right.
    + destruct (Z.eqb _ 403);
        [injection Hraise as <-; now left|].
      destruct (negb (Z.eqb _ 200));
        [injection Hraise as <-; now right|discriminate].
  - unfold create_reservation, cancel_reservation. rewrite Hauth. cbn.
    intros [Hraise | Hraise]; injection Hraise as <-; now left.
Qed.

Lemma reservation_calls_raise_their_own_errors_witness :
  let W := Sample.world Sample.service_wants_email (Sample.text_response 200 "[1, 2]") in
  outcome (create_reservation Sample.client_with_token (lit "station-1") (lit "ebike"))
  = raise ReservationError
      (lit "Failed to parse reservation response: 'list' object has no attribute 'get'")
  /\ (ReservationError = AuthenticationError \/ ReservationError = ReservationError).
Proof.
  intro W. split; [reflexivity|].
  exact (@reservation_calls_raise_their_own_errors W Sample.client_with_token
           (lit "station-1") (lit "ebike") []
           (Exn ReservationError
              (lit "Failed to parse reservation response: 'list' object has no attribute 'get'"))
           (or_introl eq_refl)).
Defined.

(** ** What a returned reservation tells *)

(** X6.  When [create_reservation] returns a reservation, the client held a
    token and the response had status 200; the reservation carries the
    [station_id] of the call and a [ride_id] that is not empty; and the
    [ride_id] is either the text of the [ride_id] member of the JSON body, or,
    when the body raised [JSONDecodeError], the first run of 15 to 20 digits
    that is a word of its own, with status ["reserved"]. *)
Theorem returned_reservation_is_sound `{Collaborators} (self : BayWheelsClient)
    (station_id bike_type : pystr) (r : Reservation.t) :
  outcome (create_reservation self station_id bike_type) = Ok r ->
  let response := post (reserve_request self station_id bike_type) in
  is_authenticated self = true
  /\ status_code response = 200%Z
  /\ Reservation.station_id r = station_id
  /\ Reservation.ride_id r <> []
  /\ (json_identifier response = Some (Reservation.ride_id r)
      \/ (exists e,
            json response = Raise e
            /\ is_json_decode_error e = true
            /\ first_delimited_run (bytes_decode_ignore (content response))
               = Some (Reservation.ride_id r)
            /\ Reservation.status r = lit "reserved")).
Proof.
  intros Hok response. unfold outcome in Hok.
  destruct (is_authenticated self) eqn:Hauth.
  2:{ unfold create_reservation in Hok. rewrite Hauth in Hok. discriminate. }
  rewrite (create_reservation_authenticated self station_id bike_type [] Hauth)
    in Hok.
  cbv zeta in Hok. fold response in Hok. cbn [fst] in Hok.
  destruct (Z.eqb (status_code response) 403); [discriminate|].
  destruct (Z.eqb (status_code response) 200) eqn:H200; [|discriminate].
  apply Z.eqb_eq in H200. cbn [negb] in Hok.
  split; [reflexivity|]. split; [exact H200|].
  destruct (json response) as [v|e] eqn:Hjson.
  - destruct v as [| | | | | |d];
      try (rewrite (parse_reservation_not_object _ station_id Hjson) in Hok;
           [discriminate|intros d; discriminate]).
    rewrite (parse_reservation_object _ station_id Hjson) in Hok.
    unfold json_identifier. rewrite Hjson.
    destruct (dict_get d (lit "ride_id")) as [v|].
    + destruct (py_str v) as [|c rest]; [discriminate|].
      destruct (match dict_get d (lit "status") with
                | Some st => st
                | None => PyStr (lit "reserved")
                end); try discriminate.
      injection Hok as <-. cbn. repeat split; try discriminate. now left.
    + cbn [py_str] in Hok. discriminate.
  - destruct (is_json_decode_error e) eqn:Hdecode.
    + rewrite (parse_reservation_fallback _ station_id Hjson Hdecode) in Hok.
      pose proof (first_delimited_run_not_empty
                    (bytes_decode_ignore (content response))) as Hne.
      destruct (first_delimited_run _) as [m|] eqn:Hrun; [|discriminate].
      injection Hok as <-. cbn. split; [reflexivity|]. split.
      * intros ->. now destruct Hne.
      * right. exists e. repeat split; assumption.
    + rewrite (parse_reservation_other_error _ station_id Hjson Hdecode) in Hok.
      discriminate.
Qed.

Lemma returned_reservation_is_sound_witness :
  let W := Sample.world Sample.service_wants_email
             (Sample.text_response 200 "{'ride_id': 42, 'status': 'active'}") in
  let r := Reservation.Make (lit "42") (lit "active") (lit "station-1") in
  outcome (create_reservation Sample.client_with_token (lit "station-1") (lit "ebike"))
  = Ok r
  /\ Reservation.ride_id r <> [].
Proof.
  intros W r. split; [reflexivity|].
  exact (proj1 (proj2 (proj2 (proj2
           (@returned_reservation_is_sound W Sample.client_with_token
              (lit "station-1") (lit "ebike") r eq_refl))))).
Defined.

Lemma lit_not_empty (c : ascii) (s : string) : lit (String c s) <> [].
Proof. discriminate. Qed.

Lemma int_str_not_empty (z : Z) : int_str z <> [].
Proof.
  unfold int_str, NilZero.string_of_int, NilZero.string_of_uint.
  destruct (Z.to_int z) as [u|u]; [|apply lit_not_empty].
  destruct u; apply lit_not_empty.
Qed.

(** X7.  A [ride_id] member that is [null], a boolean or an integer is not
    taken as missing: its text ([None], [True], [False], the decimal digits)
    is never empty, and, when the [status] member is a string or absent,
    [create_reservation] returns a reservation with that text as
    [ride_id]. *)
Theorem ride_id_is_stringified `{Collaborators} (self : BayWheelsClient)
    (station_id bike_type : pystr) (d : list (pystr * pyvalue)) (v : pyvalue) :
  is_authenticated self = true ->
  let response := post (reserve_request self station_id bike_type) in
  status_code response = 200%Z ->
  json response = Ok (PyDict d) ->
  dict_get d (lit "ride_id") = Some v ->
  v = PyNone \/ (exists b, v = PyBool b) \/ (exists z, v = PyInt z) ->
  dict_get d (lit "status") = None
  \/ (exists status, dict_get d (lit "status") = Some (PyStr status)) ->
  exists r,
    outcome (create_reservation self station_id bike_type) = Ok r
    /\ Reservation.ride_id r <> []
    /\ Reservation.ride_id r
       = match v with
         | PyNone => lit "None"
         | PyBool true => lit "True"
         | PyBool false => lit "False"
         | PyInt z => int_str z
         | _ => []
         end.
Proof.
  intros Hauth response Hstatus Hjson Hmember Hkind Hfield.
  assert (Hne : py_str v <> []).
  { destruct Hkind as [-> | [[b ->] | [z ->]]]; cbn [py_str py_repr].
    - discriminate.
    - destruct b; discriminate.
    - apply int_str_not_empty. }
  rewrite (create_reservation_answered self station_id bike_type Hauth Hstatus).
  fold response. rewrite (parse_reservation_object _ station_id Hjson), Hmember.
  destruct (py_str v) as [|c rest] eqn:Htext; [now destruct Hne|].
  assert (Hshape : exists status,
             match dict_get d (lit "status") with
             | Some st => st
             | None => PyStr (lit "reserved")
             end = PyStr status).
  { destruct Hfield as [-> | [status ->]]; eexists; reflexivity. }
  destruct Hshape as [status ->].
  eexists. split; [reflexivity|]. cbn [Reservation.ride_id].
  split; [discriminate|]. rewrite <- Htext.
  destruct Hkind as [-> | [[b ->] | [z ->]]]; reflexivity.
Qed.

Lemma ride_id_is_stringified_witness :
  let W := Sample.world Sample.service_wants_email
             (Sample.text_response 200 "{'ride_id': null}") in
  exists r,
    outcome (create_reservation Sample.client_with_token (lit "station-1") (lit "ebike"))
    = Ok r
    /\ Reservation.ride_id r = lit "None".
Proof.
  intro W.
  destruct (@ride_id_is_stringified W Sample.client_with_token
              (lit "station-1") (lit "ebike") [(lit "ride_id", PyNone)] PyNone
              eq_refl eq_refl eq_refl eq_refl (or_introl eq_refl) (or_introl eq_refl))
    as [r [Hok [_ Hid]]].
  exists r. split; [exact Hok|exact Hid].
Defined.

(** X25.  The scan for digits is reached from [JSONDecodeError] alone.  When
    [response.json()] raises another exception, as it does with
    [UnicodeDecodeError] for a body that is not valid UTF-8,
    [create_reservation] raises [ReservationError] with the text of that
    exception, whatever digits the body holds. *)
Theorem other_decode_errors_skip_the_scan `{Collaborators} (self : BayWheelsClient)
    (station_id bike_type : pystr) (e : exn) :
  is_authenticated self = true ->
  let response := post (reserve_request self station_id bike_type) in
  status_code response = 200%Z ->
  json response = Raise e ->
  is_json_decode_error e = false ->
  outcome (create_reservation self station_id bike_type)
  = raise ReservationError
      (lit "Failed to parse reservation response: " ++ exn_message e).
Proof.
  intros Hauth response Hstatus Hjson Hclass.
  rewrite (create_reservation_answered self station_id bike_type Hauth Hstatus).
  fold response. unfold parse_reservation, extract_ride_id.
  rewrite Hjson. cbn [bind_result try_except]. rewrite Hclass. reflexivity.
Qed.

Lemma other_decode_errors_skip_the_scan_witness :
  let body :=
    [x0a; x11] ++ list_byte_of_string "98765432109876543" ++ [x12; xff] in
  let W := Sample.world Sample.service_wants_email
             (Response 200 body
                (raise UnicodeDecodeError
                   (lit "'utf-8' codec can't decode byte 0xff in position 20: invalid start byte"))) in
  first_delimited_run (bytes_decode_ignore body) = Some (lit "98765432109876543")
  /\ outcome (create_reservation Sample.client_with_token (lit "station-1") (lit "ebike"))
     = raise ReservationError
         (lit "Failed to parse reservation response: 'utf-8' codec can't decode byte 0xff in position 20: invalid start byte").
Proof.
  intros body W. split; [reflexivity|].
  exact (@other_decode_errors_skip_the_scan W Sample.client_with_token
           (lit "station-1") (lit "ebike")
           (Exn UnicodeDecodeError
              (lit "'utf-8' codec can't decode byte 0xff in position 20: invalid start byte"))
           eq_refl eq_refl eq_refl eq_refl).
Defined.

(** ** Stations: what leaks, and what a returned list tells *)

(** X8.  A body that decodes to JSON but is no object (an array, a string, a
    number, a boolean, [null]) is not reported as [BayWheelsError]:
    [list_stations] ends with the [AttributeError] or [TypeError] of the
    first operation that needs an object. *)
Theorem non_object_body_leaks `{Collaborators} (self : BayWheelsClient)
    (v : pyvalue) :
  is_authenticated self = true ->
  let response := post (stations_request self) in
  status_code response = 200%Z ->
  json response = Ok v ->
  (forall d, v <> PyDict d) ->
  exists e,
    outcome (list_stations self) = Raise e
    /\ (exn_class_of e = AttributeError \/ exn_class_of e = TypeError).
Proof.
  intros Hauth response Hstatus Hjson Hnot.
  rewrite (list_stations_answered self Hauth Hstatus). fold response.
  unfold parse_stations, decode_inventory. rewrite Hjson.
  destruct v as [| | | |s|l|d]; cbn [bind_result py_contains].
  - eexists. split; [reflexivity|now right].
  - eexists. split; [reflexivity|now right].
  - eexists. split; [reflexivity|now right].
  - eexists. split; [reflexivity|now right].
  - destruct (str_contains s (lit "map_inventory_json"));
      eexists; (split; [reflexivity|]); [now right|now left].
  - destruct (existsb _ l);
      eexists; (split; [reflexivity|]); [now right|now left].
  - now destruct (Hnot d).
Qed.

Lemma non_object_body_leaks_witness :
  let W := Sample.world Sample.service_wants_email (Sample.text_response 200 "[]") in
  outcome (list_stations Sample.client_with_token)
  = raise AttributeError (lit "'list' object has no attribute 'get'").
Proof.
  intro W.
  destruct (@non_object_body_leaks W Sample.client_with_token (PyList [])
              eq_refl eq_refl eq_refl ltac:(discriminate)) as [e [Hraise _]].
  rewrite Hraise. vm_compute in Hraise. injection Hraise as <-. reflexivity.
Defined.

(** X9.  When the [map_inventory_json] member is not a string,
    [json.loads] raises [TypeError]; the handler catches decode errors only,
    so [list_stations] ends with that [TypeError]. *)
Theorem nested_member_must_be_text `{Collaborators} (self : BayWheelsClient)
    (outer : list (pystr * pyvalue)) (v : pyvalue) :
  is_authenticated self = true ->
  let response := post (stations_request self) in
  status_code response = 200%Z ->
  json response = Ok (PyDict outer) ->
  dict_get outer (lit "map_inventory_json") = Some v ->
  (forall s, v <> PyStr s) ->
  outcome (list_stations self)
  = raise TypeError
      (lit "the JSON object must be str, bytes or bytearray, not " ++ type_name v).
Proof.
  intros Hauth response Hstatus Hjson Hmember Hnot.
  rewrite (list_stations_answered self Hauth Hstatus). fold response.
  unfold parse_stations.
  rewrite (decode_inventory_nested _ Hjson Hmember).
  destruct v as [| | | |s| |]; try reflexivity. now destruct (Hnot s).
Qed.

Lemma nested_member_must_be_text_witness :
  let W := Sample.world Sample.service_wants_email
             (Sample.text_response 200
                "{'map_inventory_json': {'type': 'FeatureCollection', 'features': []}}") in
  outcome (list_stations Sample.client_with_token)
  = raise TypeError (lit "the JSON object must be str, bytes or bytearray, not dict").
Proof.
  intro W.
  destruct (json (post (stations_request Sample.client_with_token)))
    as [[| | | | | |outer]|] eqn:Hjson; try (vm_compute in Hjson; discriminate).
  refine (@nested_member_must_be_text W Sample.client_with_token outer
            (PyDict [(lit "type", PyStr (lit "FeatureCollection"));
                     (lit "features", PyList [])])
            eq_refl eq_refl Hjson _ ltac:(discriminate)).
  vm_compute in Hjson. injection Hjson as <-. reflexivity.
Defined.

(** The loop ends without an exception only when every item is a feature. *)
Lemma collect_stations_ok_features `{Collaborators} (features : list pyvalue) :
  forall stations result : list Station.t,
    collect_stations features stations = Ok result ->
    forallb is_feature features = true.
Proof.
  induction features as [|feature rest IH]; intros stations result Hok;
    [reflexivity|].
  cbn [forallb]. apply andb_true_iff.
  assert (Hfeature : is_feature feature = true).
  { unfold is_feature, feature_properties.
    cbn [collect_stations] in Hok.
    destruct feature as [| | | | | |f]; try discriminate.
    cbn [py_get bind_result] in Hok.
    destruct (dict_get f (lit "properties")) as [[| | | | | |p]|];
      try discriminate; reflexivity. }
  split; [exact Hfeature|].
  rewrite (collect_stations_step _ _ _ Hfeature) in Hok.
  destruct (is_station feature).
  - destruct (from_geojson_feature feature) as [st|e]; [|discriminate].
    exact (IH _ _ Hok).
  - exact (IH _ _ Hok).
Qed.

Lemma convert_all_length `{Collaborators} (features : list pyvalue) :
  forall stations,
    convert_all features = Ok stations ->
    List.length stations = List.length features.
Proof.
  induction features as [|feature rest IH]; intros stations Hok.
  - injection Hok as <-. reflexivity.
  - cbn [convert_all] in Hok.
    destruct (from_geojson_feature feature) as [st|e]; [|discriminate].
    cbn [bind_result] in Hok.
    destruct (convert_all rest) as [sts|e]; [|discriminate].
    injection Hok as <-. cbn. now rewrite (IH sts eq_refl).
Qed.

(** X10.  When [list_stations] returns a list, the client held a token, the
    response had status 200 and decoded to an object of type
    [FeatureCollection]; every item of its [features] was a feature; and the
    list holds the converted station entries, in the order of the feed, so it
    is never longer than the feed. *)
Theorem returned_stations_are_sound `{Collaborators} (self : BayWheelsClient)
    (stations : list Station.t) :
  outcome (list_stations self) = Ok stations ->
  let response := post (stations_request self) in
  is_authenticated self = true
  /\ status_code response = 200%Z
  /\ exists d features_value features,
       decode_inventory response = Ok (PyDict d)
       /\ dict_get d (lit "type") = Some (PyStr (lit "FeatureCollection"))
       /\ py_get (PyDict d) (lit "features") (PyList []) = Ok features_value
       /\ py_iter features_value = Ok features
       /\ forallb is_feature features = true
       /\ convert_all (filter is_station features) = Ok stations
       /\ List.length stations <= List.length features.
Proof.
  intros Hok response. unfold outcome in Hok.
  destruct (is_authenticated self) eqn:Hauth.
  2:{ unfold list_stations in Hok. rewrite Hauth in Hok. discriminate. }
  rewrite (list_stations_authenticated self [] Hauth) in Hok.
  cbv zeta in Hok. fold response in Hok. cbn [fst] in Hok.
  destruct (Z.eqb (status_code response) 403); [discriminate|].
  destruct (Z.eqb (status_code response) 200) eqn:H200; [|discriminate].
  apply Z.eqb_eq in H200. cbn [negb] in Hok.
  split; [reflexivity|]. split; [exact H200|].
  unfold parse_stations in Hok.
  destruct (decode_inventory response) as [data|e] eqn:Hdata; [|discriminate].
  cbn [bind_result] in Hok. unfold check_collection in Hok.
  destruct data as [| | | | | |d]; try discriminate.
  cbn [py_get bind_result] in Hok.
  destruct (dict_get d (lit "type")) as [t|] eqn:Htype; [|discriminate].
  destruct (py_eq_str t (lit "FeatureCollection")) eqn:Heq; [|discriminate].
  cbn [negb bind_result] in Hok.
  destruct t as [| | | |s| |]; try discriminate.
  cbn [py_eq_str] in Heq. apply str_eqb_eq in Heq. subst s.
  destruct (py_iter _) as [features|e] eqn:Hiter; [|discriminate].
  cbn [bind_result] in Hok.
  pose proof (collect_stations_ok_features _ _ Hok) as Hwf.
  rewrite (collect_stations_filter _ _ Hwf) in Hok.
  destruct (convert_all (filter is_station features)) as [sts|e] eqn:Hconv;
    [|discriminate].
  injection Hok as <-.
  exists d, (match dict_get d (lit "features") with
             | Some x => x
             | None => PyList []
             end), features.
  repeat split; try assumption; try reflexivity.
  cbn [app]. rewrite (convert_all_length _ Hconv). apply filter_length_le.
Qed.

Lemma returned_stations_are_sound_witness :
  let W := Sample.world Sample.service_wants_email
             (Sample.text_response 200
                "{'type': 'FeatureCollection', 'features': [{'properties': {'map_item_type': 2}}, {'properties': {'map_item_type': 1, 'id': 'a'}}]}") in
  exists stations,
    outcome (list_stations Sample.client_with_token) = Ok stations
    /\ List.length stations = 1
    /\ status_code (post (stations_request Sample.client_with_token)) = 200%Z.
Proof.
  intro W.
  destruct (outcome (list_stations Sample.client_with_token)) as [stations|e]
    eqn:Hok; [|vm_compute in Hok; discriminate].
  exists stations.
  pose proof (@returned_stations_are_sound W Sample.client_with_token stations Hok)
    as [_ [Hstatus _]].
  split; [reflexivity|]. split; [|exact Hstatus].
  vm_compute in Hok. injection Hok as <-. reflexivity.
Defined.

(** ** One station *)

Lemma get_station_outcome `{Collaborators} (self : BayWheelsClient)
    (station_id : pystr) :
  outcome (get_station self station_id)
  = match outcome (list_stations self) with
    | Ok stations => Ok (first_with_id stations station_id)
    | Raise e => Raise e
    end.
Proof.
  unfold outcome, get_station, net_bind, net_lift.
  destruct (list_stations self []) as [[stations|e] log]; reflexivity.
Qed.

Lemma first_with_id_some (stations : list Station.t) (station_id : pystr)
    (station : Station.t) :
  first_with_id stations station_id = Some station ->
  exists before after,
    stations = before ++ station :: after
    /\ Station.id station = station_id
    /\ Forall (fun s => Station.id s <> station_id) before.
Proof.
  induction stations as [|s rest IH]; intros Hfound; [discriminate|].
  cbn [first_with_id] in Hfound.
  destruct (str_eqb (Station.id s) station_id) eqn:Hid.
  - injection Hfound as <-. apply str_eqb_eq in Hid.
    exists [], rest. repeat split; [exact Hid|constructor].
  - destruct (IH Hfound) as (before & after & -> & Hmatch & Hbefore).
    exists (s :: before), after. repeat split; [exact Hmatch|].
    constructor; [|exact Hbefore].
    intros Heq. apply str_eqb_eq in Heq. rewrite Heq in Hid. discriminate.
Qed.

Lemma first_with_id_none (stations : list Station.t) (station_id : pystr) :
  first_with_id stations station_id = None ->
  Forall (fun s => Station.id s <> station_id) stations.
Proof.
  induction stations as [|s rest IH]; intros Hnone; [constructor|].
  cbn [first_with_id] in Hnone.
  destruct (str_eqb (Station.id s) station_id) eqn:Hid; [discriminate|].
  constructor; [|exact (IH Hnone)].
  intros Heq. apply str_eqb_eq in Heq. rewrite Heq in Hid. discriminate.
Qed.

(** X11.  [get_station] returns the first station of the listing whose id
    equals the argument; it returns [None] only when the listing has no
    station with that id; and it raises exactly what [list_stations]
    raises. *)
Theorem get_station_finds_first `{Collaborators} (self : BayWheelsClient)
    (station_id : pystr) :
  (forall station,
     outcome (get_station self station_id) = Ok (Some station) ->
     exists before after,
       outcome (list_stations self) = Ok (before ++ station :: after)
       /\ Station.id station = station_id
       /\ Forall (fun s => Station.id s <> station_id) before)
  /\ (outcome (get_station self station_id) = Ok None ->
      exists stations,
        outcome (list_stations self) = Ok stations
        /\ Forall (fun s => Station.id s <> station_id) stations)
  /\ (forall e,
        outcome (get_station self station_id) = Raise e
        <-> outcome (list_stations self) = Raise e).
Proof.
  rewrite get_station_outcome.
  destruct (outcome (list_stations self)) as [stations|e0].
  - split; [|split].
    + intros station Hfound. injection Hfound as Hfound.
      destruct (first_with_id_some _ _ Hfound) as (before & after & -> & Hrest).
      exists before, after. split; [reflexivity|exact Hrest].
    + intros Hnone. injection Hnone as Hnone.
      exists stations. split; [reflexivity|exact (first_with_id_none _ _ Hnone)].
    + intros e. split; discriminate.
  - split; [|split].
    + discriminate.
    + discriminate.
    + intros e. split; intros Heq; injection Heq as ->; reflexivity.
Qed.

(** ** Lenient decoding *)

Lemma length_induction (P : list N -> Prop) :
  (forall bs, (forall bs', List.length bs' < List.length bs -> P bs') -> P bs) ->
  forall bs, P bs.
Proof.
  intros Hstep bs.
  assert (Hall : forall n bs', List.length bs' < n -> P bs').
  { induction n as [|n IH]; intros bs' Hlen; [lia|].
    apply Hstep. intros bs'' Hlt. apply IH. lia. }
  apply (Hall (S (List.length bs))). lia.
Qed.

Lemma two_byte_range (ch ch2 : N) :
  N.ltb ch 0xC2 = false -> N.ltb ch 0xE0 = true -> is_continuation ch2 = true ->
  (0x80 <= N.shiftl ch 6 + ch2 - (N.shiftl 0xC0 6 + 0x80) < 0x800)%N.
Proof.
  unfold is_continuation. intros H1 H2 H3.
  apply N.ltb_ge in H1. apply N.ltb_lt in H2.
  apply andb_true_iff in H3 as [H3 H4]. apply N.leb_le in H3, H4.
  rewrite !N.shiftl_mul_pow2. change (2 ^ 6)%N with 64%N. lia.
Qed.

Lemma three_byte_range (ch ch2 ch3 : N) :
  N.ltb ch 0xE0 = false -> N.ltb ch 0xF0 = true ->
  negb (is_continuation ch2)
  || (if N.ltb ch2 0xA0 then N.eqb ch 0xE0 else N.eqb ch 0xED) = false ->
  is_continuation ch3 = true ->
  let cp := (N.shiftl ch 12 + N.shiftl ch2 6 + ch3
             - (N.shiftl 0xE0 12 + N.shiftl 0x80 6 + 0x80))%N in
  (0x800 <= cp < 0x10000)%N /\ ~ (0xD800 <= cp <= 0xDFFF)%N.
Proof.
  intros H1 H2 H3 H4 cp. subst cp. unfold is_continuation in *.
  apply N.ltb_ge in H1. apply N.ltb_lt in H2.
  apply orb_false_iff in H3 as [H3 H5]. apply negb_false_iff in H3.
  apply andb_true_iff in H3 as [H3 H3']. apply N.leb_le in H3, H3'.
  apply andb_true_iff in H4 as [H4 H4']. apply N.leb_le in H4, H4'.
  rewrite !N.shiftl_mul_pow2.
  change (2 ^ 6)%N with 64%N. change (2 ^ 12)%N with 4096%N.
  destruct (N.ltb ch2 0xA0) eqn:Hlow.
  - apply N.ltb_lt in Hlow. apply N.eqb_neq in H5. lia.
  - apply N.ltb_ge in Hlow. apply N.eqb_neq in H5. lia.
Qed.

Lemma four_byte_range (ch ch2 ch3 ch4 : N) :
  N.ltb ch 0xF0 = false -> N.ltb ch 0xF5 = true ->
  negb (is_continuation ch2)
  || (if N.ltb ch2 0x90 then N.eqb ch 0xF0 else N.eqb ch 0xF4) = false ->
  negb (is_continuation ch3) = false ->
  is_continuation ch4 = true ->
  (0x10000 <= N.shiftl ch 18 + N.shiftl ch2 12 + N.shiftl ch3 6 + ch4
              - (N.shiftl 0xF0 18 + N.shiftl 0x80 12 + N.shiftl 0x80 6 + 0x80)
   < 0x110000)%N.
Proof.
  unfold is_continuation. intros H1 H2 H3 H4 H5.
  apply N.ltb_ge in H1. apply N.ltb_lt in H2.
  apply orb_false_iff in H3 as [H3 H6]. apply negb_false_iff in H3, H4.
  apply andb_true_iff in H3 as [H3 H3']. apply N.leb_le in H3, H3'.
  apply andb_true_iff in H4 as [H4 H4']. apply N.leb_le in H4, H4'.
  apply andb_true_iff in H5 as [H5 H5']. apply N.leb_le in H5, H5'.
  rewrite !N.shiftl_mul_pow2.
  change (2 ^ 6)%N with 64%N. change (2 ^ 12)%N with 4096%N.
  change (2 ^ 18)%N with 262144%N.
  destruct (N.ltb ch2 0x90) eqn:Hlow.
  - apply N.ltb_lt in Hlow. apply N.eqb_neq in H6. lia.
  - apply N.ltb_ge in Hlow. apply N.eqb_neq in H6. lia.
Qed.

Lemma continuation_not_ascii (b : N) : is_continuation b = true -> is_ascii b = false.
Proof.
  unfold is_continuation, is_ascii. intros Hb.
  apply andb_true_iff in Hb as [Hb _]. apply N.leb_le in Hb.
  apply N.ltb_ge. lia.
Qed.

Lemma not_continuation_rejected (b : N) (other : bool) :
  negb (is_continuation b) || other = false -> is_continuation b = true.
Proof.
  intros Hb. apply orb_false_iff in Hb as [Hb _]. now apply negb_false_iff in Hb.
Qed.

Lemma two_byte_not_ascii (ch ch2 : N) :
  N.ltb ch 0xC2 = false -> N.ltb ch 0xE0 = true -> is_continuation ch2 = true ->
  is_ascii (N.shiftl ch 6 + ch2 - (N.shiftl 0xC0 6 + 0x80)) = false.
Proof.
  intros H1 H2 H3. apply N.ltb_ge.
  pose proof (two_byte_range ch ch2 H1 H2 H3). lia.
Qed.

Lemma three_byte_not_ascii (ch ch2 ch3 : N) :
  N.ltb ch 0xE0 = false -> N.ltb ch 0xF0 = true ->
  negb (is_continuation ch2)
  || (if N.ltb ch2 0xA0 then N.eqb ch 0xE0 else N.eqb ch 0xED) = false ->
  is_continuation ch3 = true ->
  is_ascii (N.shiftl ch 12 + N.shiftl ch2 6 + ch3
            - (N.shiftl 0xE0 12 + N.shiftl 0x80 6 + 0x80)) = false.
Proof.
  intros H1 H2 H3 H4. apply N.ltb_ge.
  pose proof (three_byte_range ch ch2 ch3 H1 H2 H3 H4) as [Hrange _]. lia.
Qed.

Lemma four_byte_not_ascii (ch ch2 ch3 ch4 : N) :
  N.ltb ch 0xF0 = false -> N.ltb ch 0xF5 = true ->
  negb (is_continuation ch2)
  || (if N.ltb ch2 0x90 then N.eqb ch 0xF0 else N.eqb ch 0xF4) = false ->
  negb (is_continuation ch3) = false ->
  is_continuation ch4 = true ->
  is_ascii (N.shiftl ch 18 + N.shiftl ch2 12 + N.shiftl ch3 6 + ch4
            - (N.shiftl 0xF0 18 + N.shiftl 0x80 12 + N.shiftl 0x80 6 + 0x80))
  = false.
Proof.
  intros H1 H2 H3 H4 H5. apply N.ltb_ge.
  pose proof (four_byte_range ch ch2 ch3 ch4 H1 H2 H3 H4 H5). lia.
Qed.

Ltac utf8_branches :=
  repeat match goal with
    | |- context [match ?l with [] => _ | _ :: _ => _ end] =>
        is_var l; destruct l as [|? ?]
    | |- context [if ?c then _ else _] =>
        lazymatch c with
        | is_ascii _ => fail
        | _ => destruct c eqn:?
        end
    end.

(** X12.  Lenient decoding never loses or alters a byte below 128: the ASCII
    characters of the decoded text are the ASCII bytes of the body, in the
    same order, whatever bytes stand between them.  The digits of an
    identifier therefore reach the scan untouched. *)
Theorem lenient_decoding_keeps_ascii (content : list byte) :
  filter is_ascii (bytes_decode_ignore content)
  = filter is_ascii (List.map Byte.to_N content).
Proof.
  unfold bytes_decode_ignore. generalize (List.map Byte.to_N content).
  intros bs.
  induction bs as [bs IH] using length_induction.
  destruct bs as [|ch s1]; [reflexivity|].
  cbn [utf8_decode_ignore].
  destruct (N.ltb ch 0x80) eqn:Hascii.
  { assert (Hch : is_ascii ch = true) by exact Hascii.
    cbn [filter]. rewrite Hch, IH by (cbn; lia). reflexivity. }
  assert (Hch : is_ascii ch = false) by exact Hascii.
  utf8_branches; cbn [filter];
    try rewrite two_byte_not_ascii by assumption;
    try rewrite three_byte_not_ascii by assumption;
    try rewrite four_byte_not_ascii by assumption;
    repeat match goal with
      | Hc : negb (is_continuation ?b) || _ = false |- _ =>
          apply not_continuation_rejected in Hc
      | Hc : negb (is_continuation ?b) = false |- _ =>
          apply negb_false_iff in Hc
      | Hc : is_continuation ?b = true |- _ =>
          apply continuation_not_ascii in Hc
      end;
    repeat match goal with
      | Hc : is_ascii ?b = false |- context [is_ascii ?b] => rewrite Hc
      end;
    try reflexivity;
    try (rewrite IH by (cbn; lia); cbn [filter];
         repeat match goal with
           | Hc : is_ascii ?b = false |- context [is_ascii ?b] => rewrite Hc
           end;
         reflexivity).
Qed.

Lemma ascii_is_scalar (ch : N) : N.ltb ch 0x80 = true -> is_scalar_value ch = true.
Proof.
  intros Hch. apply N.ltb_lt in Hch. unfold is_scalar_value.
  apply orb_true_iff. left. apply N.ltb_lt. lia.
Qed.

Lemma two_byte_scalar (ch ch2 : N) :
  N.ltb ch 0xC2 = false -> N.ltb ch 0xE0 = true -> is_continuation ch2 = true ->
  is_scalar_value (N.shiftl ch 6 + ch2 - (N.shiftl 0xC0 6 + 0x80))%N = true.
Proof.
  intros H1 H2 H3. pose proof (two_byte_range ch ch2 H1 H2 H3).
  unfold is_scalar_value. apply orb_true_iff. left. apply N.ltb_lt. lia.
Qed.

Lemma three_byte_scalar (ch ch2 ch3 : N) :
  N.ltb ch 0xE0 = false -> N.ltb ch 0xF0 = true ->
  negb (is_continuation ch2)
  || (if N.ltb ch2 0xA0 then N.eqb ch 0xE0 else N.eqb ch 0xED) = false ->
  is_continuation ch3 = true ->
  is_scalar_value (N.shiftl ch 12 + N.shiftl ch2 6 + ch3
                   - (N.shiftl 0xE0 12 + N.shiftl 0x80 6 + 0x80))%N = true.
Proof.
  intros H1 H2 H3 H4.
  pose proof (three_byte_range ch ch2 ch3 H1 H2 H3 H4) as [Hrange Hsur].
  cbv zeta in Hrange, Hsur. unfold is_scalar_value.
  set (cp := (N.shiftl ch 12 + N.shiftl ch2 6 + ch3
              - (N.shiftl 0xE0 12 + N.shiftl 0x80 6 + 0x80))%N) in *.
  destruct (N.ltb cp 0xD800) eqn:Hlow; [reflexivity|].
  apply N.ltb_ge in Hlow. cbn [orb]. apply andb_true_iff.
  split; apply N.ltb_lt; lia.
Qed.

Lemma four_byte_scalar (ch ch2 ch3 ch4 : N) :
  N.ltb ch 0xF0 = false -> N.ltb ch 0xF5 = true ->
  negb (is_continuation ch2)
  || (if N.ltb ch2 0x90 then N.eqb ch 0xF0 else N.eqb ch 0xF4) = false ->
  negb (is_continuation ch3) = false ->
  is_continuation ch4 = true ->
  is_scalar_value
    (N.shiftl ch 18 + N.shiftl ch2 12 + N.shiftl ch3 6 + ch4
     - (N.shiftl 0xF0 18 + N.shiftl 0x80 12 + N.shiftl 0x80 6 + 0x80))%N = true.
Proof.
  intros H1 H2 H3 H4 H5.
  pose proof (four_byte_range ch ch2 ch3 ch4 H1 H2 H3 H4 H5) as Hrange.
  unfold is_scalar_value. apply orb_true_iff. right.
  apply andb_true_iff. split; apply N.ltb_lt; lia.
Qed.

Lemma utf8_decode_scalar (bs : list N) :
  forallb is_scalar_value (utf8_decode_ignore bs) = true.
Proof.
  induction bs as [bs IH] using length_induction.
  destruct bs as [|ch s1]; [reflexivity|].
  cbn [utf8_decode_ignore].
  utf8_branches; cbn [forallb];
    try rewrite ascii_is_scalar by assumption;
    try rewrite two_byte_scalar by assumption;
    try rewrite three_byte_scalar by assumption;
    try rewrite four_byte_scalar by assumption;
    try reflexivity;
    try (cbn [andb]; apply IH; cbn; lia).
Qed.

Lemma utf8_decode_length (bs : list N) :
  List.length (utf8_decode_ignore bs) <= List.length bs.
Proof.
  induction bs as [bs IH] using length_induction.
  destruct bs as [|ch s1]; [apply Nat.le_refl|].
  cbn [utf8_decode_ignore].
  utf8_branches; cbn [List.length];
    repeat match goal with
      | |- context [List.length (utf8_decode_ignore ?l)] =>
          let Hl := fresh "Hl" in
          pose proof (IH l ltac:(cbn; lia)) as Hl;
          cbn [List.length] in Hl;
          generalize dependent (List.length (utf8_decode_ignore l)); intros
      end;
    lia.
Qed.



(** X13.  The decoded text holds Unicode scalar values only (no surrogate,
    nothing above U+10FFFF), and has at most one character per byte of the
    body. *)
Theorem lenient_decoding_gives_scalar_values (content : list byte) :
  forallb is_scalar_value (bytes_decode_ignore content) = true
  /\ List.length (bytes_decode_ignore content) <= List.length content.
Proof.
  split; [apply utf8_decode_scalar|].
  unfold bytes_decode_ignore.
  rewrite <- (length_map Byte.to_N content). apply utf8_decode_length.
Qed.

(** ** The match of the pattern *)

Lemma word_prefix_split `{Collaborators} (s : pystr) :
  exists rest, s = word_prefix s ++ rest /\ is_delimiter rest = true.
Proof.
  induction s as [|c s IH].
  - exists []. split; reflexivity.
  - cbn [word_prefix]. destruct (is_word c) eqn:Hc.
    + destruct IH as (rest & Hsplit & Hrest).
      exists rest. split; [|exact Hrest]. cbn [app]. now rewrite <- Hsplit.
    + exists (c :: s). split; [reflexivity|]. cbn [is_delimiter]. now rewrite Hc.
Qed.

(** Every word of a text is a piece of it, with no word character right
    before it or right after it. *)
Lemma words_from_In `{Collaborators} (s : pystr) :
  forall (inside : bool) (w : pystr),
    In w (words_from inside s) ->
    exists pre post,
      s = pre ++ w ++ post
      /\ is_delimiter post = true
      /\ match rev pre with
         | [] => inside = false
         | p :: _ => is_word p = false
         end.
Proof.
  induction s as [|c s IH]; intros inside w Hin; [destruct Hin|].
  cbn [words_from] in Hin.
  destruct (negb inside && is_word c) eqn:Hstart.
  - apply andb_true_iff in Hstart as [Hinside Hc].
    apply negb_true_iff in Hinside.
    destruct Hin as [<- | Hin].
    + destruct (word_prefix_split (c :: s)) as (rest & Hsplit & Hrest).
      exists [], rest. repeat split; assumption.
    + destruct (IH true w Hin) as (pre & post & -> & Hpost & Hpre).
      exists (c :: pre), post. repeat split; [exact Hpost|].
      cbn [rev]. destruct (rev pre) as [|p tl]; [discriminate|exact Hpre].
  - destruct (IH (is_word c) w Hin) as (pre & post & -> & Hpost & Hpre).
    exists (c :: pre), post. repeat split; [exact Hpost|].
    cbn [rev]. destruct (rev pre) as [|p tl]; exact Hpre.
Qed.

(** X14.  What [re.search] returns is a piece of the text: 15 to 20
    characters, all of them digits, with no letter, digit or underscore
    right before it or right after it. *)
Theorem match_is_a_delimited_run `{Collaborators} (text m : pystr) :
  re_search_ride_id text = Some m ->
  exists pre post,
    text = pre ++ m ++ post
    /\ forallb is_digit m = true
    /\ 15 <= List.length m <= 20
    /\ ends_with_delimiter pre = true
    /\ is_delimiter post = true.
Proof.
  rewrite re_search_first_delimited_run. unfold first_delimited_run, words.
  intros Hfind. apply find_some in Hfind as [Hin Hid].
  destruct (words_from_In text false m Hin) as (pre & post & -> & Hpost & Hpre).
  exists pre, post.
  unfold is_ride_id in Hid.
  apply andb_true_iff in Hid as [Hid Hmax].
  apply andb_true_iff in Hid as [Hdigits Hmin].
  apply Nat.leb_le in Hmin, Hmax.
  repeat split; try assumption.
  unfold ends_with_delimiter, is_delimiter.
  destruct (rev pre) as [|p tl]; [reflexivity|]. now rewrite Hpre.
Qed.

Lemma match_is_a_delimited_run_witness :
  let W := Sample.world Sample.service_wants_email (Sample.text_response 200 "{}") in
  exists pre post,
    lit "order 7; ride=98765432109876543; seat 12"
    = pre ++ lit "98765432109876543" ++ post
    /\ ends_with_delimiter pre = true
    /\ is_delimiter post = true.
Proof.
  intro W.
  destruct (@match_is_a_delimited_run W
              (lit "order 7; ride=98765432109876543; seat 12")
              (lit "98765432109876543") eq_refl)
    as (pre & post & Htext & _ & _ & Hpre & Hpost).
  exists pre, post. repeat split; assumption.
Defined.

Lemma word_prefix_all `{Collaborators} (ds : pystr) :
  forallb is_digit ds = true -> word_prefix ds = ds.
Proof.
  intros Hds. rewrite <- (app_nil_r ds) at 1.
  rewrite (word_prefix_app [] ds Hds). apply app_nil_r.
Qed.

Lemma words_inside_digits `{Collaborators} (ds : pystr) :
  forallb is_digit ds = true -> words_from true ds = [].
Proof.
  induction ds as [|d ds IH]; intros Hds; [reflexivity|].
  cbn [forallb] in Hds. apply andb_true_iff in Hds as [Hd Hds].
  cbn [words_from negb andb]. rewrite (is_digit_is_word _ Hd). exact (IH Hds).
Qed.

(** X15.  On a text that is digits and nothing else, the pattern matches
    exactly when there are 15 to 20 of them, and then it takes them all: 14
    digits are too few, and of 21 digits no part is taken. *)
Theorem digits_alone_need_15_to_20 `{Collaborators} (ds : pystr) :
  forallb is_digit ds = true ->
  re_search_ride_id ds
  = if Nat.leb 15 (List.length ds) && Nat.leb (List.length ds) 20
    then Some ds
    else None.
Proof.
  intros Hds. rewrite re_search_first_delimited_run.
  unfold first_delimited_run, words.
  destruct ds as [|d ds]; [reflexivity|].
  pose proof Hds as Hall.
  cbn [forallb] in Hds. apply andb_true_iff in Hds as [Hd Hds].
  cbn [words_from negb andb]. rewrite (is_digit_is_word _ Hd).
  rewrite (words_inside_digits ds Hds), (word_prefix_all (d :: ds) Hall).
  cbn [find]. unfold is_ride_id. rewrite Hall. cbn [andb].
  destruct (Nat.leb 15 (List.length (d :: ds)) && Nat.leb (List.length (d :: ds)) 20);
    reflexivity.
Qed.

Lemma digits_alone_need_15_to_20_witness :
  let W := Sample.world Sample.service_wants_email (Sample.text_response 200 "{}") in
  re_search_ride_id (lit "123456789012345678901") = None
  /\ re_search_ride_id (lit "12345678901234567890") = Some (lit "12345678901234567890").
Proof.
  intro W. split.
  - exact (@digits_alone_need_15_to_20 W (lit "123456789012345678901") eq_refl).
  - exact (@digits_alone_need_15_to_20 W (lit "12345678901234567890") eq_refl).
Defined.

(** * Properties of the script *)

(** The script's functions are straight-line code over a handful of outcomes
    of the client; the proofs below walk through the outcomes, one case for
    each way a call or an [input] can end. *)
Ltac script_unfold :=
  unfold Script.run, Script.authenticate, Script.bind, Script.called,
    Script.print, Script.input, Script.ret, Script.reraise,
    Script.except_authentication, raise;
  cbn [Script.pending Script.printed Script.calls fst snd].

Ltac head_scrutinee t :=
  lazymatch t with
  | match ?x with _ => _ end => head_scrutinee x
  | fst ?x => head_scrutinee x
  | snd ?x => head_scrutinee x
  | Script.calls ?x => head_scrutinee x
  | Script.pending ?x => head_scrutinee x
  | Script.printed ?x => head_scrutinee x
  | negb ?x => head_scrutinee x
  | ?f ?y =>
      lazymatch f with
      | match _ with _ => _ end => head_scrutinee f
      | _ => t
      end
  | _ => t
  end.

Ltac script_step :=
  match goal with
  | |- context [match ?r with _ => _ end] =>
      let x := head_scrutinee r in
      destruct x eqn:?;
      cbn [fst snd negb Script.pending Script.printed Script.calls]
  end.

Ltac script_membership :=
  repeat match goal with
    | H : _ \/ _ |- _ => destruct H as [H|H]; try discriminate H
    | H : False |- _ => destruct H
    end.

(** ** White space *)

Lemma lstrip_split (s : pystr) :
  exists before,
    s = before ++ Script.lstrip s
    /\ forallb Script.is_space before = true
    /\ (forall c rest, Script.lstrip s = c :: rest -> Script.is_space c = false).
Proof.
  induction s as [|c s IH].
  - exists []. cbn. repeat split; intros; discriminate.
  - cbn [Script.lstrip]. destruct (Script.is_space c) eqn:Hc.
    + destruct IH as (before & Hs & Hbefore & Hhead).
      exists (c :: before). split; [cbn; congruence|]. split.
      * cbn. rewrite Hc. exact Hbefore.
      * exact Hhead.
    + exists []. split; [reflexivity|]. split; [reflexivity|].
      intros c' rest Heq. injection Heq as <- _. exact Hc.
Qed.

(** [s.strip()] is [s] less the white space at its two ends. *)
Lemma strip_split (s : pystr) :
  exists before after,
    s = before ++ Script.strip s ++ after
    /\ forallb Script.is_space before = true
    /\ forallb Script.is_space after = true
    /\ (forall c rest, Script.strip s = c :: rest -> Script.is_space c = false)
    /\ (forall front c, Script.strip s = front ++ [c] -> Script.is_space c = false).
Proof.
  unfold Script.strip.
  destruct (lstrip_split s) as (before & Hs & Hbefore & Hhead).
  destruct (lstrip_split (rev (Script.lstrip s))) as (tail & Ht & Htail & Hlast).
  assert (Hmid : Script.lstrip s
                 = rev (Script.lstrip (rev (Script.lstrip s))) ++ rev tail).
  { rewrite <- rev_app_distr, <- Ht, rev_involutive. reflexivity. }
  exists before, (rev tail). split; [|split; [|split; [|split]]].
  - rewrite <- Hmid. exact Hs.
  - exact Hbefore.
  - rewrite forallb_forall in *. intros c Hc. apply Htail, in_rev. exact Hc.
  - intros c rest Heq. apply (Hhead c (rest ++ rev tail)).
    rewrite Hmid, Heq. reflexivity.
  - intros front c Heq. apply (Hlast c (rev front)).
    rewrite <- (rev_involutive (Script.lstrip (rev (Script.lstrip s)))), Heq.
    rewrite rev_app_distr. reflexivity.
Qed.

(** ** Sorting *)

Section Sorting.
Context {A : Type} (key : A -> Z).

Lemma insert_desc_permutation (x : A) (l : list A) :
  Permutation (Script.insert_desc key x l) (x :: l).
Proof.
  induction l as [|y l IH]; cbn; [reflexivity|].
  destruct (Z.ltb (key x) (key y)); [|reflexivity].
  rewrite IH. apply perm_swap.
Qed.

Lemma sort_desc_permutation (l : list A) :
  Permutation (Script.sort_desc key l) l.
Proof.
  induction l as [|x l IH]; cbn; [reflexivity|].
  rewrite insert_desc_permutation, IH. reflexivity.
Qed.

Lemma insert_desc_sorted (x : A) (l : list A) :
  StronglySorted (fun a b => (key b <= key a)%Z) l ->
  StronglySorted (fun a b => (key b <= key a)%Z) (Script.insert_desc key x l).
Proof.
  induction 1 as [|y l Hl IH Hy]; cbn.
  - constructor; constructor.
  - destruct (Z.ltb (key x) (key y)) eqn:Hxy.
    + constructor; [exact IH|].
      rewrite Forall_forall in *. intros z Hz.
      apply (Permutation_in _ (insert_desc_permutation x l)) in Hz.
      destruct Hz as [<-|Hz]; [apply Z.ltb_lt in Hxy; lia | apply Hy, Hz].
    + apply Z.ltb_ge in Hxy. constructor; [constructor; assumption|].
      constructor; [exact Hxy|].
      rewrite Forall_forall in *. intros z Hz. specialize (Hy z Hz). lia.
Qed.

Lemma sort_desc_sorted (l : list A) :
  StronglySorted (fun a b => (key b <= key a)%Z) (Script.sort_desc key l).
Proof.
  induction l as [|x l IH]; cbn; [constructor|].
  apply insert_desc_sorted, IH.
Qed.

(** The sort is stable: the items of one key keep their order. *)
Lemma insert_desc_filter (k : Z) (x : A) (l : list A) :
  StronglySorted (fun a b => (key b <= key a)%Z) l ->
  filter (fun a => Z.eqb (key a) k) (Script.insert_desc key x l)
  = filter (fun a => Z.eqb (key a) k) (x :: l).
Proof.
  induction 1 as [|y l Hl IH Hy]; [reflexivity|].
  cbn [Script.insert_desc].
  destruct (Z.ltb (key x) (key y)) eqn:Hxy; [|reflexivity].
  apply Z.ltb_lt in Hxy.
  cbn [filter] in *. rewrite IH.
  destruct (Z.eqb (key x) k) eqn:Hx; destruct (Z.eqb (key y) k) eqn:Hyk;
    try reflexivity.
  apply Z.eqb_eq in Hx, Hyk. lia.
Qed.

Lemma sort_desc_filter (k : Z) (l : list A) :
  filter (fun a => Z.eqb (key a) k) (Script.sort_desc key l)
  = filter (fun a => Z.eqb (key a) k) l.
Proof.
  induction l as [|x l IH]; [reflexivity|].
  cbn [Script.sort_desc].
  rewrite insert_desc_filter by apply sort_desc_sorted.
  cbn [filter]. rewrite IH. reflexivity.
Qed.

End Sorting.

(** ** The console *)

Lemma for_each_print {A} (f : A -> pystr) (items : list A) (c : Script.console) :
  Script.for_each items (fun x => Script.print (f x)) c
  = (Ok tt, Script.Console (Script.pending c) (Script.printed c ++ map f items)
              (Script.calls c)).
Proof.
  revert c. induction items as [|x items IH]; intros c.
  - cbn. rewrite app_nil_r. destruct c; reflexivity.
  - cbn [Script.for_each map]. unfold Script.bind, Script.print at 1.
    rewrite IH. cbn [Script.pending Script.printed Script.calls].
    rewrite <- app_assoc. reflexivity.
Qed.

(** The console only grows: what [authenticate] does from any console is
    what it does from a fresh one, appended. *)
Lemma authenticate_frame (client : Script.client_api)
    (typed written : list pystr) (made : list Script.call) :
  Script.authenticate client (Script.Console typed written made)
  = (fst (Script.run (Script.authenticate client) typed),
     Script.Console
       (Script.pending (snd (Script.run (Script.authenticate client) typed)))
       (written ++ Script.printed (snd (Script.run (Script.authenticate client) typed)))
       (made ++ Script.calls (snd (Script.run (Script.authenticate client) typed)))).
Proof.
  script_unfold.
  repeat script_step.
  all: cbn [app]; rewrite <- ?app_assoc; cbn [app]; rewrite ?app_nil_r; reflexivity.
Qed.

Lemma authenticate_calls_none_of_main
    (client : Script.client_api) (typed : list pystr) :
  ~ In Script.Close (Script.calls (snd (Script.run (Script.authenticate client) typed)))
  /\ ~ In Script.ListStations
         (Script.calls (snd (Script.run (Script.authenticate client) typed))).
Proof.
  script_unfold.
  repeat script_step.
  all: cbn [app In]; split; intros Hin; script_membership.
Qed.

(** [list_stations] returns, whatever the client does: it writes lines and
    makes one call. *)
Lemma list_stations_returns (client : Script.client_api) (c : Script.console) :
  exists lines,
    Script.list_stations client c
    = (Ok tt, Script.Console (Script.pending c) (Script.printed c ++ lines)
                (Script.calls c ++ [Script.ListStations])).
Proof.
  unfold Script.list_stations, Script.except_exception, Script.bind, Script.called.
  unfold Script.print at 1.
  cbn [Script.pending Script.printed Script.calls].
  destruct (Script.api_list_stations client) as [stations|e].
  - unfold Script.print at 1 2 3 4 5.
    cbn [Script.pending Script.printed Script.calls].
    rewrite for_each_print.
    cbn [Script.pending Script.printed Script.calls].
    eexists. rewrite <- !app_assoc. reflexivity.
  - unfold Script.print. cbn [Script.pending Script.printed Script.calls].
    eexists. rewrite <- !app_assoc. reflexivity.
Qed.

(** ** [authenticate] *)

(** X16.  No [AuthenticationError] of [request_code] or [login] leaves
    [authenticate]: an exception that leaves it is the one [load_token]
    raised, or it is of another class (the end of the input, or what a call
    raised that is no [AuthenticationError]). *)
Theorem authenticate_catches_authentication_errors
    (client : Script.client_api) (typed : list pystr) (e : exn) :
  fst (Script.run (Script.authenticate client) typed) = Raise e ->
  Script.api_load_token client = Raise e
  \/ exn_class_of e <> AuthenticationError.
Proof.
  script_unfold.
  repeat script_step.
  all: intros Hraise; try discriminate.
  all: injection Hraise as <-.
  all: try (left; reflexivity).
  all: right; cbn; congruence.
Qed.

Lemma authenticate_catches_authentication_errors_witness :
  fst (Script.run
         (Script.authenticate
            (Script.sample_client None Script.login_granted (Ok [])))
         [lit "+14155551234"])
  = raise OtherException (lit "EOF when reading a line")
  /\ (Script.api_load_token (Script.sample_client None Script.login_granted (Ok []))
      = raise OtherException (lit "EOF when reading a line")
      \/ exn_class_of (Exn OtherException (lit "EOF when reading a line"))
         <> AuthenticationError).
Proof.
  split; [reflexivity|].
  apply (@authenticate_catches_authentication_errors
           (Script.sample_client None Script.login_granted (Ok []))
           [lit "+14155551234"]).
  reflexivity.
Defined.

(** X17.  [authenticate] returns [True] only when [load_token] gave a saved
    token, or when the last call it made was a [login] that returned a
    token. *)
Theorem authenticate_true_means_token
    (client : Script.client_api) (typed : list pystr) :
  fst (Script.run (Script.authenticate client) typed) = Ok true ->
  (exists token, Script.api_load_token client = Ok (Some token))
  \/ (exists phone code email token before,
        Script.api_login client phone code email = Ok token
        /\ Script.calls (snd (Script.run (Script.authenticate client) typed))
           = before ++ [Script.Login phone code email]).
Proof.
  script_unfold.
  repeat script_step.
  all: intros Htrue; try discriminate.
  all: try (left; eexists; reflexivity).
  all: right; do 5 eexists; split; [eassumption | reflexivity].
Qed.

Lemma authenticate_true_means_token_witness :
  fst (Script.run
         (Script.authenticate
            (Script.sample_client None Script.login_granted (Ok [])))
         [lit "+14155551234"; lit "123456"]) = Ok true
  /\ ((exists token,
         Script.api_load_token
           (Script.sample_client None Script.login_granted (Ok []))
         = Ok (Some token))
      \/ (exists phone code email token before,
            Script.api_login
              (Script.sample_client None Script.login_granted (Ok []))
              phone code email = Ok token
            /\ Script.calls
                 (snd (Script.run
                         (Script.authenticate
                            (Script.sample_client None Script.login_granted (Ok [])))
                         [lit "+14155551234"; lit "123456"]))
               = before ++ [Script.Login phone code email])).
Proof.
  split; [reflexivity|].
  apply authenticate_true_means_token. reflexivity.
Defined.

(** X18.  The calls [authenticate] makes on the client follow one order:
    [load_token] first; then, only for a typed number that starts with a
    plus sign once stripped, [request_code]; then [login] without e-mail for
    the same number and the stripped second line; then at most one more
    [login], for the same number and code, with the stripped third line as
    the e-mail address.  Nothing else is called, and nothing twice. *)
Theorem authenticate_calls_in_order
    (client : Script.client_api) (typed : list pystr) :
  let made := Script.calls (snd (Script.run (Script.authenticate client) typed)) in
  made = [Script.LoadToken]
  \/ exists line rest phone,
       typed = line :: rest /\ phone = Script.strip line
       /\ Script.starts_with_plus phone = true
       /\ (made = [Script.LoadToken; Script.RequestCode phone]
           \/ exists line' rest' code,
                rest = line' :: rest' /\ code = Script.strip line'
                /\ (made = [Script.LoadToken; Script.RequestCode phone;
                            Script.Login phone code None]
                    \/ exists line'' rest'',
                         rest' = line'' :: rest''
                         /\ made = [Script.LoadToken; Script.RequestCode phone;
                                    Script.Login phone code None;
                                    Script.Login phone code
                                      (Some (Script.strip line''))])).
Proof.
  script_unfold.
  repeat script_step.
  all: cbn [app].
  all: try (left; reflexivity).
  all: right; do 3 eexists; split; [reflexivity|]; split; [reflexivity|];
    split; [assumption|].
  all: try (left; reflexivity).
  all: right; do 3 eexists; split; [reflexivity|]; split; [reflexivity|].
  all: try (left; reflexivity).
  all: right; do 2 eexists; split; reflexivity.
Qed.

(** X19.  [login] is called with an e-mail address only after the [login]
    without one, for the same number and code, raised an
    [AuthenticationError] whose text contains "Email verification required";
    and that text was written to the terminal, after a line break, right
    before the prompt for the address, which was not shown earlier. *)
Theorem email_is_asked_after_the_marker
    (client : Script.client_api) (typed : list pystr)
    (phone code email : pystr) :
  In (Script.Login phone code (Some email))
     (Script.calls (snd (Script.run (Script.authenticate client) typed))) ->
  exists e before after,
    Script.api_login client phone code None = Raise e
    /\ exn_class_of e = AuthenticationError
    /\ str_contains (exn_message e) (lit "Email verification required") = true
    /\ Script.printed (snd (Script.run (Script.authenticate client) typed))
       = before ++ [10%N :: exn_message e; lit "Enter your email address: "] ++ after
    /\ ~ In (lit "Enter your email address: ") before.
Proof.
  script_unfold.
  repeat script_step.
  all: cbn [app In]; intros Hin; script_membership.
  all: injection Hin as <- <- <-.
  all: eexists.
  all: match goal with
       | |- exists before after, _ /\ _ /\ _ /\ ?written = _ /\ _ =>
           exists (firstn 5 written), (skipn 7 written)
       end.
  all: split; [eassumption|]; split; [assumption|]; split; [assumption|].
  all: split; [reflexivity|].
  all: cbn [firstn In]; intros Hearlier; script_membership.
  all: vm_compute in Hearlier; discriminate Hearlier.
Qed.

Lemma email_is_asked_after_the_marker_witness :
  In (Script.Login (lit "+14155551234") (lit "123456") (Some (lit "rider@example.org")))
     (Script.calls
        (snd (Script.run
                (Script.authenticate
                   (Script.sample_client None Script.login_wants_email (Ok [])))
                [lit " +14155551234"; lit "123456 "; lit "rider@example.org"])))
  /\ exists e before after,
       Script.api_login (Script.sample_client None Script.login_wants_email (Ok []))
         (lit "+14155551234") (lit "123456") None = Raise e
       /\ exn_class_of e = AuthenticationError
       /\ str_contains (exn_message e) (lit "Email verification required") = true
       /\ Script.printed
            (snd (Script.run
                    (Script.authenticate
                       (Script.sample_client None Script.login_wants_email (Ok [])))
                    [lit " +14155551234"; lit "123456 "; lit "rider@example.org"]))
          = before ++ [10%N :: exn_message e; lit "Enter your email address: "] ++ after
       /\ ~ In (lit "Enter your email address: ") before.
Proof.
  split; [vm_compute; auto 10|].
  apply email_is_asked_after_the_marker with (email := lit "rider@example.org").
  vm_compute. auto 10.
Defined.

(** X20.  The number handed to [request_code] is the first typed line less
    the white space at its two ends: it starts with a plus sign and does not
    end with white space. *)
Theorem request_code_gets_the_trimmed_number
    (client : Script.client_api) (typed : list pystr) (phone : pystr) :
  In (Script.RequestCode phone)
     (Script.calls (snd (Script.run (Script.authenticate client) typed))) ->
  exists line rest before after,
    typed = line :: rest
    /\ line = before ++ phone ++ after
    /\ forallb Script.is_space before = true
    /\ forallb Script.is_space after = true
    /\ Script.starts_with_plus phone = true
    /\ (forall front c, phone = front ++ [c] -> Script.is_space c = false).
Proof.
  script_unfold.
  repeat script_step.
  all: cbn [app In]; intros Hin; script_membership.
  all: injection Hin as <-.
  all: match goal with
       | |- context [Script.strip ?line] =>
           destruct (strip_split line)
             as (before & after & Hline & Hbefore & Hafter & _ & Hlast)
       end.
  all: do 4 eexists; split; [reflexivity|]; split; [exact Hline|];
    split; [exact Hbefore|]; split; [exact Hafter|];
    split; [assumption | exact Hlast].
Qed.

Lemma request_code_gets_the_trimmed_number_witness :
  In (Script.RequestCode (lit "+14155551234"))
     (Script.calls
        (snd (Script.run
                (Script.authenticate
                   (Script.sample_client None Script.login_granted (Ok [])))
                [lit "  +14155551234 "; lit "123456"])))
  /\ exists line rest before after,
       [lit "  +14155551234 "; lit "123456"] = line :: rest
       /\ line = before ++ lit "+14155551234" ++ after
       /\ forallb Script.is_space before = true
       /\ forallb Script.is_space after = true
       /\ Script.starts_with_plus (lit "+14155551234") = true
       /\ (forall front c,
             lit "+14155551234" = front ++ [c] -> Script.is_space c = false).
Proof.
  split; [vm_compute; auto 10|].
  apply (@request_code_gets_the_trimmed_number
           (Script.sample_client None Script.login_granted (Ok []))).
  vm_compute. auto 10.
Defined.

(** X21.  [authenticate] returns [False] in two cases only: the typed
    number, stripped, does not start with a plus sign, and then the client
    was asked for nothing but the saved token; or [request_code] or a
    [login] for that number raised an [AuthenticationError], and then the
    last line written is "Authentication failed: " followed by its text. *)
Theorem authenticate_false_means_refused
    (client : Script.client_api) (typed : list pystr) :
  fst (Script.run (Script.authenticate client) typed) = Ok false ->
  exists line rest,
    typed = line :: rest
    /\ ((Script.starts_with_plus (Script.strip line) = false
         /\ Script.calls (snd (Script.run (Script.authenticate client) typed))
            = [Script.LoadToken])
        \/ exists e,
             exn_class_of e = AuthenticationError
             /\ (Script.api_request_code client (Script.strip line) = Raise e
                 \/ exists code email,
                      Script.api_login client (Script.strip line) code email = Raise e)
             /\ last (Script.printed
                        (snd (Script.run (Script.authenticate client) typed))) []
                = lit "Authentication failed: " ++ exn_message e).
Proof.
  script_unfold.
  repeat script_step.
  all: intros Hfalse; try discriminate.
  all: do 2 eexists; split; [reflexivity|].
  all: try (left; split; [assumption | reflexivity]).
  all: right; eexists; split; [eassumption|]; split;
    [ first [ left; eassumption | right; do 2 eexists; eassumption ]
    | rewrite last_last; reflexivity ].
Qed.

Lemma authenticate_false_means_refused_witness :
  fst (Script.run
         (Script.authenticate
            (Script.sample_client None Script.login_refused (Ok [])))
         [lit "+14155551234"; lit "000000"]) = Ok false
  /\ exists line rest,
       [lit "+14155551234"; lit "000000"] = line :: rest
       /\ ((Script.starts_with_plus (Script.strip line) = false
            /\ Script.calls
                 (snd (Script.run
                         (Script.authenticate
                            (Script.sample_client None Script.login_refused (Ok [])))
                         [lit "+14155551234"; lit "000000"]))
               = [Script.LoadToken])
           \/ exists e,
                exn_class_of e = AuthenticationError
                /\ (Script.api_request_code
                      (Script.sample_client None Script.login_refused (Ok []))
                      (Script.strip line) = Raise e
                    \/ exists code email,
                         Script.api_login
                           (Script.sample_client None Script.login_refused (Ok []))
                           (Script.strip line) code email = Raise e)
                /\ last (Script.printed
                           (snd (Script.run
                                   (Script.authenticate
                                      (Script.sample_client None Script.login_refused
                                         (Ok [])))
                                   [lit "+14155551234"; lit "000000"]))) []
                   = lit "Authentication failed: " ++ exn_message e).
Proof.
  split; [reflexivity|].
  apply authenticate_false_means_refused. reflexivity.
Defined.

(** ** [list_stations] and [main] *)

(** X22.  When the client returns a listing, the lines of the table (what
    is written after the six lines of heading) are the rows of the first 20
    stations of the listing put in descending order of e-bikes plus bikes:
    no station left out has more than a station shown, and stations of
    equal totals stay in the order of the listing. *)
Theorem table_shows_the_top_twenty
    (client : Script.client_api) (typed : list pystr) (stations : list Station.t) :
  Script.api_list_stations client = Ok stations ->
  exists shown hidden,
    skipn 6 (Script.printed (snd (Script.run (Script.list_stations client) typed)))
    = map Script.row shown
    /\ List.length shown = Nat.min 20 (List.length stations)
    /\ Permutation (shown ++ hidden) stations
    /\ StronglySorted
         (fun a b => (Script.total_bikes b <= Script.total_bikes a)%Z)
         (shown ++ hidden)
    /\ (forall k,
          filter (fun s => Z.eqb (Script.total_bikes s) k) (shown ++ hidden)
          = filter (fun s => Z.eqb (Script.total_bikes s) k) stations).
Proof.
  intros Hlist.
  exists (firstn 20 (Script.sort_desc Script.total_bikes stations)),
         (skipn 20 (Script.sort_desc Script.total_bikes stations)).
  rewrite firstn_skipn.
  split; [|split; [|split; [|split]]].
  - unfold Script.run, Script.list_stations, Script.except_exception, Script.bind,
      Script.called. rewrite Hlist.
    unfold Script.print at 1 2 3 4 5 6.
    cbn [Script.pending Script.printed Script.calls].
    rewrite for_each_print.
    cbn [snd Script.printed app skipn]. reflexivity.
  - rewrite length_firstn.
    rewrite (Permutation_length (sort_desc_permutation Script.total_bikes stations)).
    reflexivity.
  - apply sort_desc_permutation.
  - apply sort_desc_sorted.
  - intros k. apply sort_desc_filter.
Qed.

Lemma table_shows_the_top_twenty_witness :
  Script.api_list_stations
    (Script.sample_client None Script.login_granted (Ok Script.sample_stations))
  = Ok Script.sample_stations
  /\ exists shown hidden,
       skipn 6 (Script.printed
                  (snd (Script.run
                          (Script.list_stations
                             (Script.sample_client None Script.login_granted
                                (Ok Script.sample_stations)))
                          [])))
       = map Script.row shown
       /\ List.length shown = Nat.min 20 (List.length Script.sample_stations)
       /\ Permutation (shown ++ hidden) Script.sample_stations
       /\ StronglySorted
            (fun a b => (Script.total_bikes b <= Script.total_bikes a)%Z)
            (shown ++ hidden)
       /\ (forall k,
             filter (fun s => Z.eqb (Script.total_bikes s) k) (shown ++ hidden)
             = filter (fun s => Z.eqb (Script.total_bikes s) k) Script.sample_stations).
Proof.
  split; [reflexivity|].
  apply table_shows_the_top_twenty. reflexivity.
Defined.

(** X23.  When [close] and (if asked for) [clear_token] succeed, the exit
    status of [main] is decided by [authenticate] alone: 0 when it returned
    [True], 1 when it returned [False], and its exception when it raised.  A
    listing that fails does not change the status. *)
Theorem main_exit_status
    (clear_token : bool) (client : Script.client_api) (typed : list pystr) :
  Script.api_close client = Ok tt ->
  (clear_token = true -> Script.api_clear_token client = Ok tt) ->
  fst (Script.run (Script.main clear_token client) typed)
  = match fst (Script.run (Script.authenticate client) typed) with
    | Ok true => Ok 0%Z
    | Ok false => Ok 1%Z
    | Raise e => Raise e
    end.
Proof.
  intros Hclose Hclear.
  unfold Script.main, Script.with_client. unfold Script.run at 1.
  unfold Script.bind at 1.
  assert (Hfirst : exists written made,
             (if clear_token
              then Script.bind (Script.print (lit "Clearing saved token..."))
                     (fun _ => Script.called Script.ClearToken
                                 (Script.api_clear_token client))
              else Script.ret tt) (Script.Console typed [] [])
             = (Ok tt, Script.Console typed written made)).
  { destruct clear_token.
    - rewrite (Hclear eq_refl). do 2 eexists. reflexivity.
    - do 2 eexists. reflexivity. }
  destruct Hfirst as (written & made & ->).
  unfold Script.bind at 1. rewrite authenticate_frame.
  destruct (fst (Script.run (Script.authenticate client) typed)) as [[|]|e].
  - cbn [negb]. unfold Script.bind at 1.
    match goal with
    | |- context [Script.list_stations client ?c] =>
        destruct (list_stations_returns client c) as (lines & ->)
    end.
    unfold Script.ret, Script.called. rewrite Hclose. reflexivity.
  - cbn [negb]. unfold Script.ret, Script.called. rewrite Hclose. reflexivity.
  - unfold Script.called. rewrite Hclose. reflexivity.
Qed.

Lemma main_exit_status_witness :
  Script.api_close
    (Script.sample_client None Script.login_granted
       (raise BayWheelsError (lit "Failed to get stations: 500")))
  = Ok tt
  /\ Script.api_clear_token
       (Script.sample_client None Script.login_granted
          (raise BayWheelsError (lit "Failed to get stations: 500")))
     = Ok tt
  /\ fst (Script.run
            (Script.main true
               (Script.sample_client None Script.login_granted
                  (raise BayWheelsError (lit "Failed to get stations: 500"))))
            [lit "+14155551234"; lit "123456"])
     = Ok 0%Z.
Proof.
  split; [reflexivity|]. split; [reflexivity|].
  exact (@main_exit_status true
           (Script.sample_client None Script.login_granted
              (raise BayWheelsError (lit "Failed to get stations: 500")))
           [lit "+14155551234"; lit "123456"] eq_refl (fun _ => eq_refl)).
Defined.

(** X24.  On every path through [main] the session is closed, once, and as
    the last thing done with the client; and the stations are asked for
    only after [authenticate] returned [True]. *)
Theorem main_always_closes
    (clear_token : bool) (client : Script.client_api) (typed : list pystr) :
  exists before,
    Script.calls (snd (Script.run (Script.main clear_token client) typed))
    = before ++ [Script.Close]
    /\ ~ In Script.Close before
    /\ (In Script.ListStations before ->
        fst (Script.run (Script.authenticate client) typed) = Ok true).
Proof.
  destruct (authenticate_calls_none_of_main client typed) as [Hclose Hlist].
  unfold Script.main, Script.with_client. unfold Script.run at 1.
  unfold Script.bind at 1.
  assert (Hfirst : exists r written made,
             (if clear_token
              then Script.bind (Script.print (lit "Clearing saved token..."))
                     (fun _ => Script.called Script.ClearToken
                                 (Script.api_clear_token client))
              else Script.ret tt) (Script.Console typed [] [])
             = (r, Script.Console typed written made)
             /\ ~ In Script.Close made /\ ~ In Script.ListStations made).
  { destruct clear_token.
    - do 3 eexists. split; [reflexivity|]. cbn. split; intros [H|[]]; discriminate H.
    - do 3 eexists. split; [reflexivity|]. cbn. tauto. }
  destruct Hfirst as (r & written & made & -> & Hmade & Hmade').
  destruct r as [[]|e0].
  - unfold Script.bind at 1. rewrite authenticate_frame.
    destruct (fst (Script.run (Script.authenticate client) typed)) as [[|]|e].
    + cbn [negb]. unfold Script.bind at 1.
      match goal with
      | |- context [Script.list_stations client ?c] =>
          destruct (list_stations_returns client c) as (lines & ->)
      end.
      unfold Script.ret, Script.called.
      cbn [Script.pending Script.printed Script.calls].
      eexists. split; [|split; [|reflexivity]].
      * destruct (Script.api_close client) as [[]|]; reflexivity.
      * rewrite !in_app_iff. cbn [In]. intros [[H|H]|[H|[]]];
          [apply Hmade, H | apply Hclose, H | discriminate H].
    + cbn [negb]. unfold Script.ret, Script.called.
      cbn [Script.pending Script.printed Script.calls].
      eexists. split; [|split].
      * destruct (Script.api_close client) as [[]|]; reflexivity.
      * rewrite in_app_iff. intros [H|H]; [apply Hmade, H | apply Hclose, H].
      * rewrite in_app_iff. intros [H|H]; [destruct (Hmade' H) | destruct (Hlist H)].
    + unfold Script.called.
      cbn [Script.pending Script.printed Script.calls].
      eexists. split; [|split].
      * destruct (Script.api_close client) as [[]|]; reflexivity.
      * rewrite in_app_iff. intros [H|H]; [apply Hmade, H | apply Hclose, H].
      * rewrite in_app_iff. intros [H|H]; [destruct (Hmade' H) | destruct (Hlist H)].
  - unfold Script.called.
    cbn [Script.pending Script.printed Script.calls].
    eexists. split; [|split].
    + destruct (Script.api_close client) as [[]|]; reflexivity.
    + exact Hmade.
    + intros H. destruct (Hmade' H).
Qed.
